(** * astroNN dataset compiler: catalogue filtering and spectral gap removal

    A shallow embedding of [astroNN/datasets/h5_compiler.py] and
    [astroNN/apogee/apogee_shared.py], and the properties of the dataset
    compiler that the specification states about them; then the parts of
    [astroNN/NN/train.py] and [astroNN/NN/test.py] that select, name and
    predict the labels of the compiled tables.

    Conventions of the embedding.
    - A Python [int] (array index, bitmask flag, data-release number) is a [Z].
    - A numpy array of one dimension is a [list]; an index array is a [list Z].
    - A floating-point catalogue value is an [fval]: a finite number, an
      infinity or NaN.  Comparisons are the IEEE ones (NaN fails every ordered
      comparison and is different from everything).  Rounding and the sign of
      zero are not modelled: arithmetic on finite values is exact.
    - A Python exception is the [Err] case of [result]. *)

From Stdlib Require Import ZArith QArith List Permutation Sorted Lia Ascii.
From stdpp Require Import base tactics list sorting strings.

Local Open Scope Z_scope.

(** ** Exceptions *)

Inductive exn : Type :=
| ValueError (msg : string)
| IndexError
| TypeError.

Inductive result (A : Type) : Type :=
| Ok (a : A)
| Err (e : exn).
Arguments Ok {A} a.
Arguments Err {A} e.

#[export] Instance result_ret : MRet result := fun A a => Ok a.
#[export] Instance result_bind : MBind result := fun A B k r =>
  match r with
  | Ok a => k a
  | Err e => Err e
  end.
#[export] Instance result_fmap : FMap result := fun A B f r =>
  match r with
  | Ok a => Ok (f a)
  | Err e => Err e
  end.

(** ** Floating-point values *)

Inductive fval : Type :=
| FNum (q : Q)
| FInf (negative : bool)
| FNaN.

Definition Qltb (x y : Q) : bool := negb (Qle_bool y x).

(** [x < c], [x > c], [x <= c], [x >= c] and [x != c] for an array element [x]
    and a Python number [c]. *)
Definition f_lt (x : fval) (c : Q) : bool :=
  match x with
  | FNum q => Qltb q c
  | FInf negative => negative
  | FNaN => false
  end.

Definition f_gt (x : fval) (c : Q) : bool :=
  match x with
  | FNum q => Qltb c q
  | FInf negative => negb negative
  | FNaN => false
  end.

Definition f_le (x : fval) (c : Q) : bool :=
  match x with
  | FNum q => Qle_bool q c
  | FInf negative => negative
  | FNaN => false
  end.

Definition f_ge (x : fval) (c : Q) : bool :=
  match x with
  | FNum q => Qle_bool c q
  | FInf negative => negb negative
  | FNaN => false
  end.

Definition f_ne (x : fval) (c : Q) : bool :=
  match x with
  | FNum q => negb (Qeq_bool q c)
  | _ => true
  end.

(** [x / y] on floats; a zero divisor is taken as [+0]. *)
Definition f_div (x y : fval) : fval :=
  match x, y with
  | FNaN, _ | _, FNaN => FNaN
  | FInf _, FInf _ => FNaN
  | FInf s, FNum b => FInf (xorb s (Qltb b 0))
  | FNum _, FInf _ => FNum 0
  | FNum a, FNum b =>
      if Qeq_bool b 0 then (if Qeq_bool a 0 then FNaN else FInf (Qltb a 0))
      else FNum (a / b)
  end.

Definition is_nan (x : fval) : bool :=
  match x with
  | FNaN => true
  | _ => false
  end.

(** ** The numpy primitives the compiler uses *)

Module np.

(** [np.arange(a, b, 1)]: the integers of the half-open range [a, b). *)
Fixpoint count_from (a : Z) (len : nat) : list Z :=
  match len with
  | O => []
  | S len => a :: count_from (a + 1) len
  end.

Definition arange (a b : Z) : list Z := count_from a (Z.to_nat (b - a)).

(** Boolean-mask selection [arr[keep]] ([np.compress(keep, arr)]), the mask
    being given as a predicate on the position; [i] is the position of the
    head of [arr]. *)
Fixpoint compress_from {A} (i : Z) (keep : Z -> bool) (arr : list A) : list A :=
  match arr with
  | [] => []
  | x :: r =>
      if keep i then x :: compress_from (i + 1) keep r
      else compress_from (i + 1) keep r
  end.

Definition compress {A} (keep : Z -> bool) (arr : list A) : list A :=
  compress_from 0 keep arr.

Definition memZ (i : Z) (l : list Z) : bool := existsb (Z.eqb i) l.

(** An index array is valid for an array of [n] elements when every index
    lies in [-n, n); a negative index counts from the end. *)
Definition valid_indices (n : Z) (obj : list Z) : bool :=
  forallb (fun i => (- n <=? i) && (i <? n)) obj.

Definition wrap_index (n i : Z) : Z := if i <? 0 then i + n else i.

(** [np.delete(arr, obj)] for an array [obj] of integer indices:
    [keep = ones(n); keep[obj] = False; return arr[keep]].  An index outside
    [-n, n) raises [IndexError] (numpy >= 1.19; older releases ignored it
    with a deprecation warning). *)
Definition delete {A} (arr : list A) (obj : list Z) : result (list A) :=
  let n := Z.of_nat (length arr) in
  if valid_indices n obj then
    let obj := map (wrap_index n) obj in
    Ok (compress (fun i => negb (memZ i obj)) arr)
  else Err IndexError.

(** Integer-array indexing [arr[obj]]. *)
Fixpoint take {A} (arr : list A) (obj : list Z) : result (list A) :=
  match obj with
  | [] => Ok []
  | i :: r =>
      let n := Z.of_nat (length arr) in
      if (- n <=? i) && (i <? n) then
        match arr !! Z.to_nat (wrap_index n i) with
        | Some x => xs ← take arr r; Ok (x :: xs)
        | None => Err IndexError
        end
      else Err IndexError
  end.

(** [np.where(mask)[0]]: the positions at which the mask holds, ascending. *)
Fixpoint where_from (i : Z) (mask : list bool) : list Z :=
  match mask with
  | [] => []
  | b :: r => if b then i :: where_from (i + 1) r else where_from (i + 1) r
  end.

Definition where_ (mask : list bool) : list Z := where_from 0 mask.

(** [ar.sort()] on an integer array. *)
Definition sort (ar : list Z) : list Z := merge_sort Z.le ar.

(** [np.unique(ar)]: sort, then keep each element that differs from its
    predecessor ([flag = concatenate(([True], aux[1:] != aux[:-1]))]). *)
Fixpoint drop_repeats (prev : Z) (aux : list Z) : list Z :=
  match aux with
  | [] => []
  | x :: r => if x =? prev then drop_repeats x r else x :: drop_repeats x r
  end.

Definition unique (ar : list Z) : list Z :=
  match sort ar with
  | [] => []
  | x :: r => x :: drop_repeats x r
  end.

(** [aux[:-1][aux[1:] == aux[:-1]]]: the elements equal to their successor. *)
Fixpoint repeated (aux : list Z) : list Z :=
  match aux with
  | x :: (y :: _) as r => if y =? x then x :: repeated r else repeated r
  | _ => []
  end.

(** [np.intersect1d(ar1, ar2)]: both arguments are made unique, concatenated
    and sorted; the values that then occur twice are the common ones. *)
Definition intersect1d (ar1 ar2 : list Z) : list Z :=
  let ar1 := unique ar1 in
  let ar2 := unique ar2 in
  let aux := sort (ar1 ++ ar2) in
  repeated aux.

End np.

(** [functools.reduce(f, seq)] without initial value: a left fold, and a
    [TypeError] on an empty sequence. *)
Definition reduce {A} (f : A -> A -> A) (seq : list A) : result A :=
  match seq with
  | [] => Err TypeError
  | x :: r => Ok (fold_left f r x)
  end.

(** ** apogee_shared.py *)

Definition apogee_default_dr (dr : option Z) : Z :=
  match dr with
  | None => 14
  | Some d => d
  end.

(** ** h5_compiler.py: gap_delete *)

Definition unsupported_dr : exn := ValueError "Only DR13 and DR14 are supported".

Definition gap_delete {A} (single_spec : list A) (dr : option Z) : result (list A) :=
  let dr := apogee_default_dr dr in
  if dr =? 13 then
    let arr1 := np.arange 0 322 in
    let arr2 := np.arange 3243 3648 in
    let arr3 := np.arange 6049 6412 in
    let arr4 := np.arange 8306 (Z.of_nat (length single_spec)) in
    single_spec ← np.delete single_spec arr4;
    single_spec ← np.delete single_spec arr3;
    single_spec ← np.delete single_spec arr2;
    single_spec ← np.delete single_spec arr1;
    Ok single_spec
  else if dr =? 14 then
    let arr1 := np.arange 0 246 in
    let arr2 := np.arange 3274 3585 in
    let arr3 := np.arange 6080 6344 in
    let arr4 := np.arange 8335 8575 in
    single_spec ← np.delete single_spec arr4;
    single_spec ← np.delete single_spec arr3;
    single_spec ← np.delete single_spec arr2;
    single_spec ← np.delete single_spec arr1;
    Ok single_spec
  else Err unsupported_dr.

(** The gap layout of a data release, as half-open index ranges [(lo, hi)]
    over a spectrum of [n] pixels, read off the [np.arange] calls above. *)
Definition gaps (dr n : Z) : list (Z * Z) :=
  if dr =? 13 then [(0, 322); (3243, 3648); (6049, 6412); (8306, n)]
  else if dr =? 14 then [(0, 246); (3274, 3585); (6080, 6344); (8335, 8575)]
  else [].

Definition in_gaps (g : list (Z * Z)) (i : Z) : bool :=
  existsb (fun r => (fst r <=? i) && (i <? snd r)) g.

Definition gap_width (g : list (Z * Z)) : Z :=
  fold_right (fun r acc => (snd r - fst r) + acc) 0 g.

(** Every range of the layout lies within a spectrum of [n] pixels. *)
Definition gaps_fit (dr n : Z) : bool :=
  forallb (fun r => (fst r <=? snd r) && (snd r <=? n)) (gaps dr n).

(** The number of pixels of a combined spectrum (the end of the last DR14
    range). *)
Definition nominal_length : Z := 8575.

(** The elements of a spectrum whose index lies in none of the ranges of the
    release, in their original order. *)
Definition gap_free {A} (dr : Z) (spec : list A) : list A :=
  let g := gaps dr (Z.of_nat (length spec)) in
  np.compress (fun i => negb (in_gaps g i)) spec.

(** ** The allStar catalogue *)

(** One row of the allStar table ([hdulist[1].data]); [PARAM] and [X_H] are
    the vector-valued columns, read as [PARAM[:, k]] and [X_H[:, k]]. *)
Record allstar_row : Type := {
  APOGEE_ID : string;
  LOCATION_ID : Z;
  STARFLAG : Z;
  ASPCAPFLAG : Z;
  VSCATTER : fval;
  SNR : fval;
  RA : fval;
  DEC : fval;
  K : fval;
  NVISITS : Z;
  PARAM : list fval;
  X_H : list fval
}.

(** Entry [k] of a vector-valued cell.  The table schema fixes the width of
    [PARAM] and [X_H]; an entry beyond the end reads as NaN here. *)
Definition entry (v : list fval) (k : nat) : fval := default FNaN (v !! k).

(** The keyword arguments of [compile_apogee], with their defaults. *)
Record apogee_cuts : Type := {
  starflagcut : bool;
  aspcapflagcut : bool;
  vscattercut : Q;
  SNRtrain_low : Q;
  SNRtrain_high : Q;
  tefflow : Q;
  teffhigh : Q;
  ironlow : Q;
  SNRtest_low : Q;
  SNRtest_high : Q
}.

Definition default_cuts : apogee_cuts := {|
  starflagcut := true;
  aspcapflagcut := true;
  vscattercut := 1;
  SNRtrain_low := 200;
  SNRtrain_high := 99999;
  tefflow := 4000;
  teffhigh := 5500;
  ironlow := -3;
  SNRtest_low := 100;
  SNRtest_high := 200
|}.

(** ** compile_apogee: the filtering stage *)

Section Filtering.

Variable cat : list allstar_row.
Variable c : apogee_cuts.

Definition teff_of (r : allstar_row) : fval := entry (PARAM r) 0.
Definition logg_of (r : allstar_row) : fval := entry (PARAM r) 1.
Definition Fe_of (r : allstar_row) : fval := entry (X_H r) 17.

(** [total = range(len(starflag))] *)
Definition total : list Z := np.arange 0 (Z.of_nat (length cat)).

Definition DR_fitlered_starflag : list Z :=
  if starflagcut c then np.where_ (map (fun r => STARFLAG r =? 0) cat) else total.

Definition DR_fitlered_aspcapflag : list Z :=
  if aspcapflagcut c then np.where_ (map (fun r => ASPCAPFLAG r =? 0) cat) else total.

Definition DR_fitlered_temp_lower : list Z :=
  np.where_ (map (fun r => f_ge (teff_of r) (tefflow c)) cat).

Definition DR_fitlered_temp_upper : list Z :=
  np.where_ (map (fun r => f_le (teff_of r) (teffhigh c)) cat).

Definition DR_fitlered_vscatter : list Z :=
  np.where_ (map (fun r => f_lt (VSCATTER r) (vscattercut c)) cat).

Definition DR_fitlered_Fe : list Z :=
  np.where_ (map (fun r => f_gt (Fe_of r) (ironlow c)) cat).

Definition DR_fitlered_logg : list Z :=
  np.where_ (map (fun r => f_ne (logg_of r) (-9999)) cat).

Definition DR_fitlered_snrlow : list Z :=
  np.where_ (map (fun r => f_gt (SNR r) (SNRtrain_low c)) cat).

Definition DR_fitlered_snrhigh : list Z :=
  np.where_ (map (fun r => f_lt (SNR r) (SNRtrain_high c)) cat).

Definition DR_fitlered_SNRtest_low : list Z :=
  np.where_ (map (fun r => f_gt (SNR r) (SNRtest_low c)) cat).

Definition DR_fitlered_SNRtest_high : list Z :=
  np.where_ (map (fun r => f_lt (SNR r) (SNRtest_high c)) cat).

Definition DR14_fitlered_location : list Z :=
  np.where_ (map (fun r => 1 <? LOCATION_ID r) cat).

(** The tuples handed to [reduce(np.intersect1d, ...)]. *)
Definition train_criteria : list (list Z) :=
  [ DR_fitlered_starflag; DR_fitlered_aspcapflag; DR_fitlered_temp_lower;
    DR_fitlered_vscatter; DR_fitlered_Fe; DR_fitlered_logg;
    DR_fitlered_snrlow;
    DR_fitlered_snrhigh; DR14_fitlered_location; DR_fitlered_temp_upper ].

Definition test_criteria : list (list Z) :=
  [ DR_fitlered_starflag; DR_fitlered_aspcapflag; DR_fitlered_temp_lower;
    DR_fitlered_vscatter; DR_fitlered_Fe; DR_fitlered_logg;
    DR_fitlered_SNRtest_low;
    DR_fitlered_SNRtest_high; DR14_fitlered_location;
    DR_fitlered_temp_upper ].

Definition filtered_train_index : result (list Z) :=
  reduce np.intersect1d train_criteria.

Definition filtered_test_index : result (list Z) :=
  reduce np.intersect1d test_criteria.

(** What a row has to satisfy apart from the two signal-to-noise cuts. *)
Definition passes_other_cuts (r : allstar_row) : bool :=
  (if starflagcut c then STARFLAG r =? 0 else true)
  && (if aspcapflagcut c then ASPCAPFLAG r =? 0 else true)
  && f_ge (teff_of r) (tefflow c)
  && f_lt (VSCATTER r) (vscattercut c)
  && f_gt (Fe_of r) (ironlow c)
  && f_ne (logg_of r) (-9999)
  && (1 <? LOCATION_ID r)
  && f_le (teff_of r) (teffhigh c).

Definition in_train_band (r : allstar_row) : bool :=
  f_gt (SNR r) (SNRtrain_low c) && f_lt (SNR r) (SNRtrain_high c).

Definition in_test_band (r : allstar_row) : bool :=
  f_gt (SNR r) (SNRtest_low c) && f_lt (SNR r) (SNRtest_high c).

(** The open intervals [(SNRtrain_low, SNRtrain_high)] and
    [(SNRtest_low, SNRtest_high)] have a point in common. *)
Definition snr_bands_overlap : bool :=
  Qltb (SNRtrain_low c) (SNRtrain_high c)
  && Qltb (SNRtest_low c) (SNRtest_high c)
  && Qltb (SNRtrain_low c) (SNRtest_high c)
  && Qltb (SNRtest_low c) (SNRtrain_high c).

End Filtering.

(** ** compile_apogee: assembling the two tables *)

(** An aspcapStar file as the compiler reads it: HDU 1 is the normalised
    flux, HDU 3 the best-fit spectrum. *)
Record aspcap_file : Type := {
  hdu1_data : list fval;
  hdu3_data : list fval
}.

(** The Python lists grown row by row inside the loop over
    [filtered_index].  [col_X_H] holds the element-abundance lists, one per
    entry of [X_H_columns] and in that order. *)
Record columns : Type := {
  col_spec : list (list fval);
  col_spec_bestfit : list (list fval);
  col_SNR : list fval;
  col_RA : list fval;
  col_DEC : list fval;
  col_teff : list fval;
  col_logg : list fval;
  col_MH : list fval;
  col_alpha_M : list fval;
  col_X_H : list (list fval)
}.

(** Dataset name and [X_H] column of every abundance list
    ([C.extend([hdulist[1].data['X_H'][index, 0]])] and so on). *)
Definition X_H_columns : list (string * nat) :=
  [ ("C", 0); ("Cl", 1); ("N", 2); ("O", 3); ("Na", 4); ("Mg", 5); ("Al", 6);
    ("Si", 7); ("P", 8); ("S", 9); ("K", 10); ("Ca", 11); ("Ti", 12);
    ("Ti2", 13); ("V", 14); ("Cr", 15); ("Mn", 16); ("Fe", 17); ("Ni", 19);
    ("Cu", 20); ("Ge", 21); ("Rb", 22); ("Y", 23); ("Nd", 24) ]%nat.

Definition empty_columns : columns := {|
  col_spec := [];
  col_spec_bestfit := [];
  col_SNR := [];
  col_RA := [];
  col_DEC := [];
  col_teff := [];
  col_logg := [];
  col_MH := [];
  col_alpha_M := [];
  col_X_H := map (fun _ => []) X_H_columns
|}.

Inductive dataset : Type :=
| Spectra (rows : list (list fval))
| Values (v : list fval)
| Indices (v : list Z).

Definition h5file : Type := list (string * dataset).

(** The files on disk, in the order they were created. *)
Definition disk : Type := list (string * h5file).

Definition rows_of (d : dataset) : nat :=
  match d with
  | Spectra rows => length rows
  | Values v => length v
  | Indices v => length v
  end.

Fixpoint dataset_of (name : string) (f : h5file) : option dataset :=
  match f with
  | [] => None
  | (n, d) :: r => if String.eqb n name then Some d else dataset_of name r
  end.

Fixpoint file_of (name : string) (d : disk) : option h5file :=
  match d with
  | [] => None
  | (n, f) :: r => if String.eqb n name then Some f else file_of name r
  end.

(** Modelled from the spec: [astroNN.shared.nn_tools.h5name_check] is not
    among the sources; a missing dataset name is a fatal configuration
    error. *)
Definition h5name_check (h5name : option string) : result string :=
  match h5name with
  | Some name => Ok name
  | None => Err (ValueError "missing dataset name")
  end.

(** [column[index]] for a row index produced by the filtering stage. *)
Definition row_at {A} (table : list A) (index : Z) : result A :=
  if 0 <=? index then
    match table !! Z.to_nat index with
    | Some r => Ok r
    | None => Err IndexError
    end
  else Err IndexError.

Section Compiler.

(** The collaborators that are not part of the compiler:
    - [allstar dr]: the rows of the allStar catalogue of a data release
      ([astroNN.apogee.downloader.allstar] followed by [fits.open]);
    - [combined_spectra dr location apogee]: the warning flag and the local
      path of one combined spectrum;
    - [fits_open path]: the content of the file at that path. *)
Variable allstar : Z -> result (list allstar_row).
Variable combined_spectra : Z -> Z -> string -> option Z * string.
Variable fits_open : string -> aspcap_file.

(** The file of a row when the fetch raised no warning. *)
Definition fetched (dr : Z) (r : allstar_row) : option aspcap_file :=
  match combined_spectra dr (LOCATION_ID r) (APOGEE_ID r) with
  | (None, path) => Some (fits_open path)
  | (Some _, _) => None
  end.

Definition fetched_at (dr : Z) (cat : list allstar_row) (index : Z)
    : option aspcap_file :=
  match row_at cat index with
  | Ok r => fetched dr r
  | Err _ => None
  end.

(** [index] is a row of the catalogue, and both spectra of its file, when it
    was fetched, have the 8575 pixels that the DR14 layout takes for granted
    or more. *)
Definition long_enough (dr : Z) (cat : list allstar_row) (index : Z) : bool :=
  match row_at cat index with
  | Ok r =>
      match fetched dr r with
      | Some f =>
          (nominal_length <=? Z.of_nat (length (hdu1_data f)))
          && (nominal_length <=? Z.of_nat (length (hdu3_data f)))
      | None => true
      end
  | Err _ => false
  end.

(** The body of [for index in filtered_index]. *)
Definition apogee_row (dr : Z) (cat : list allstar_row) (st : columns)
    (index : Z) : result columns :=
  r ← row_at cat index;
  let apogee_id := APOGEE_ID r in
  let location_id := LOCATION_ID r in
  let '(warningflag, path) := combined_spectra dr location_id apogee_id in
  match warningflag with
  | None =>
      let combined_file := fits_open path in
      let _spec := hdu1_data combined_file in
      let _spec_bestfit := hdu3_data combined_file in
      _spec ← gap_delete _spec (Some 14);
      _spec_bestfit ← gap_delete _spec_bestfit (Some 14);
      Ok {| col_spec := col_spec st ++ [_spec];
            col_spec_bestfit := col_spec_bestfit st ++ [_spec_bestfit];
            col_SNR := col_SNR st ++ [SNR r];
            col_RA := col_RA st ++ [RA r];
            col_DEC := col_DEC st ++ [DEC r];
            col_teff := col_teff st ++ [entry (PARAM r) 0];
            col_logg := col_logg st ++ [entry (PARAM r) 1];
            col_MH := col_MH st ++ [entry (PARAM r) 3];
            col_alpha_M := col_alpha_M st ++ [entry (PARAM r) 6];
            col_X_H :=
              zip_with (fun col nk => col ++ [entry (X_H r) (snd nk)])
                       (col_X_H st) X_H_columns |}
  | Some _ => Ok st
  end.

Fixpoint apogee_rows (dr : Z) (cat : list allstar_row) (st : columns)
    (filtered_index : list Z) : result columns :=
  match filtered_index with
  | [] => Ok st
  | index :: rest =>
      st ← apogee_row dr cat st index;
      apogee_rows dr cat st rest
  end.

(** The [create_dataset] calls, in source order. *)
Definition apogee_h5 (st : columns) (filtered_index : list Z) : h5file :=
  [ ("spectra", Spectra (col_spec st));
    ("spectrabestfit", Spectra (col_spec_bestfit st));
    ("index", Indices filtered_index);
    ("SNR", Values (col_SNR st));
    ("RA", Values (col_RA st));
    ("DEC", Values (col_DEC st));
    ("teff", Values (col_teff st));
    ("logg", Values (col_logg st));
    ("M", Values (col_MH st));
    ("alpha", Values (col_alpha_M st)) ]
  ++ zip_with (fun nk col => (fst nk, Values col)) X_H_columns (col_X_H st).

Definition table_name (h5name part : string) : string :=
  h5name +:+ "_" +:+ part +:+ ".h5".

(** [for tt in ['train', 'test']]: a table is written once its rows are
    complete; an exception leaves the earlier files on disk. *)
Fixpoint apogee_tables (h5name : string) (dr : Z) (cat : list allstar_row)
    (tables : list (string * list Z)) (written : disk) : disk * result unit :=
  match tables with
  | [] => (written, Ok tt)
  | (part, filtered_index) :: rest =>
      match apogee_rows dr cat empty_columns filtered_index with
      | Ok st =>
          apogee_tables h5name dr cat rest
            (written ++ [(table_name h5name part, apogee_h5 st filtered_index)])
      | Err e => (written, Err e)
      end
  end.

Definition compile_apogee (h5name : option string) (dr : option Z)
    (c : apogee_cuts) : disk * result unit :=
  match h5name_check h5name with
  | Err e => ([], Err e)
  | Ok h5name =>
      let dr := apogee_default_dr dr in
      match allstar dr with
      | Err e => ([], Err e)
      | Ok cat =>
          match filtered_train_index cat c, filtered_test_index cat c with
          | Ok filtered_train_index, Ok filtered_test_index =>
              apogee_tables h5name dr cat
                [("train", filtered_train_index); ("test", filtered_test_index)]
                []
          | Err e, _ | _, Err e => ([], Err e)
          end
      end
  end.

End Compiler.

(** ** compile_gaia *)

(** One row of a TGAS table ([gaia[1].data]). *)
Record tgas_row : Type := {
  tgas_RA : fval;
  tgas_DEC : fval;
  tgas_PMRA : fval;
  tgas_PMDEC : fval;
  tgas_parallax : fval;
  tgas_parallax_error : fval
}.

(** The Gaia columns after the two [np.delete] passes. *)
Record gaia_columns : Type := {
  ra_gaia : list fval;
  dec_gaia : list fval;
  pmra_gaia : list fval;
  pmdec_gaia : list fval;
  parallax_gaia : list fval;
  parallax_error_gaia : list fval
}.

Definition gaia_concat (tables : list (list tgas_row)) : gaia_columns :=
  let rows := concat tables in
  {| ra_gaia := map tgas_RA rows;
     dec_gaia := map tgas_DEC rows;
     pmra_gaia := map tgas_PMRA rows;
     pmdec_gaia := map tgas_PMDEC rows;
     parallax_gaia := map tgas_parallax rows;
     parallax_error_gaia := map tgas_parallax_error rows |}.

Definition gaia_delete (g : gaia_columns) (bad_index : list Z) : result gaia_columns :=
  ra ← np.delete (ra_gaia g) bad_index;
  dec ← np.delete (dec_gaia g) bad_index;
  pmra ← np.delete (pmra_gaia g) bad_index;
  pmdec ← np.delete (pmdec_gaia g) bad_index;
  parallax ← np.delete (parallax_gaia g) bad_index;
  parallax_error ← np.delete (parallax_error_gaia g) bad_index;
  Ok {| ra_gaia := ra; dec_gaia := dec; pmra_gaia := pmra; pmdec_gaia := pmdec;
        parallax_gaia := parallax; parallax_error_gaia := parallax_error |}.

(** [parallax_error_gaia / parallax_gaia], element by element. *)
Definition parallax_percent (g : gaia_columns) : list fval :=
  zip_with f_div (parallax_error_gaia g) (parallax_gaia g).

(** Rows with a parallax [<= 0], then rows with a relative parallax error
    [> 0.2], are deleted. *)
Definition gaia_clean (g : gaia_columns) : result gaia_columns :=
  let bad_index := np.where_ (map (fun p => f_le p 0) (parallax_gaia g)) in
  g ← gaia_delete g bad_index;
  let bad_index := np.where_ (map (fun x => f_gt x (2 # 10)) (parallax_percent g)) in
  gaia_delete g bad_index.

(** The branch on [tt] at the head of the loop over the two tables: the
    positions of the matched pairs that go to the table, and the pairs. *)
Definition gaia_select (part : string) (parallax_gaia_percent : list fval)
    (m1 m2 : list Z) : result (list Z * list Z * list Z) :=
  ratio ← np.take parallax_gaia_percent m2;
  let filtered_index :=
    if String.eqb part "train" then np.where_ (map (fun x => f_ge x (1 # 10)) ratio)
    else np.where_ (map (fun x => f_lt x (1 # 10)) ratio) in
  m1_1 ← np.take m1 filtered_index;
  m2_2 ← np.take m2 filtered_index;
  Ok (filtered_index, m1_1, m2_2).

(** The tuple handed to [reduce(np.intersect1d, ...)] in [compile_gaia]. *)
Definition gaia_criteria (cat : list allstar_row) (SNR_low vscattercut : Q)
    : list (list Z) :=
  let tefflow := 4000%Q in
  let teffhigh := 5500%Q in
  let DR_fitlered_SNR_low := np.where_ (map (fun r => f_gt (SNR r) SNR_low) cat) in
  let DR_fitlered_starflag := np.where_ (map (fun r => STARFLAG r =? 0) cat) in
  let DR_fitlered_aspcapflag := np.where_ (map (fun r => ASPCAPFLAG r =? 0) cat) in
  let DR_fitlered_vscatter := np.where_ (map (fun r => f_lt (VSCATTER r) vscattercut) cat) in
  let DR_fitlered_temp_lower := np.where_ (map (fun r => f_ge (teff_of r) tefflow) cat) in
  let DR_fitlered_temp_upper := np.where_ (map (fun r => f_le (teff_of r) teffhigh) cat) in
  let DR14_fitlered_location := np.where_ (map (fun r => 1 <? LOCATION_ID r) cat) in
  [ DR14_fitlered_location; DR_fitlered_SNR_low; DR_fitlered_starflag;
    DR_fitlered_aspcapflag; DR_fitlered_vscatter; DR_fitlered_temp_lower;
    DR_fitlered_temp_upper ].

Definition filtered_apogee_index (cat : list allstar_row) (SNR_low vscattercut : Q)
    : result (list Z) :=
  reduce np.intersect1d (gaia_criteria cat SNR_low vscattercut).

Section GaiaCompiler.

(** The collaborators of [compile_gaia]:
    - [allstar], [fits_open], [combined_spectra]: as for [compile_apogee];
    - [tgas dr]: the TGAS tables of a Gaia release;
    - [gaia_default_dr]: the default Gaia release;
    - [xmatch ra1 dec1 ra2 dec2 pmra2 pmdec2]: the cross-match
      ([astroNN.datasets.xmatch.xmatch] with [maxdist=2], epochs 2000 and 2015
      and [swap=True]), giving the index arrays [m1] (APOGEE) and [m2] (Gaia)
      and the separations;
    - [to_absmag]: absolute magnitudes from magnitudes and parallaxes;
    - [local_path location apogee]: where the spectrum is expected on disk, and
      [path_exists]: whether it is there. *)
Variable allstar : Z -> result (list allstar_row).
Variable tgas : Z -> list (list tgas_row).
Variable gaia_default_dr : option Z -> Z.
Variable xmatch :
  list fval -> list fval -> list fval -> list fval -> list fval -> list fval ->
  list Z * list Z * list fval.
Variable to_absmag : list fval -> list fval -> list fval.
Variable local_path : Z -> string -> string.
Variable path_exists : string -> bool.
Variable combined_spectra : Z -> Z -> string -> option Z * string.
Variable fits_open : string -> aspcap_file.

(** The body of [for index in m1_1].  When the file is not on disk the pair
    returned by [combined_spectra] is bound to [warningflag] as a whole, and
    a pair is not [None]. *)
Definition gaia_row (apogee_dr : Z) (apogee_ids : list string) (location_ids : list Z)
    (spec : list (list fval)) (index : Z) : result (list (list fval)) :=
  apogee_id ← row_at apogee_ids index;
  location_id ← row_at location_ids index;
  warningflag ←
    (if apogee_dr =? 14 then
       let path := local_path location_id apogee_id in
       if negb (path_exists path)
       then Ok (Some (combined_spectra apogee_dr location_id apogee_id), path)
       else Ok (None, path)
     else Err (ValueError "astroNN only supports DR13 and DR14 APOGEE"));
  match warningflag with
  | (None, path) =>
      let combined_file := fits_open path in
      let _spec := hdu1_data combined_file in
      _spec ← gap_delete _spec (Some apogee_dr);
      Ok (spec ++ [_spec])
  | (Some _, _) => Ok spec
  end.

Fixpoint gaia_rows (apogee_dr : Z) (apogee_ids : list string) (location_ids : list Z)
    (spec : list (list fval)) (m1_1 : list Z) : result (list (list fval)) :=
  match m1_1 with
  | [] => Ok spec
  | index :: rest =>
      spec ← gaia_row apogee_dr apogee_ids location_ids spec index;
      gaia_rows apogee_dr apogee_ids location_ids spec rest
  end.

(** One turn of [for tt in ['train', 'test']]: the content of the file. *)
Definition gaia_table (apogee_dr : Z) (apogee_ids : list string) (location_ids : list Z)
    (k_mag_apogee teff : list fval) (g : gaia_columns) (m1 m2 : list Z)
    (part : string) : result h5file :=
  '(_, m1_1, m2_2) ← gaia_select part (parallax_percent g) m1 m2;
  k_mag ← np.take k_mag_apogee m1_1;
  parallax ← np.take (parallax_gaia g) m2_2;
  let absmag := to_absmag k_mag parallax in
  spec ← gaia_rows apogee_dr apogee_ids location_ids [] m1_1;
  teff_m1 ← np.take teff m1_1;
  Ok [ ("spectra", Spectra spec); ("teff", Values teff_m1); ("absmag", Values absmag) ].

Fixpoint gaia_tables (h5name : string) (table : string -> result h5file)
    (parts : list string) (written : disk) : disk * result unit :=
  match parts with
  | [] => (written, Ok tt)
  | part :: rest =>
      match table part with
      | Ok f => gaia_tables h5name table rest (written ++ [(table_name h5name part, f)])
      | Err e => (written, Err e)
      end
  end.

Definition compile_gaia (h5name : option string) (gaia_dr apogee_dr : option Z)
    (SNR_low vscattercut : Q) : disk * result unit :=
  let prepared :=
    h5name ← h5name_check h5name;
    let apogee_dr := apogee_default_dr apogee_dr in
    let gaia_dr := gaia_default_dr gaia_dr in
    cat ← allstar apogee_dr;
    let tgas_list := tgas gaia_dr in
    filtered_apogee_index ← filtered_apogee_index cat SNR_low vscattercut;
    ra_apogee ← np.take (map RA cat) filtered_apogee_index;
    dec_apogee ← np.take (map DEC cat) filtered_apogee_index;
    k_mag_apogee ← np.take (map K cat) filtered_apogee_index;
    teff ← np.take (map teff_of cat) filtered_apogee_index;
    apogee_ids ← np.take (map APOGEE_ID cat) filtered_apogee_index;
    location_ids ← np.take (map LOCATION_ID cat) filtered_apogee_index;
    g ← gaia_clean (gaia_concat tgas_list);
    let '(m1, m2, sep) :=
      xmatch ra_apogee dec_apogee (ra_gaia g) (dec_gaia g) (pmra_gaia g) (pmdec_gaia g) in
    Ok (h5name, gaia_table apogee_dr apogee_ids location_ids k_mag_apogee teff g m1 m2) in
  match prepared with
  | Ok (h5name, table) => gaia_tables h5name table ["train"; "test"] []
  | Err e => ([], Err e)
  end.

End GaiaCompiler.

(** ** Notions used by the statements *)

(** An index array in row order: strictly increasing. *)
Definition row_ordered (l : list Z) : Prop := StronglySorted Z.lt l.

(** [r] is the catalogue row of index [i]. *)
Definition row_of (cat : list allstar_row) (i : Z) (r : allstar_row) : Prop :=
  0 <= i /\ cat !! Z.to_nat i = Some r.

(** ** Scenario data *)

(** A catalogue row that passes every default cut other than the two on the
    signal-to-noise ratio, which is left to choose. *)
Definition synthetic_star (apogee_id : string) (snr : Q) : allstar_row := {|
  APOGEE_ID := apogee_id;
  LOCATION_ID := 4100;
  STARFLAG := 0;
  ASPCAPFLAG := 0;
  VSCATTER := FNum (1 # 10);
  SNR := FNum snr;
  RA := FNum 10;
  DEC := FNum 0;
  K := FNum 9;
  NVISITS := 3;
  PARAM := [FNum 4800; FNum 2; FNum 0; FNum 0; FNum 0; FNum 0; FNum 0];
  X_H := replicate 26 (FNum 0)
|}.

(** Ten records: six with a signal-to-noise ratio in [200, 99999], four with
    one in [100, 200). *)
Definition scenario1_catalog : list allstar_row :=
  map (synthetic_star "2M00000000+0000000")
      [200; 250; 300; 350; 400; 450; 100; 120; 150; 180]%Q.

(** Ten records: six with a signal-to-noise ratio strictly between 200 and
    99999, four with one strictly between 100 and 200. *)
Definition scenario1_open_catalog : list allstar_row :=
  map (synthetic_star "2M00000000+0000000")
      [201; 250; 300; 350; 400; 450; 101; 120; 150; 180]%Q.

(** The bands as the scenario words them: closed below. *)
Definition in_train_band_closed (r : allstar_row) : bool :=
  f_ge (SNR r) 200 && f_le (SNR r) 99999.

Definition in_test_band_half_open (r : allstar_row) : bool :=
  f_ge (SNR r) 100 && f_lt (SNR r) 200.

(** Scenario 1 as worded, for one catalogue. *)
Definition scenario1_as_stated (cat : list allstar_row) : Prop :=
  length cat = 10%nat ->
  forallb (passes_other_cuts default_cuts) cat = true ->
  length (np.where_ (map in_train_band_closed cat)) = 6%nat ->
  length (np.where_ (map in_test_band_half_open cat)) = 4%nat ->
  filtered_train_index cat default_cuts = Ok (np.where_ (map in_train_band_closed cat))
  /\ filtered_test_index cat default_cuts = Ok (np.where_ (map in_test_band_half_open cat))
  /\ forall i, ~ (i ∈ np.where_ (map in_train_band_closed cat)
                  /\ i ∈ np.where_ (map in_test_band_half_open cat)).

(** A dataset of a file written by a run. *)
Definition column_of (run : disk * result unit) (file name : string)
    : option dataset :=
  f ← file_of file (fst run); dataset_of name f.

(** The output length that goes with the nominal input length. *)
Definition expected_length (dr : Z) : Z :=
  nominal_length - gap_width (gaps dr nominal_length).

(** A spectrum of [n] pixels whose pixel [i] has the value [i]. *)
Definition ramp_spectrum (n : Z) : list fval :=
  map (fun i => FNum (inject_Z i)) (np.arange 0 n).

(** Collaborators for the scenarios: one catalogue for every release, a
    fetch that fails for the identifier ["missing"] only, and files whose two
    spectra are ramps of [pixels] pixels. *)
Definition demo_allstar (cat : list allstar_row) : Z -> result (list allstar_row) :=
  fun _ => Ok cat.

Definition demo_combined_spectra : Z -> Z -> string -> option Z * string :=
  fun _ _ apogee_id =>
    (if String.eqb apogee_id "missing" then Some 1 else None, apogee_id).

Definition demo_fits_open (pixels : Z) : string -> aspcap_file :=
  fun _ => {| hdu1_data := ramp_spectrum pixels; hdu3_data := ramp_spectrum pixels |}.

Definition two_star_catalog : list allstar_row :=
  [synthetic_star "missing" 300; synthetic_star "2M00000000+0000000" 400].

Definition one_star_catalog : list allstar_row :=
  [synthetic_star "2M00000000+0000000" 300].

(** The length-mismatch rule as worded, for one turn of the loop: a fetched
    spectrum whose gap-removed length is not the expected one leaves the
    columns as they were. *)
Definition length_mismatch_skipped_as_stated
    (combined_spectra : Z -> Z -> string -> option Z * string)
    (fits_open : string -> aspcap_file)
    (dr : Z) (cat : list allstar_row) (st : columns) (index : Z) : Prop :=
  forall f out,
    fetched_at combined_spectra fits_open dr cat index = Some f ->
    gap_delete (hdu1_data f) (Some dr) = Ok out ->
    Z.of_nat (length out) <> expected_length dr ->
    apogee_row combined_spectra fits_open dr cat st index = Ok st.

(** A TGAS row with the given parallax and parallax error. *)
Definition tgas_star (parallax parallax_error : fval) : tgas_row := {|
  tgas_RA := FNum 10;
  tgas_DEC := FNum 0;
  tgas_PMRA := FNum 0;
  tgas_PMDEC := FNum 0;
  tgas_parallax := parallax;
  tgas_parallax_error := parallax_error
|}.

(** One TGAS table: a negative parallax, a relative error of 0.5, a null
    (NaN) parallax, and relative errors of 0.05 and 0.15. *)
Definition demo_tgas : list (list tgas_row) :=
  [ [ tgas_star (FNum (-1)) (FNum 1);
      tgas_star (FNum 1) (FNum (1 # 2));
      tgas_star FNaN (FNum (3 # 10));
      tgas_star (FNum 2) (FNum (1 # 10));
      tgas_star (FNum 1) (FNum (15 # 100)) ] ].

Definition demo_gaia : gaia_columns :=
  match gaia_clean (gaia_concat demo_tgas) with
  | Ok g => g
  | Err _ => gaia_concat []
  end.

(** The partition of the matched pairs as worded: the pair at position [k]
    of [(m1, m2)], of relative parallax error [x], is in the train partition
    exactly when [x >= 0.1], in the test partition exactly when [x < 0.1], in
    one of them and not in both. *)
Definition parallax_partition_as_stated (g : gaia_columns) (m1 m2 : list Z) : Prop :=
  exists ratio train test m1_train m2_train m1_test m2_test,
    np.take (parallax_percent g) m2 = Ok ratio
    /\ gaia_select "train" (parallax_percent g) m1 m2 = Ok (train, m1_train, m2_train)
    /\ gaia_select "test" (parallax_percent g) m1 m2 = Ok (test, m1_test, m2_test)
    /\ forall (k : nat) (x : fval), ratio !! k = Some x ->
         (Z.of_nat k ∈ train <-> f_ge x (1 # 10) = true)
         /\ (Z.of_nat k ∈ test <-> f_lt x (1 # 10) = true)
         /\ ~ (Z.of_nat k ∈ train /\ Z.of_nat k ∈ test)
         /\ (Z.of_nat k ∈ train \/ Z.of_nat k ∈ test).

(** Collaborators for a [compile_gaia] scenario: the only star of the
    catalogue is matched with row 2 of the cleaned Gaia columns, and no
    spectrum is on disk. *)
Definition demo_xmatch :
    list fval -> list fval -> list fval -> list fval -> list fval -> list fval ->
    list Z * list Z * list fval :=
  fun _ _ _ _ _ _ => ([0], [2], [FNum 0]).

Definition demo_gaia_run (on_disk : bool) : disk * result unit :=
  compile_gaia (demo_allstar one_star_catalog) (fun _ => demo_tgas) (fun _ => 1)
    demo_xmatch (fun k_mag _ => k_mag) (fun _ apogee_id => apogee_id)
    (fun _ => on_disk) demo_combined_spectra (demo_fits_open 8575)
    (Some "gaia") None (Some 14) 100 1.

(** * Further parts of the code *)

(** ** h5_compiler.py: apogeeid_digit *)

(** [str.isdigit] on one character of an ASCII identifier. *)
Definition isdigit (ch : Ascii.ascii) : bool :=
  (48 <=? Z.of_nat (Ascii.nat_of_ascii ch)) && (Z.of_nat (Ascii.nat_of_ascii ch) <=? 57).

(** [str(''.join(filter(str.isdigit, arr)))] *)
Fixpoint apogeeid_digit (arr : string) : string :=
  match arr with
  | EmptyString => EmptyString
  | String ch rest =>
      if isdigit ch then String ch (apogeeid_digit rest) else apogeeid_digit rest
  end.

(** The identifier is made of digits only. *)
Fixpoint all_digits (s : string) : bool :=
  match s with
  | EmptyString => true
  | String ch rest => isdigit ch && all_digits rest
  end.

(** ** Slices *)

(** [arr[a:b]] for [0 <= a <= b]. *)
Definition slice {A} (a b : Z) (arr : list A) : list A :=
  take (Z.to_nat (b - a)) (drop (Z.to_nat a) arr).

(** ** The records behind the rows of a table *)

(** The catalogue row and the spectrum file of every index of
    [filtered_index] whose fetch raised no warning, in the order of the
    index. *)
Definition fetched_rows (combined_spectra : Z -> Z -> string -> option Z * string)
    (fits_open : string -> aspcap_file) (dr : Z) (cat : list allstar_row)
    (filtered_index : list Z) : list (allstar_row * aspcap_file) :=
  omap (fun index =>
          match row_at cat index with
          | Ok r => pair r <$> fetched combined_spectra fits_open dr r
          | Err _ => None
          end) filtered_index.

(** The columns in which row [k] is read off the [k]-th of the given
    records. *)
Definition columns_from (rows : list (allstar_row * aspcap_file)) : columns := {|
  col_spec := map (fun p => gap_free 14 (hdu1_data (snd p))) rows;
  col_spec_bestfit := map (fun p => gap_free 14 (hdu3_data (snd p))) rows;
  col_SNR := map (fun p => SNR (fst p)) rows;
  col_RA := map (fun p => RA (fst p)) rows;
  col_DEC := map (fun p => DEC (fst p)) rows;
  col_teff := map (fun p => entry (PARAM (fst p)) 0) rows;
  col_logg := map (fun p => entry (PARAM (fst p)) 1) rows;
  col_MH := map (fun p => entry (PARAM (fst p)) 3) rows;
  col_alpha_M := map (fun p => entry (PARAM (fst p)) 6) rows;
  col_X_H := map (fun nk => map (fun p => entry (X_H (fst p)) (snd nk)) rows) X_H_columns
|}.

(** The fetch of the spectrum of [index] raised no warning. *)
Definition fetch_ok (combined_spectra : Z -> Z -> string -> option Z * string)
    (fits_open : string -> aspcap_file) (dr : Z) (cat : list allstar_row)
    (index : Z) : bool :=
  match fetched_at combined_spectra fits_open dr cat index with
  | Some _ => true
  | None => false
  end.

(** ** NN/train.py: the label names *)

(** [if target == ['all']: target = [...]] in [apogee_train]. *)
Definition expand_target (target : list string) : list string :=
  if bool_decide (target = ["all"]) then
    [ "teff"; "logg"; "M"; "alpha"; "C"; "Cl"; "N"; "O"; "Na"; "Mg"; "Al"; "Si";
      "P"; "S"; "Ca"; "Ti"; "Ti2"; "V"; "Cr"; "Mn"; "Fe"; "Ni" ]
  else target.

(** ** NN/train.py and NN/test.py: the rows without a missing label *)

(** [np.where(temp != -9999)] for one label column. *)
Definition not9999 (temp : list fval) : list Z :=
  np.where_ (map (fun x => f_ne x (-9999)) temp).

(** The loop that builds [index_not9999] in [apogee_train] and
    [apogee_model_eval], over the label columns [F[tg]] of the targets:
    the first column gives its own index, every further one is intersected
    with what is there ([reduce] over a pair is one call of
    [np.intersect1d]); no target at all leaves the empty list. *)
Definition index_not9999 (labels : list (list fval)) : list Z :=
  match labels with
  | [] => []
  | temp :: rest =>
      fold_left (fun index_not9999 temp => np.intersect1d index_not9999 (not9999 temp))
                rest (not9999 temp)
  end.

(** ** NN/test.py: denormalize and batch_predictions *)

(** [x * y] and [x + y] on floats, exact on finite values. *)
Definition f_mul (x y : fval) : fval :=
  match x, y with
  | FNaN, _ | _, FNaN => FNaN
  | FNum a, FNum b => FNum (a * b)
  | FInf s, FInf t => FInf (xorb s t)
  | FInf s, FNum b | FNum b, FInf s =>
      if Qeq_bool b 0 then FNaN else FInf (xorb s (Qltb b 0))
  end.

Definition f_add (x y : fval) : fval :=
  match x, y with
  | FNaN, _ | _, FNaN => FNaN
  | FNum a, FNum b => FNum (a + b)
  | FInf s, FInf t => if Bool.eqb s t then FInf s else FNaN
  | FInf s, FNum _ | FNum _, FInf s => FInf s
  end.

(** [(lb_norm * std_labels) + mean_labels], row by row; the rows are taken to
    have as many entries as there are labels. *)
Definition denormalize (lb_norm : list (list fval)) (std_labels mean_labels : list fval)
    : list (list fval) :=
  map (fun row => zip_with f_add (zip_with f_mul row std_labels) mean_labels) lb_norm.

(** [predictions[a:b] = rows] for [0 <= a]: the bounds are clipped to the
    array, and the rows have to be as many as the slice holds (numpy would
    repeat a single row; that case does not arise here). *)
Definition set_rows (predictions : list (list fval)) (a b : nat)
    (rows : list (list fval)) : result (list (list fval)) :=
  let n := length predictions in
  let a := Nat.min a n in
  let b := Nat.max a (Nat.min b n) in
  if (length rows =? b - a)%nat then Ok (take a predictions ++ rows ++ drop b predictions)
  else Err (ValueError "could not broadcast input array").

Section BatchPredictions.

(** [model.predict] on a batch of spectra (the trailing axis of length 1 that
    [reshape] adds is left out). *)
Variable predict : list (list fval) -> list (list fval).

(** [for i in range(len(spectra) // batch_size)], with the value that [i]
    has when the loop is left. *)
Fixpoint batch_loop (spectra : list (list fval)) (batch_size : nat)
    (std_labels mean_labels : list fval) (range : list nat) (i : nat)
    (predictions : list (list fval)) : result (nat * list (list fval)) :=
  match range with
  | [] => Ok (i, predictions)
  | i :: range =>
      let inputs := take batch_size (drop (i * batch_size) spectra) in
      predictions ←
        set_rows predictions (i * batch_size) ((i + 1) * batch_size)
          (denormalize (predict inputs) std_labels mean_labels);
      batch_loop spectra batch_size std_labels mean_labels range i predictions
  end.

(** [batch_size] is a positive number (500 at both call sites). *)
Definition batch_predictions (spectra : list (list fval)) (batch_size : positive)
    (num_labels : nat) (std_labels mean_labels : list fval)
    : result (list (list fval)) :=
  let batch_size := Pos.to_nat batch_size in
  let predictions := replicate (length spectra) (replicate num_labels (FNum 0)) in
  let i := 0%nat in
  '(i, predictions) ←
    batch_loop spectra batch_size std_labels mean_labels
      (seq 0 (length spectra / batch_size)) i predictions;
  let inputs := drop ((i + 1) * batch_size) spectra in
  set_rows predictions ((i + 1) * batch_size) (length predictions)
    (denormalize (predict inputs) std_labels mean_labels).

End BatchPredictions.

(** ** NN/test.py: the names of the targets *)

Definition target_name_conversion (targetname : string) : string :=
  if (String.length targetname <? 3)%nat then "[" +:+ targetname +:+ "/H]"
  else if String.eqb targetname "teff" then "$T_{\mathrm{eff}}$"
  else if String.eqb targetname "alpha" then "[Alpha/M]"
  else if String.eqb targetname "logg" then "[Log(g)]"
  else targetname.

Definition target_to_aspcap_conversion (targetname : string) : string :=
  if String.eqb targetname "alpha" then targetname +:+ "_M"
  else if (String.length targetname <? 3)%nat then targetname +:+ "_H"
  else targetname.

(** ** compile_gaia: the TGAS rows that survive the two deletions *)

(** The relative parallax error of a TGAS row. *)
Definition tgas_percent (r : tgas_row) : fval :=
  f_div (tgas_parallax_error r) (tgas_parallax r).

(** The row has neither a parallax [<= 0] nor a relative parallax error
    [> 0.2]. *)
Definition tgas_kept (r : tgas_row) : bool :=
  negb (f_le (tgas_parallax r) 0) && negb (f_gt (tgas_percent r) (2 # 10)).

(** What [compile_gaia] asks of a catalogue row: the seven criteria of its
    [reduce(np.intersect1d, ...)]. *)
Definition gaia_passes (SNR_low vscattercut : Q) (r : allstar_row) : bool :=
  (1 <? LOCATION_ID r)
  && f_gt (SNR r) SNR_low
  && (STARFLAG r =? 0)
  && (ASPCAPFLAG r =? 0)
  && f_lt (VSCATTER r) vscattercut
  && f_ge (teff_of r) 4000
  && f_le (teff_of r) 5500.

Section GaiaOnDisk.

Variable local_path : Z -> string -> string.
Variable path_exists : string -> bool.
Variable fits_open : string -> aspcap_file.

(** The path of the spectrum of a matched star when the file is on disk. *)
Definition gaia_on_disk (apogee_ids : list string) (location_ids : list Z)
    (index : Z) : option string :=
  match row_at apogee_ids index, row_at location_ids index with
  | Ok apogee_id, Ok location_id =>
      let path := local_path location_id apogee_id in
      if path_exists path then Some path else None
  | _, _ => None
  end.

(** [index] is a row of both columns, and the spectrum of the star, when it
    is on disk, has the 8575 pixels of the DR14 layout or more. *)
Definition gaia_long_enough (apogee_ids : list string) (location_ids : list Z)
    (index : Z) : bool :=
  match row_at apogee_ids index, row_at location_ids index with
  | Ok apogee_id, Ok location_id =>
      let path := local_path location_id apogee_id in
      if path_exists path
      then nominal_length <=? Z.of_nat (length (hdu1_data (fits_open path)))
      else true
  | _, _ => false
  end.

End GaiaOnDisk.

(** ** h5_compiler.py: compile_apogee_apstar *)

Section ApstarCompiler.

(** The collaborators: [allstar] as for [compile_apogee];
    [visit_spectra dr location apogee]: the warning flag and the local path
    of the file of the individual visits; [fits_nvisits path]: the [NVISITS]
    entry of the primary header of that file. *)
Variable allstar : Z -> result (list allstar_row).
Variable visit_spectra : Z -> Z -> string -> option Z * string.
Variable fits_nvisits : string -> Z.

(** The body of [for index in filtered_index]: every statement that stores
    something is commented out in the source. *)
Definition apstar_row (dr : Z) (cat : list allstar_row) (index : Z) : result unit :=
  r ← row_at cat index;
  let apogee_id := APOGEE_ID r in
  let location_id := LOCATION_ID r in
  let '(warningflag, path) := visit_spectra dr location_id apogee_id in
  match warningflag with
  | None =>
      let nvisits := fits_nvisits path in
      Ok tt
  | Some _ => Ok tt
  end.

Fixpoint apstar_rows (dr : Z) (cat : list allstar_row) (filtered_index : list Z)
    : result unit :=
  match filtered_index with
  | [] => Ok tt
  | index :: rest =>
      _ ← apstar_row dr cat index;
      apstar_rows dr cat rest
  end.

(** [for tt in ['train', 'test']]: both turns run over
    [np.concatenate((filtered_train_index, filtered_test_index))], and the
    file is opened for writing and closed with no dataset. *)
Fixpoint apstar_tables (h5name : string) (dr : Z) (cat : list allstar_row)
    (filtered_index : list Z) (parts : list string) (written : disk)
    : disk * result unit :=
  match parts with
  | [] => (written, Ok tt)
  | part :: rest =>
      match apstar_rows dr cat filtered_index with
      | Ok _ =>
          apstar_tables h5name dr cat filtered_index rest
            (written ++ [(table_name h5name part, [])])
      | Err e => (written, Err e)
      end
  end.

Definition compile_apogee_apstar (h5name : option string) (dr : option Z)
    (c : apogee_cuts) : disk * result unit :=
  match h5name_check h5name with
  | Err e => ([], Err e)
  | Ok h5name =>
      let dr := apogee_default_dr dr in
      match allstar dr with
      | Err e => ([], Err e)
      | Ok cat =>
          match filtered_train_index cat c, filtered_test_index cat c with
          | Ok filtered_train_index, Ok filtered_test_index =>
              let filtered_index := filtered_train_index ++ filtered_test_index in
              apstar_tables h5name dr cat filtered_index ["train"; "test"] []
          | Err e, _ | _, Err e => ([], Err e)
          end
      end
  end.

End ApstarCompiler.

(** A reader whose file at the path ["short"] holds spectra of three pixels,
    the others ramps of 8575 pixels, and a catalogue with one star for the
    train table and the star of that file for the test table. *)
Definition demo_fits_open_short : string -> aspcap_file :=
  fun path =>
    if String.eqb path "short"
    then {| hdu1_data := ramp_spectrum 3; hdu3_data := ramp_spectrum 3 |}
    else demo_fits_open 8575 path.

Definition short_star_catalog : list allstar_row :=
  [synthetic_star "2M00000000+0000000" 300; synthetic_star "short" 150].

(** * Properties *)

(** ** Mask selection and np.delete *)

Section Compress.
Context {A : Type}.
Implicit Types (l arr : list A) (keep : Z -> bool) (i j : Z).

Lemma compress_from_app i keep l1 l2 :
  np.compress_from i keep (l1 ++ l2) =
  np.compress_from i keep l1 ++ np.compress_from (i + Z.of_nat (length l1)) keep l2.
Proof.
  revert i. induction l1 as [|x l1 IH]; intros i.
  - cbn [app length np.compress_from]. f_equal. lia.
  - cbn [app length np.compress_from]. rewrite IH.
    replace (i + 1 + Z.of_nat (length l1)) with (i + Z.of_nat (S (length l1))) by lia.
    destruct (keep i); reflexivity.
Qed.

Lemma compress_from_all i keep l :
  (forall j, i <= j < i + Z.of_nat (length l) -> keep j = true) ->
  np.compress_from i keep l = l.
Proof.
  revert i. induction l as [|x l IH]; intros i H; cbn [np.compress_from]; [done|].
  rewrite H by (cbn [length]; lia). f_equal. apply IH.
  intros j Hj. apply H. cbn [length]. lia.
Qed.

Lemma compress_from_none i keep l :
  (forall j, i <= j < i + Z.of_nat (length l) -> keep j = false) ->
  np.compress_from i keep l = [].
Proof.
  revert i. induction l as [|x l IH]; intros i H; cbn [np.compress_from]; [done|].
  rewrite H by (cbn [length]; lia). apply IH.
  intros j Hj. apply H. cbn [length]. lia.
Qed.

Lemma compress_from_ext i keep keep' l :
  (forall j, i <= j < i + Z.of_nat (length l) -> keep j = keep' j) ->
  np.compress_from i keep l = np.compress_from i keep' l.
Proof.
  revert i. induction l as [|x l IH]; intros i H; cbn [np.compress_from]; [done|].
  rewrite H by (cbn [length]; lia). rewrite (IH (i + 1)); [done|].
  intros j Hj. apply H. cbn [length]. lia.
Qed.

End Compress.

Lemma memZ_true i l : np.memZ i l = true <-> i ∈ l.
Proof.
  unfold np.memZ. rewrite existsb_exists, list_elem_of_In. split.
  - intros (x & Hx & E). apply Z.eqb_eq in E. by subst.
  - intros H. exists i. split; [done|apply Z.eqb_refl].
Qed.

Lemma elem_of_count_from (a : Z) (len : nat) (x : Z) :
  x ∈ np.count_from a len <-> a <= x < a + Z.of_nat len.
Proof.
  revert a. induction len as [|len IH]; intros a; cbn [np.count_from].
  - rewrite elem_of_nil. lia.
  - rewrite elem_of_cons, IH. lia.
Qed.

Lemma elem_of_arange (a b x : Z) : x ∈ np.arange a b <-> a <= x < b.
Proof. unfold np.arange. rewrite elem_of_count_from. lia. Qed.

Lemma length_arange (a b : Z) : length (np.arange a b) = Z.to_nat (b - a).
Proof.
  unfold np.arange. generalize (Z.to_nat (b - a)) as len. intros len. revert a.
  induction len as [|len IH]; intros a; cbn [np.count_from length]; [done|].
  by rewrite IH.
Qed.

Lemma memZ_arange n a b j :
  0 <= a ->
  np.memZ j (map (np.wrap_index n) (np.arange a b)) = true <-> a <= j < b.
Proof.
  intros Ha. rewrite memZ_true.
  change (map (np.wrap_index n)) with (fmap (M:=list) (np.wrap_index n)).
  rewrite list_elem_of_fmap. setoid_rewrite elem_of_arange. unfold np.wrap_index. split.
  - intros (x & -> & Hx). destruct (Z.ltb_spec x 0); lia.
  - intros Hj. exists j. destruct (Z.ltb_spec j 0); lia.
Qed.

Lemma valid_indices_arange n a b :
  0 <= a -> b <= n -> np.valid_indices n (np.arange a b) = true.
Proof.
  intros Ha Hb. unfold np.valid_indices. apply forallb_forall.
  intros x Hx%list_elem_of_In%elem_of_arange. lia.
Qed.

(** Deleting a contiguous range of positions removes the middle segment. *)
Lemma delete_arange_app {A} (l1 l2 l3 : list A) a b :
  a = Z.of_nat (length l1) -> b = a + Z.of_nat (length l2) ->
  np.delete (l1 ++ l2 ++ l3) (np.arange a b) = Ok (l1 ++ l3).
Proof.
  intros Ha Hb. unfold np.delete.
  rewrite valid_indices_arange by (rewrite ?length_app; lia).
  f_equal. unfold np.compress. rewrite !compress_from_app.
  rewrite compress_from_all, compress_from_none, compress_from_all; [done|..].
  - intros j Hj. apply negb_true_iff, not_true_is_false.
    rewrite memZ_arange by lia. lia.
  - intros j Hj. apply negb_false_iff. rewrite memZ_arange by lia. lia.
  - intros j Hj. apply negb_true_iff, not_true_is_false.
    rewrite memZ_arange by lia. lia.
Qed.

Lemma split_at {A} (l : list A) (a : Z) :
  0 <= a <= Z.of_nat (length l) ->
  exists l1 l2, l = l1 ++ l2 /\ Z.of_nat (length l1) = a.
Proof.
  intros Ha. exists (take (Z.to_nat a) l), (drop (Z.to_nat a) l). split.
  - symmetry. apply take_drop.
  - rewrite length_take. lia.
Qed.

Lemma bind_Ok {A B} (a : A) (k : A -> result B) : (x ← Ok a; k x) = k a.
Proof. reflexivity. Qed.

Lemma bind_Err {A B} (e : exn) (k : A -> result B) : (x ← Err e; k x) = Err e.
Proof. reflexivity. Qed.

Lemma in_gaps_cons lo hi g i :
  in_gaps ((lo, hi) :: g) i = ((lo <=? i) && (i <? hi)) || in_gaps g i.
Proof. reflexivity. Qed.

Lemma in_gaps_nil i : in_gaps [] i = false.
Proof. reflexivity. Qed.

Lemma in_gaps_spec (g : list (Z * Z)) (i : Z) :
  in_gaps g i = true <-> exists lo hi, (lo, hi) ∈ g /\ lo <= i < hi.
Proof.
  unfold in_gaps. rewrite existsb_exists. split.
  - intros ([lo hi] & Hin%list_elem_of_In & [H1%Z.leb_le H2%Z.ltb_lt]%andb_true_iff).
    by exists lo, hi.
  - intros (lo & hi & Hin%list_elem_of_In & H1 & H2). exists (lo, hi).
    split; [done|]. apply andb_true_iff. by rewrite Z.leb_le, Z.ltb_lt.
Qed.

Ltac gap_bool :=
  rewrite ?in_gaps_cons, ?in_gaps_nil;
  repeat match goal with
         | |- context [?a <=? ?b] => destruct (Z.leb_spec a b); try lia
         | |- context [?a <? ?b] => destruct (Z.ltb_spec a b); try lia
         end;
  try reflexivity.

(** Four ascending, disjoint ranges deleted from the last to the first: each
    [np.delete] leaves the positions below its range where they were, so the
    ranges of the original array are the ones removed. *)
Lemma delete_four_ranges {A} (spec : list A) a1 b1 a2 b2 a3 b3 a4 b4 :
  0 <= a1 <= b1 -> b1 <= a2 <= b2 -> b2 <= a3 <= b3 -> b3 <= a4 <= b4 ->
  b4 <= Z.of_nat (length spec) ->
  let g := [(a1, b1); (a2, b2); (a3, b3); (a4, b4)] in
  let out := np.compress (fun i => negb (in_gaps g i)) spec in
  (s ← np.delete spec (np.arange a4 b4);
   s ← np.delete s (np.arange a3 b3);
   s ← np.delete s (np.arange a2 b2);
   s ← np.delete s (np.arange a1 b1);
   Ok s) = Ok out
  /\ Z.of_nat (length out) = Z.of_nat (length spec) - gap_width g.
Proof.
  intros H1 H2 H3 H4 Hn g out.
  destruct (split_at spec a1) as (p0 & r0 & -> & L0); [lia|].
  rewrite length_app in Hn.
  destruct (split_at r0 (b1 - a1)) as (g1 & r1 & -> & Lg1); [lia|].
  rewrite length_app in Hn.
  destruct (split_at r1 (a2 - b1)) as (p1 & r2 & -> & L1); [lia|].
  rewrite length_app in Hn.
  destruct (split_at r2 (b2 - a2)) as (g2 & r3 & -> & Lg2); [lia|].
  rewrite length_app in Hn.
  destruct (split_at r3 (a3 - b2)) as (p2 & r4 & -> & L2); [lia|].
  rewrite length_app in Hn.
  destruct (split_at r4 (b3 - a3)) as (g3 & r5 & -> & Lg3); [lia|].
  rewrite length_app in Hn.
  destruct (split_at r5 (a4 - b3)) as (p3 & r6 & -> & L3); [lia|].
  rewrite length_app in Hn.
  destruct (split_at r6 (b4 - a4)) as (g4 & p4 & -> & Lg4); [lia|].
  assert (Eout : out = p0 ++ p1 ++ p2 ++ p3 ++ p4).
  { subst out g. unfold np.compress. rewrite !compress_from_app.
    rewrite (compress_from_all _ _ p0), (compress_from_none _ _ g1),
      (compress_from_all _ _ p1), (compress_from_none _ _ g2),
      (compress_from_all _ _ p2), (compress_from_none _ _ g3),
      (compress_from_all _ _ p3), (compress_from_none _ _ g4),
      (compress_from_all _ _ p4); [done|..];
      intros j Hj; gap_bool. }
  split.
  - rewrite Eout.
    replace (p0 ++ g1 ++ p1 ++ g2 ++ p2 ++ g3 ++ p3 ++ g4 ++ p4)
      with ((p0 ++ g1 ++ p1 ++ g2 ++ p2 ++ g3 ++ p3) ++ g4 ++ p4)
      by (rewrite <- !app_assoc; reflexivity).
    rewrite delete_arange_app, bind_Ok by (rewrite ?length_app; lia).
    replace ((p0 ++ g1 ++ p1 ++ g2 ++ p2 ++ g3 ++ p3) ++ p4)
      with ((p0 ++ g1 ++ p1 ++ g2 ++ p2) ++ g3 ++ (p3 ++ p4))
      by (rewrite <- !app_assoc; reflexivity).
    rewrite delete_arange_app, bind_Ok by (rewrite ?length_app; lia).
    replace ((p0 ++ g1 ++ p1 ++ g2 ++ p2) ++ p3 ++ p4)
      with ((p0 ++ g1 ++ p1) ++ g2 ++ (p2 ++ p3 ++ p4))
      by (rewrite <- !app_assoc; reflexivity).
    rewrite delete_arange_app, bind_Ok by (rewrite ?length_app; lia).
    replace ((p0 ++ g1 ++ p1) ++ p2 ++ p3 ++ p4)
      with (p0 ++ g1 ++ (p1 ++ p2 ++ p3 ++ p4))
      by (rewrite <- !app_assoc; reflexivity).
    rewrite delete_arange_app, bind_Ok by (rewrite ?length_app; lia).
    reflexivity.
  - rewrite Eout. subst g. unfold gap_width. cbn [fold_right fst snd].
    rewrite !length_app. lia.
Qed.

(** ** Index arrays: np.where, np.unique, np.intersect1d *)


Lemma row_ordered_NoDup (l : list Z) : row_ordered l -> NoDup l.
Proof.
  induction 1 as [|x l _ IH Hx]; constructor; [|done].
  intros Hin. rewrite Forall_forall in Hx. specialize (Hx _ Hin). lia.
Qed.

(** Two index arrays in row order with the same elements are the same array. *)
Lemma row_ordered_ext (l1 l2 : list Z) :
  row_ordered l1 -> row_ordered l2 -> (forall x, x ∈ l1 <-> x ∈ l2) -> l1 = l2.
Proof.
  intros H1 H2 E. apply (StronglySorted_unique_strong Z.lt); [lia|done..|].
  apply NoDup_Permutation; auto using row_ordered_NoDup.
Qed.

Lemma elem_of_where_from (i : Z) (mask : list bool) (x : Z) :
  x ∈ np.where_from i mask <->
  exists k : nat, x = i + Z.of_nat k /\ mask !! k = Some true.
Proof.
  revert i. induction mask as [|b mask IH]; intros i; cbn [np.where_from].
  - split; [by intros ?%elem_of_nil|by intros (k & _ & ?)].
  - assert (x ∈ np.where_from (i + 1) mask <->
            exists k : nat, x = i + Z.of_nat (S k) /\ (b :: mask) !! S k = Some true) as IH'.
    { rewrite IH. split; intros (k & -> & Hk); exists k; (split; [lia|done]). }
    destruct b; rewrite ?elem_of_cons, IH'; split.
    + intros [->|(k & -> & Hk)]; [exists 0%nat; split; [lia|done]|by exists (S k)].
    + intros ([|k] & -> & Hk); [left; lia|right; by exists k].
    + intros (k & -> & Hk). by exists (S k).
    + intros ([|k] & -> & Hk); [done|by exists k].
Qed.

Lemma where_from_row_ordered (i : Z) (mask : list bool) :
  row_ordered (np.where_from i mask).
Proof.
  revert i. induction mask as [|b mask IH]; intros i; cbn [np.where_from].
  - constructor.
  - destruct b; [|apply IH]. constructor; [apply IH|].
    apply Forall_forall. intros x (k & -> & _)%elem_of_where_from. lia.
Qed.

Lemma elem_of_where (mask : list bool) (x : Z) :
  x ∈ np.where_ mask <-> 0 <= x /\ mask !! Z.to_nat x = Some true.
Proof.
  unfold np.where_. rewrite elem_of_where_from. split.
  - intros (k & -> & Hk). split; [lia|]. by rewrite Z.add_0_l, Nat2Z.id.
  - intros [Hx Hk]. exists (Z.to_nat x). split; [lia|done].
Qed.

Lemma sort_sorted (ar : list Z) : StronglySorted Z.le (np.sort ar).
Proof. apply (StronglySorted_merge_sort Z.le). Qed.

Lemma sort_perm (ar : list Z) : np.sort ar ≡ₚ ar.
Proof. apply merge_sort_Permutation. Qed.

Lemma drop_repeats_spec (prev : Z) (aux : list Z) :
  StronglySorted Z.le aux -> Forall (Z.le prev) aux ->
  row_ordered (np.drop_repeats prev aux)
  /\ forall x, x ∈ np.drop_repeats prev aux <-> x ∈ aux /\ x <> prev.
Proof.
  intros Hs. revert prev. induction Hs as [|y aux Hs IH Hy]; intros prev Hp.
  - cbn. split; [constructor|]. intros x. rewrite elem_of_nil. tauto.
  - cbn [np.drop_repeats]. apply Forall_cons in Hp as [Hpy Hp].
    destruct (IH y Hy) as [IHs IHe].
    assert (Hy' : forall x, x ∈ aux -> y <= x) by (by apply Forall_forall).
    destruct (Z.eqb_spec y prev) as [->|Hne].
    + split; [done|]. intros x. rewrite IHe, elem_of_cons. tauto.
    + split.
      * constructor; [done|]. apply Forall_forall. intros x [Hx Hxy]%IHe.
        specialize (Hy' _ Hx). lia.
      * intros x. rewrite !elem_of_cons, IHe. split.
        -- intros [->|[Hx Hxy]]; [tauto|]. specialize (Hy' _ Hx). split; [tauto|lia].
        -- intros [[->|Hx] Hxp]; [tauto|]. destruct (decide (x = y)); tauto.
Qed.

Lemma unique_spec (ar : list Z) :
  row_ordered (np.unique ar) /\ forall x, x ∈ np.unique ar <-> x ∈ ar.
Proof.
  unfold np.unique. pose proof (sort_sorted ar) as Hs. pose proof (sort_perm ar) as Hp.
  destruct (np.sort ar) as [|y aux].
  - split; [constructor|]. intros x. by rewrite <- Hp.
  - apply StronglySorted_inv in Hs as [Hs Hy].
    destruct (drop_repeats_spec y aux Hs Hy) as [Hd He]. split.
    + constructor; [done|]. apply Forall_forall. intros x [Hx Hxy]%He.
      rewrite Forall_forall in Hy. specialize (Hy _ Hx). lia.
    + intros x. rewrite <- Hp, !elem_of_cons, He. destruct (decide (x = y)); tauto.
Qed.

Abbreviation count := (count_occ Z.eq_dec).

Lemma count_elem_of (l : list Z) (x : Z) : x ∈ l <-> (0 < count l x)%nat.
Proof. rewrite list_elem_of_In, (count_occ_In Z.eq_dec). lia. Qed.

Lemma row_ordered_count (l : list Z) (x : Z) :
  row_ordered l -> count l x = (if bool_decide (x ∈ l) then 1 else 0)%nat.
Proof.
  intros Hl%row_ordered_NoDup. case_bool_decide as Hx.
  - apply (proj1 (NoDup_count_occ' Z.eq_dec l)); [by apply NoDup_ListNoDup|].
    apply list_elem_of_In, Hx.
  - apply (count_occ_not_In Z.eq_dec). by rewrite <- list_elem_of_In.
Qed.

(** On a sorted array in which no value occurs more than twice, the elements
    equal to their successor are the values occurring twice, once each. *)
Lemma repeated_spec (aux : list Z) :
  StronglySorted Z.le aux -> (forall x, (count aux x <= 2)%nat) ->
  row_ordered (np.repeated aux)
  /\ forall x, x ∈ np.repeated aux <-> count aux x = 2%nat.
Proof.
  induction 1 as [|x aux Hs IH Hx]; intros Hc.
  { split; [constructor|]. intros x. cbn. rewrite elem_of_nil. split; [tauto|discriminate]. }
  destruct aux as [|y r].
  { split; [constructor|]. intros z. cbn [np.repeated]. rewrite elem_of_nil.
    cbn. destruct (Z.eq_dec x z); split; (tauto || discriminate). }
  assert (Hc' : forall z, (count (y :: r) z <= 2)%nat).
  { intros z. specialize (Hc z). cbn [count_occ] in Hc |- *.
    destruct (Z.eq_dec x z); lia. }
  destruct (IH Hc') as [IHs IHe]. clear IH.
  assert (Hge : forall z, z ∈ y :: r -> x <= z) by (by apply Forall_forall).
  change (np.repeated (x :: y :: r))
    with (if y =? x then x :: np.repeated (y :: r) else np.repeated (y :: r)).
  destruct (Z.eqb_spec y x) as [->|Hne].
  - assert (Hx1 : count (x :: r) x = 1%nat).
    { specialize (Hc x). cbn [count_occ] in Hc |- *.
      destruct (Z.eq_dec x x); [lia|done]. }
    split.
    + constructor; [done|]. apply Forall_forall. intros z Hz.
      pose proof (proj1 (IHe z) Hz) as Hz2.
      assert (z ∈ x :: r) as Hin by (apply count_elem_of; lia).
      specialize (Hge _ Hin). destruct (decide (z = x)) as [->|]; [lia|lia].
    + intros z. rewrite elem_of_cons, IHe.
      destruct (decide (z = x)) as [->|Hzx].
      * rewrite (count_occ_cons_eq Z.eq_dec (x :: r) eq_refl). lia.
      * rewrite (count_occ_cons_neq Z.eq_dec (x :: r)) by done. tauto.
  - split; [done|]. intros z. rewrite IHe.
    destruct (decide (z = x)) as [->|Hzx].
    + assert (count (y :: r) x = 0%nat) as E0.
      { apply (count_occ_not_In Z.eq_dec). rewrite <- list_elem_of_In. intros Hin.
        apply elem_of_cons in Hin as [?|Hin]; [lia|].
        apply StronglySorted_inv in Hs as [_ Hy]. rewrite Forall_forall in Hy.
        specialize (Hy _ Hin). specialize (Hge y ltac:(left)). lia. }
      rewrite (count_occ_cons_eq Z.eq_dec (y :: r) eq_refl), E0. lia.
    + by rewrite (count_occ_cons_neq Z.eq_dec (y :: r)).
Qed.

(** [np.intersect1d] returns, in row order, the values present in both. *)
Lemma intersect1d_spec (ar1 ar2 : list Z) :
  row_ordered (np.intersect1d ar1 ar2)
  /\ forall x, x ∈ np.intersect1d ar1 ar2 <-> x ∈ ar1 /\ x ∈ ar2.
Proof.
  unfold np.intersect1d.
  destruct (unique_spec ar1) as [Hs1 He1], (unique_spec ar2) as [Hs2 He2].
  set (u1 := np.unique ar1) in *. set (u2 := np.unique ar2) in *.
  assert (Hcount : forall x, count (np.sort (u1 ++ u2)) x
            = ((if bool_decide (x ∈ u1) then 1 else 0)
               + (if bool_decide (x ∈ u2) then 1 else 0))%nat).
  { intros x. rewrite (proj1 (Permutation_count_occ Z.eq_dec _ _) (sort_perm _)).
    by rewrite count_occ_app, !row_ordered_count. }
  destruct (repeated_spec (np.sort (u1 ++ u2))) as [Hr He].
  - apply sort_sorted.
  - intros x. rewrite Hcount. repeat case_bool_decide; lia.
  - split; [done|]. intros x. rewrite He, Hcount, <- He1, <- He2.
    repeat case_bool_decide; split; (tauto || lia || (intros; exfalso; lia)).
Qed.

(** ** reduce(np.intersect1d, ...) *)

Lemma fold_intersect1d_spec (rest : list (list Z)) (a x : list Z) :
  row_ordered (fold_left np.intersect1d (a :: rest) x)
  /\ forall z, z ∈ fold_left np.intersect1d (a :: rest) x
               <-> Forall (fun s => z ∈ s) (x :: a :: rest).
Proof.
  revert a x. induction rest as [|b rest IH]; intros a x.
  - cbn [fold_left]. destruct (intersect1d_spec x a) as [Hs He].
    split; [done|]. intros z. rewrite He, !Forall_cons, Forall_nil. tauto.
  - change (fold_left np.intersect1d (a :: b :: rest) x)
      with (fold_left np.intersect1d (b :: rest) (np.intersect1d x a)).
    destruct (IH b (np.intersect1d x a)) as [Hs He]. split; [done|].
    intros z. rewrite He, !Forall_cons.
    rewrite (proj2 (intersect1d_spec x a) z). tauto.
Qed.

(** With two arrays or more, the result is the row-ordered array of the
    indices present in every one of them. *)
Lemma reduce_intersect1d_spec (criteria : list (list Z)) :
  (2 <= length criteria)%nat ->
  exists out, reduce np.intersect1d criteria = Ok out
    /\ row_ordered out
    /\ forall z, z ∈ out <-> Forall (fun s => z ∈ s) criteria.
Proof.
  destruct criteria as [|x [|a rest]]; cbn [length]; [lia..|]. intros _.
  eexists. split; [reflexivity|]. apply fold_intersect1d_spec.
Qed.

Lemma reduce_intersect1d_perm (l l' : list (list Z)) :
  l ≡ₚ l' -> reduce np.intersect1d l = reduce np.intersect1d l'.
Proof.
  intros Hp. pose proof (Permutation_length Hp) as Hlen.
  destruct (decide (2 <= length l)%nat) as [H2|H2].
  - destruct (reduce_intersect1d_spec l H2) as (out & -> & Hs & He).
    destruct (reduce_intersect1d_spec l') as (out' & -> & Hs' & He'); [lia|].
    f_equal. apply row_ordered_ext; [done..|].
    intros z. rewrite He, He'. by rewrite Hp.
  - destruct l as [|x [|??]]; cbn [length] in *; [| |lia].
    + apply Permutation_nil in Hp. by subst.
    + apply Permutation_singleton_l in Hp. by subst.
Qed.

(** ** The filtering stage of compile_apogee *)


Lemma row_of_inj cat i r r' : row_of cat i r -> row_of cat i r' -> r = r'.
Proof. intros [_ H] [_ H']. congruence. Qed.

Lemma row_of_range cat i r : row_of cat i r -> 0 <= i < Z.of_nat (length cat).
Proof. intros [H0 H%lookup_lt_Some]. lia. Qed.

Lemma elem_of_where_map (cat : list allstar_row) (P : allstar_row -> bool) (i : Z) :
  i ∈ np.where_ (map P cat) <-> exists r, row_of cat i r /\ P r = true.
Proof.
  rewrite elem_of_where. unfold row_of.
  change (map P cat) with (P <$> cat). rewrite list_lookup_fmap. split.
  - intros [H0 H]. destruct (cat !! Z.to_nat i) as [r|]; [|done].
    exists r. cbn in H. split; [done|congruence].
  - intros (r & [H0 ->] & HP). cbn. by rewrite HP.
Qed.

Lemma elem_of_total (cat : list allstar_row) (i : Z) :
  i ∈ total cat <-> exists r, row_of cat i r.
Proof.
  unfold total, row_of. rewrite elem_of_arange. split.
  - intros Hi. destruct (lookup_lt_is_Some_2 cat (Z.to_nat i)) as [r Hr]; [lia|].
    exists r. split; [lia|done].
  - intros (r & H0 & H%lookup_lt_Some). lia.
Qed.

Lemma elem_of_flag_cut (cat : list allstar_row) (cut : bool) (P : allstar_row -> bool) i :
  i ∈ (if cut then np.where_ (map P cat) else total cat)
  <-> exists r, row_of cat i r /\ (if cut then P r else true) = true.
Proof.
  destruct cut; [apply elem_of_where_map|]. rewrite elem_of_total.
  split; [intros (r & Hr); by exists r|intros (r & Hr & _); by exists r].
Qed.

Ltac decompose_criteria :=
  repeat match goal with
         | H : _ /\ _ |- _ => destruct H as [? ?]
         | H : exists r, row_of _ _ r /\ _ |- _ => destruct H as (? & ? & ?)
         end;
  repeat match goal with
         | H1 : row_of ?cat ?i ?r, H2 : row_of ?cat ?i ?r' |- _ =>
             pose proof (row_of_inj _ _ _ _ H1 H2); subst r'; clear H2
         end.

Lemma elem_of_train_criteria cat c i :
  Forall (fun s => i ∈ s) (train_criteria cat c)
  <-> exists r, row_of cat i r
        /\ passes_other_cuts c r = true /\ in_train_band c r = true.
Proof.
  unfold train_criteria. rewrite !Forall_cons, Forall_nil.
  unfold DR_fitlered_starflag, DR_fitlered_aspcapflag, DR_fitlered_temp_lower,
    DR_fitlered_vscatter, DR_fitlered_Fe, DR_fitlered_logg, DR_fitlered_snrlow,
    DR_fitlered_snrhigh, DR14_fitlered_location, DR_fitlered_temp_upper.
  rewrite !elem_of_flag_cut, !elem_of_where_map.
  unfold passes_other_cuts, in_train_band. split.
  - intros H. decompose_criteria.
    match goal with Hr : row_of _ _ ?r |- _ => exists r; split; [exact Hr|] end.
    repeat match goal with H : _ = true |- _ => rewrite H; clear H end. done.
  - intros (r & Hr & Ho & Hb).
    repeat match goal with
           | H : _ && _ = true |- _ => apply andb_true_iff in H as [? ?]
           end.
    repeat split; exists r; (split; assumption).
Qed.

Lemma elem_of_test_criteria cat c i :
  Forall (fun s => i ∈ s) (test_criteria cat c)
  <-> exists r, row_of cat i r
        /\ passes_other_cuts c r = true /\ in_test_band c r = true.
Proof.
  unfold test_criteria. rewrite !Forall_cons, Forall_nil.
  unfold DR_fitlered_starflag, DR_fitlered_aspcapflag, DR_fitlered_temp_lower,
    DR_fitlered_vscatter, DR_fitlered_Fe, DR_fitlered_logg, DR_fitlered_SNRtest_low,
    DR_fitlered_SNRtest_high, DR14_fitlered_location, DR_fitlered_temp_upper.
  rewrite !elem_of_flag_cut, !elem_of_where_map.
  unfold passes_other_cuts, in_test_band. split.
  - intros H. decompose_criteria.
    match goal with Hr : row_of _ _ ?r |- _ => exists r; split; [exact Hr|] end.
    repeat match goal with H : _ = true |- _ => rewrite H; clear H end. done.
  - intros (r & Hr & Ho & Hb).
    repeat match goal with
           | H : _ && _ = true |- _ => apply andb_true_iff in H as [? ?]
           end.
    repeat split; exists r; (split; assumption).
Qed.

Lemma Qltb_lt (x y : Q) : Qltb x y = true <-> (x < y)%Q.
Proof.
  unfold Qltb. rewrite negb_true_iff. split.
  - intros H. apply Qnot_le_lt. intros Hle%Qle_bool_iff. congruence.
  - intros H. apply not_true_is_false. intros Hle%Qle_bool_iff.
    by apply (Qlt_not_le _ _ H).
Qed.

Lemma snr_bands_exclusive (c : apogee_cuts) (r : allstar_row) :
  snr_bands_overlap c = false ->
  in_train_band c r = true -> in_test_band c r = true -> False.
Proof.
  unfold snr_bands_overlap, in_train_band, in_test_band, f_gt, f_lt.
  intros Hno [H1 H2]%andb_true_iff [H3 H4]%andb_true_iff.
  destruct (SNR r) as [q|[]|]; try discriminate.
  apply Qltb_lt in H1, H2, H3, H4.
  assert (Qltb (SNRtrain_low c) (SNRtrain_high c) = true) as E1
    by (apply Qltb_lt; eauto using Qlt_trans).
  assert (Qltb (SNRtest_low c) (SNRtest_high c) = true) as E2
    by (apply Qltb_lt; eauto using Qlt_trans).
  assert (Qltb (SNRtrain_low c) (SNRtest_high c) = true) as E3
    by (apply Qltb_lt; eauto using Qlt_trans).
  assert (Qltb (SNRtest_low c) (SNRtrain_high c) = true) as E4
    by (apply Qltb_lt; eauto using Qlt_trans).
  rewrite E1, E2, E3, E4 in Hno. discriminate.
Qed.

Lemma filtered_train_index_spec (cat : list allstar_row) (c : apogee_cuts) :
  exists out, filtered_train_index cat c = Ok out
    /\ row_ordered out
    /\ forall i, i ∈ out <-> exists r, row_of cat i r
         /\ passes_other_cuts c r = true /\ in_train_band c r = true.
Proof.
  destruct (reduce_intersect1d_spec (train_criteria cat c)) as (out & E & Hs & He).
  { cbn [train_criteria length]. lia. }
  exists out. split; [done|]. split; [done|].
  intros i. rewrite He. apply elem_of_train_criteria.
Qed.

Lemma filtered_test_index_spec (cat : list allstar_row) (c : apogee_cuts) :
  exists out, filtered_test_index cat c = Ok out
    /\ row_ordered out
    /\ forall i, i ∈ out <-> exists r, row_of cat i r
         /\ passes_other_cuts c r = true /\ in_test_band c r = true.
Proof.
  destruct (reduce_intersect1d_spec (test_criteria cat c)) as (out & E & Hs & He).
  { cbn [test_criteria length]. lia. }
  exists out. split; [done|]. split; [done|].
  intros i. rewrite He. apply elem_of_test_criteria.
Qed.

Lemma forallb_row_of (cat : list allstar_row) (P : allstar_row -> bool) i r :
  forallb P cat = true -> row_of cat i r -> P r = true.
Proof.
  intros H [_ Hr]. rewrite forallb_forall in H. apply H.
  apply list_elem_of_In. by eapply list_elem_of_lookup_2.
Qed.

(** When every row passes the other cuts, the filtered indices are the rows
    inside the signal-to-noise band. *)
Lemma filtered_index_is_band (cat : list allstar_row) (c : apogee_cuts) :
  forallb (passes_other_cuts c) cat = true ->
  filtered_train_index cat c = Ok (np.where_ (map (in_train_band c) cat))
  /\ filtered_test_index cat c = Ok (np.where_ (map (in_test_band c) cat)).
Proof.
  intros Hall.
  destruct (filtered_train_index_spec cat c) as (tr & -> & Hs & He).
  destruct (filtered_test_index_spec cat c) as (te & -> & Hs' & He').
  split; f_equal; apply row_ordered_ext; try done;
    try apply where_from_row_ordered; intros i;
    rewrite ?He, ?He', elem_of_where_map.
  - split; [intros (r & Hr & _ & Hb)|intros (r & Hr & Hb)];
      exists r; eauto using forallb_row_of.
  - split; [intros (r & Hr & _ & Hb)|intros (r & Hr & Hb)];
      exists r; eauto using forallb_row_of.
Qed.

Lemma band_indices_disjoint (cat : list allstar_row) (c : apogee_cuts)
    (train test : list Z) :
  snr_bands_overlap c = false ->
  filtered_train_index cat c = Ok train ->
  filtered_test_index cat c = Ok test ->
  forall i, ~ (i ∈ train /\ i ∈ test).
Proof.
  intros Hno Etr Ete.
  destruct (filtered_train_index_spec cat c) as (tr & Etr' & _ & He).
  destruct (filtered_test_index_spec cat c) as (te & Ete' & _ & He').
  rewrite Etr in Etr'. rewrite Ete in Ete'.
  injection Etr' as <-. injection Ete' as <-.
  intros i [(r & Hr & _ & Hb)%He (r' & Hr' & _ & Hb')%He'].
  rewrite <- (row_of_inj _ _ _ _ Hr Hr') in Hb'.
  eapply snr_bands_exclusive; eauto.
Qed.

(** C4.  For every catalogue and every configuration whose train and test
    signal-to-noise bands do not overlap, the train and the test filtered
    index sets of [compile_apogee] have no index in common: their
    intersection is the empty array. *)
Theorem train_test_index_disjoint (cat : list allstar_row) (c : apogee_cuts) :
  snr_bands_overlap c = false ->
  exists train test,
    filtered_train_index cat c = Ok train
    /\ filtered_test_index cat c = Ok test
    /\ np.intersect1d train test = []
    /\ forall i, ~ (i ∈ train /\ i ∈ test).
Proof.
  intros Hno.
  destruct (filtered_train_index_spec cat c) as (tr & Etr & _).
  destruct (filtered_test_index_spec cat c) as (te & Ete & _).
  exists tr, te. split; [done|]. split; [done|].
  pose proof (band_indices_disjoint cat c tr te Hno Etr Ete) as Hdisj.
  split; [|done].
  destruct (np.intersect1d tr te) as [|z l] eqn:E; [done|]. exfalso.
  apply (Hdisj z). apply (proj2 (intersect1d_spec tr te)). rewrite E. left.
Qed.

Lemma train_test_index_disjoint_witness :
  exists train test,
    filtered_train_index scenario1_catalog default_cuts = Ok train
    /\ filtered_test_index scenario1_catalog default_cuts = Ok test
    /\ np.intersect1d train test = []
    /\ forall i, ~ (i ∈ train /\ i ∈ test).
Proof. apply (train_test_index_disjoint scenario1_catalog default_cuts). reflexivity. Defined.

(** C6.  The filtered index set does not depend on the order of the criteria:
    for every catalogue and configuration, intersecting any permutation of the
    per-criterion index arrays gives the same index array as the order used
    by [compile_apogee], for the train and for the test variant. *)
Theorem filtered_index_order_independent (cat : list allstar_row) (c : apogee_cuts)
    (train_order test_order : list (list Z)) :
  train_order ≡ₚ train_criteria cat c ->
  test_order ≡ₚ test_criteria cat c ->
  reduce np.intersect1d train_order = filtered_train_index cat c
  /\ reduce np.intersect1d test_order = filtered_test_index cat c.
Proof.
  intros H1 H2. split; by apply reduce_intersect1d_perm.
Qed.

Lemma filtered_index_order_independent_witness :
  reduce np.intersect1d (reverse (train_criteria scenario1_catalog default_cuts))
    = filtered_train_index scenario1_catalog default_cuts
  /\ reduce np.intersect1d (reverse (test_criteria scenario1_catalog default_cuts))
    = filtered_test_index scenario1_catalog default_cuts.
Proof.
  apply (filtered_index_order_independent scenario1_catalog default_cuts);
    apply reverse_Permutation.
Defined.

(** C9.  Every filtered index sequence of the filtering stage (the train and
    the test index of [compile_apogee], the APOGEE index of [compile_gaia])
    is in catalogue row order: whatever the order in which the criteria are
    intersected, the result is a strictly increasing sequence of row indices
    of the catalogue, hence without duplicates. *)
Theorem filtered_index_row_ordered (cat : list allstar_row) (c : apogee_cuts)
    (SNR_low vscattercut : Q) (order : list (list Z)) :
  order ≡ₚ train_criteria cat c
  \/ order ≡ₚ test_criteria cat c
  \/ order ≡ₚ gaia_criteria cat SNR_low vscattercut ->
  exists filtered_index,
    reduce np.intersect1d order = Ok filtered_index
    /\ row_ordered filtered_index
    /\ NoDup filtered_index
    /\ Forall (fun i => 0 <= i < Z.of_nat (length cat)) filtered_index.
Proof.
  intros [Hp|[Hp|Hp]]; rewrite (reduce_intersect1d_perm _ _ Hp).
  - destruct (filtered_train_index_spec cat c) as (out & E & Hs & He).
    exists out. repeat split; auto using row_ordered_NoDup.
    apply Forall_forall. intros i (r & Hr & _)%He. eapply row_of_range, Hr.
  - destruct (filtered_test_index_spec cat c) as (out & E & Hs & He).
    exists out. repeat split; auto using row_ordered_NoDup.
    apply Forall_forall. intros i (r & Hr & _)%He. eapply row_of_range, Hr.
  - destruct (reduce_intersect1d_spec (gaia_criteria cat SNR_low vscattercut))
      as (out & E & Hs & He).
    { cbn [gaia_criteria length]. lia. }
    exists out. repeat split; auto using row_ordered_NoDup.
    apply Forall_forall. intros i Hi%He.
    apply Forall_cons in Hi as [(r & Hr & _)%elem_of_where_map _].
    eapply row_of_range, Hr.
Qed.

Lemma filtered_index_row_ordered_witness :
  exists filtered_index,
    reduce np.intersect1d (reverse (train_criteria scenario1_catalog default_cuts))
      = Ok filtered_index
    /\ row_ordered filtered_index
    /\ NoDup filtered_index
    /\ Forall (fun i => 0 <= i < Z.of_nat (length scenario1_catalog)) filtered_index.
Proof.
  apply (filtered_index_row_ordered scenario1_catalog default_cuts 100 1).
  left. apply reverse_Permutation.
Defined.

(** ** gap_delete *)

Lemma gap_delete_13 {A} (spec : list A) :
  gap_delete spec (Some 13) =
  (s ← np.delete spec (np.arange 8306 (Z.of_nat (length spec)));
   s ← np.delete s (np.arange 6049 6412);
   s ← np.delete s (np.arange 3243 3648);
   s ← np.delete s (np.arange 0 322);
   Ok s).
Proof. reflexivity. Qed.

Lemma gap_delete_14 {A} (spec : list A) :
  gap_delete spec (Some 14) =
  (s ← np.delete spec (np.arange 8335 8575);
   s ← np.delete s (np.arange 6080 6344);
   s ← np.delete s (np.arange 3274 3585);
   s ← np.delete s (np.arange 0 246);
   Ok s).
Proof. reflexivity. Qed.

(** What [gap_delete] does on a spectrum long enough for the layout. *)
Lemma gap_delete_spec {A} (dr : Z) (spec : list A) :
  dr = 13 \/ dr = 14 ->
  gaps_fit dr (Z.of_nat (length spec)) = true ->
  let n := Z.of_nat (length spec) in
  gap_delete spec (Some dr) = Ok (gap_free dr spec)
  /\ Z.of_nat (length (gap_free dr spec)) = n - gap_width (gaps dr n).
Proof.
  intros Hdr Hfit n. subst n. unfold gaps_fit in Hfit. unfold gap_free. cbv zeta.
  destruct Hdr as [-> | ->].
  - rewrite gap_delete_13. change (gaps 13 ?n) with [(0, 322); (3243, 3648); (6049, 6412); (8306, n)] in *.
    cbn [forallb fst snd] in Hfit.
    apply delete_four_ranges; lia.
  - rewrite gap_delete_14. change (gaps 14 ?n) with [(0, 246); (3274, 3585); (6080, 6344); (8335, 8575)] in *.
    cbn [forallb fst snd] in Hfit.
    apply delete_four_ranges; lia.
Qed.

Example gap_delete_too_short : gap_delete [1; 2; 3] (Some 14) = Err IndexError.
Proof. reflexivity. Qed.

Example gap_delete_ramp_14 :
  ((fun out => Z.of_nat (length out)) <$> gap_delete (np.arange 0 8575) (Some 14)) = Ok 7514
  /\ (head <$> gap_delete (np.arange 0 8575) (Some 14)) = Ok (Some 246)
  /\ (last <$> gap_delete (np.arange 0 8575) (Some 14)) = Ok (Some 8334).
Proof. vm_compute. auto. Qed.

(** C1.  For the two supported data releases and every flux sequence long
    enough for the release's layout (in particular one of the nominal 8575
    pixels), [gap_delete] returns, in their original order, exactly the
    elements whose index lies in none of the four ranges of the release (a
    range [(lo, hi)] removes the indices [lo], ..., [hi - 1]); the output
    length is the input length minus the sum of the four widths, which is
    7514 for release 14 and 8575 pixels. *)
Theorem gap_delete_removes_exactly_the_gaps {A} (dr : Z) (spec : list A) :
  dr = 13 \/ dr = 14 ->
  gaps_fit dr (Z.of_nat (length spec)) = true ->
  let n := Z.of_nat (length spec) in
  gap_delete spec (Some dr) = Ok (gap_free dr spec)
  /\ gap_free dr spec = np.compress (fun i => negb (in_gaps (gaps dr n) i)) spec
  /\ (forall i, in_gaps (gaps dr n) i = true
                <-> exists lo hi, (lo, hi) ∈ gaps dr n /\ lo <= i < hi)
  /\ Z.of_nat (length (gap_free dr spec)) = n - gap_width (gaps dr n)
  /\ (dr = 14 -> n = nominal_length -> Z.of_nat (length (gap_free dr spec)) = 7514).
Proof.
  intros Hdr Hfit n.
  destruct (gap_delete_spec dr spec Hdr Hfit) as [E L]. fold n in L.
  split; [done|]. split; [reflexivity|]. split; [intros i; apply in_gaps_spec|].
  split; [done|].
  intros -> Hn. rewrite L, Hn. reflexivity.
Qed.

Lemma gap_delete_removes_exactly_the_gaps_witness :
  let spec := np.arange 0 nominal_length in
  let n := Z.of_nat (length spec) in
  gap_delete spec (Some 14) = Ok (gap_free 14 spec)
  /\ gap_free 14 spec = np.compress (fun i => negb (in_gaps (gaps 14 n) i)) spec
  /\ (forall i, in_gaps (gaps 14 n) i = true
                <-> exists lo hi, (lo, hi) ∈ gaps 14 n /\ lo <= i < hi)
  /\ Z.of_nat (length (gap_free 14 spec)) = n - gap_width (gaps 14 n)
  /\ (14 = 14 -> n = nominal_length -> Z.of_nat (length (gap_free 14 spec)) = 7514).
Proof.
  apply (gap_delete_removes_exactly_the_gaps 14 (np.arange 0 nominal_length)).
  - right. reflexivity.
  - vm_compute. reflexivity.
Defined.

(** ** Scenario 1: the two signal-to-noise bands *)

(** C7 as worded fails.  The cuts are strict: a record whose
    signal-to-noise ratio is exactly 200 belongs to the band [200, 99999] and
    passes every other cut, yet it is in neither filtered index (nor is one
    whose ratio is exactly 100). *)
Lemma scenario1_closed_bands_counterexample :
  ~ scenario1_as_stated scenario1_catalog.
Proof.
  intros H. destruct H as (Htrain & _); [reflexivity..|].
  vm_compute in Htrain. discriminate.
Qed.

Example scenario1_catalog_filtered :
  np.where_ (map in_train_band_closed scenario1_catalog) = [0; 1; 2; 3; 4; 5]
  /\ np.where_ (map in_test_band_half_open scenario1_catalog) = [6; 7; 8; 9]
  /\ filtered_train_index scenario1_catalog default_cuts = Ok [1; 2; 3; 4; 5]
  /\ filtered_test_index scenario1_catalog default_cuts = Ok [7; 8; 9].
Proof. vm_compute. auto. Qed.

(** C7, amended.  For every catalogue of 10 records all of which pass every
    cut other than those on the signal-to-noise ratio, 6 of which have a
    ratio strictly between 200 and 99999 and 4 of which have one strictly
    between 100 and 200, the train variant with the default bounds returns
    exactly the 6 indices, the test variant exactly the 4, and the two
    results share no index. *)
Theorem scenario1_open_bands (cat : list allstar_row) :
  length cat = 10%nat ->
  forallb (passes_other_cuts default_cuts) cat = true ->
  length (np.where_ (map (in_train_band default_cuts) cat)) = 6%nat ->
  length (np.where_ (map (in_test_band default_cuts) cat)) = 4%nat ->
  exists train test,
    filtered_train_index cat default_cuts = Ok train
    /\ filtered_test_index cat default_cuts = Ok test
    /\ train = np.where_ (map (fun r => f_gt (SNR r) 200 && f_lt (SNR r) 99999) cat)
    /\ test = np.where_ (map (fun r => f_gt (SNR r) 100 && f_lt (SNR r) 200) cat)
    /\ length train = 6%nat
    /\ length test = 4%nat
    /\ forall i, ~ (i ∈ train /\ i ∈ test).
Proof.
  intros _ Hall H6 H4.
  destruct (filtered_index_is_band cat default_cuts Hall) as [Etr Ete].
  eexists _, _. split; [exact Etr|]. split; [exact Ete|].
  repeat split; try done.
  by apply (band_indices_disjoint cat default_cuts).
Qed.

Lemma scenario1_open_bands_witness :
  exists train test,
    filtered_train_index scenario1_open_catalog default_cuts = Ok train
    /\ filtered_test_index scenario1_open_catalog default_cuts = Ok test
    /\ train = np.where_ (map (fun r => f_gt (SNR r) 200 && f_lt (SNR r) 99999)
                              scenario1_open_catalog)
    /\ test = np.where_ (map (fun r => f_gt (SNR r) 100 && f_lt (SNR r) 200)
                             scenario1_open_catalog)
    /\ length train = 6%nat
    /\ length test = 4%nat
    /\ forall i, ~ (i ∈ train /\ i ∈ test).
Proof. apply (scenario1_open_bands scenario1_open_catalog); reflexivity. Defined.

(** ** compile_apogee: the rows of a table *)

Lemma gaps_fit_14 (n : Z) : nominal_length <= n -> gaps_fit 14 n = true.
Proof.
  unfold nominal_length, gaps_fit. intros Hn.
  change (gaps 14 n) with [(0, 246); (3274, 3585); (6080, 6344); (8335, 8575)].
  cbn [forallb fst snd]. rewrite !andb_true_iff, !Z.leb_le. lia.
Qed.

Lemma gap_delete_14_long {A} (spec : list A) :
  nominal_length <= Z.of_nat (length spec) ->
  gap_delete spec (Some 14) = Ok (gap_free 14 spec)
  /\ Z.of_nat (length (gap_free 14 spec)) = Z.of_nat (length spec) - 1061.
Proof.
  intros Hn.
  destruct (gap_delete_spec 14 spec (or_intror eq_refl) (gaps_fit_14 _ Hn)) as [E L].
  split; [exact E|]. rewrite L. reflexivity.
Qed.

Lemma length_ramp_spectrum (n : Z) :
  0 <= n -> Z.of_nat (length (ramp_spectrum n)) = n.
Proof.
  intros Hn. unfold ramp_spectrum. rewrite length_map, length_arange. lia.
Qed.

Section Rows.

Variable combined_spectra : Z -> Z -> string -> option Z * string.
Variable fits_open : string -> aspcap_file.
Variable dr : Z.
Variable cat : list allstar_row.

(** One turn of the loop: a fetched spectrum is appended, whatever its
    length; a warning leaves the columns as they are. *)
Lemma apogee_row_spec (st : columns) (index : Z) :
  long_enough combined_spectra fits_open dr cat index = true ->
  exists st', apogee_row combined_spectra fits_open dr cat st index = Ok st'
    /\ col_spec st' =
       col_spec st ++
       from_option (fun f => [gap_free 14 (hdu1_data f)]) []
         (fetched_at combined_spectra fits_open dr cat index)
    /\ col_SNR st' =
       col_SNR st ++
       from_option (fun _ => from_option (fun r => [SNR r]) [] (cat !! Z.to_nat index)) []
         (fetched_at combined_spectra fits_open dr cat index).
Proof.
  unfold long_enough, fetched_at, apogee_row, fetched, row_at.
  destruct (0 <=? index); [|discriminate].
  destruct (cat !! Z.to_nat index) as [r|]; [|discriminate].
  cbn [mbind result_bind].
  destruct (combined_spectra dr (LOCATION_ID r) (APOGEE_ID r)) as [[w|] path].
  - intros _. exists st. cbn. by rewrite !app_nil_r.
  - intros [H1 H3]%andb_true_iff. apply Z.leb_le in H1, H3.
    destruct (gap_delete_14_long _ H1) as [-> _].
    destruct (gap_delete_14_long _ H3) as [-> _].
    cbn [mbind result_bind]. eexists. split; [reflexivity|]. by cbn.
Qed.

(** The whole loop: the spectra and the signal-to-noise column hold one row
    per fetched record, in the order of the filtered index. *)
Lemma apogee_rows_spec (filtered_index : list Z) (st : columns) :
  forallb (long_enough combined_spectra fits_open dr cat) filtered_index = true ->
  exists st', apogee_rows combined_spectra fits_open dr cat st filtered_index = Ok st'
    /\ col_spec st' =
       col_spec st ++
       omap (fun index =>
               gap_free 14 ∘ hdu1_data <$> fetched_at combined_spectra fits_open dr cat index)
            filtered_index
    /\ col_SNR st' =
       col_SNR st ++
       omap (fun index =>
               _ ← fetched_at combined_spectra fits_open dr cat index;
               SNR <$> cat !! Z.to_nat index)
            filtered_index.
Proof.
  revert st. induction filtered_index as [|index rest IH]; intros st.
  - intros _. exists st. cbn. by rewrite !app_nil_r.
  - cbn [forallb]. intros [Hi Hrest]%andb_true_iff.
    destruct (apogee_row_spec st index Hi) as (st1 & E1 & Hs1 & Hn1).
    destruct (IH st1 Hrest) as (st' & E' & Hs' & Hn').
    exists st'. cbn [apogee_rows]. rewrite E1. cbn [mbind result_bind].
    split; [exact E'|]. rewrite Hs', Hs1, Hn', Hn1, <- !app_assoc. cbn [omap list_omap].
    destruct (fetched_at combined_spectra fits_open dr cat index) as [f|]; cbn; [|done].
    destruct (cat !! Z.to_nat index); done.
Qed.

End Rows.

(** C8 as worded fails.  A record whose fetched spectrum has 8576 pixels is
    stored, with 7515 pixels: it is not skipped. *)
Lemma length_mismatch_counterexample :
  ~ length_mismatch_skipped_as_stated demo_combined_spectra (demo_fits_open 8576)
      14 one_star_catalog empty_columns 0.
Proof.
  intros H.
  assert (Hlen : nominal_length <= Z.of_nat (length (ramp_spectrum 8576)))
    by (rewrite length_ramp_spectrum; unfold nominal_length; lia).
  destruct (gap_delete_14_long (ramp_spectrum 8576) Hlen) as [Eout Lout].
  specialize (H (demo_fits_open 8576 "2M00000000+0000000")
                (gap_free 14 (ramp_spectrum 8576)) eq_refl Eout).
  destruct (apogee_row_spec demo_combined_spectra (demo_fits_open 8576) 14
              one_star_catalog empty_columns 0) as (st & E & Hs & _).
  { unfold long_enough. cbn [row_at one_star_catalog fetched demo_combined_spectra].
    change (demo_fits_open 8576 _) with
      {| hdu1_data := ramp_spectrum 8576; hdu3_data := ramp_spectrum 8576 |}.
    cbn [hdu1_data hdu3_data]. apply andb_true_iff. split; by apply Z.leb_le. }
  rewrite H in E.
  - injection E as <-. cbn [col_spec empty_columns app] in Hs.
    change (fetched_at demo_combined_spectra (demo_fits_open 8576) 14 one_star_catalog 0)
      with (Some (demo_fits_open 8576 "2M00000000+0000000")) in Hs.
    discriminate Hs.
  - rewrite Lout, length_ramp_spectrum by lia. vm_compute. discriminate.
Qed.

(** C8, amended.  [compile_apogee] compares no length: in the loop over a
    filtered index, every fetched spectrum of 8575 pixels or more is appended
    to the spectra column with the DR14 ranges removed, so with 1061 pixels
    fewer than it came with, whatever that length is; it is neither skipped,
    nor cut, nor padded, and the loop runs to its end. *)
Theorem length_mismatch_is_stored
    (combined_spectra : Z -> Z -> string -> option Z * string)
    (fits_open : string -> aspcap_file)
    (dr : Z) (cat : list allstar_row) (filtered_index : list Z) :
  forallb (long_enough combined_spectra fits_open dr cat) filtered_index = true ->
  exists st,
    apogee_rows combined_spectra fits_open dr cat empty_columns filtered_index = Ok st
    /\ col_spec st =
       omap (fun index =>
               gap_free 14 ∘ hdu1_data <$> fetched_at combined_spectra fits_open dr cat index)
            filtered_index
    /\ forall index f,
         index ∈ filtered_index ->
         fetched_at combined_spectra fits_open dr cat index = Some f ->
         gap_free 14 (hdu1_data f) ∈ col_spec st
         /\ Z.of_nat (length (gap_free 14 (hdu1_data f)))
            = Z.of_nat (length (hdu1_data f)) - 1061.
Proof.
  intros Hlong.
  destruct (apogee_rows_spec combined_spectra fits_open dr cat filtered_index
              empty_columns Hlong) as (st & E & Hs & _).
  exists st. split; [exact E|]. cbn [col_spec empty_columns app] in Hs.
  split; [exact Hs|]. intros index f Hin Hf. split.
  - rewrite Hs. apply list_elem_of_omap. exists index. split; [done|].
    by rewrite Hf.
  - apply gap_delete_14_long.
    rewrite forallb_forall in Hlong. apply list_elem_of_In in Hin.
    specialize (Hlong _ Hin). unfold long_enough, fetched_at in *.
    destruct (row_at cat index) as [r|]; [|done]. rewrite Hf in Hlong.
    apply andb_true_iff in Hlong as [H1%Z.leb_le _]. done.
Qed.

Lemma length_mismatch_is_stored_witness :
  exists st,
    apogee_rows demo_combined_spectra (demo_fits_open 8576) 14 one_star_catalog
      empty_columns [0] = Ok st
    /\ col_spec st =
       omap (fun index =>
               gap_free 14 ∘ hdu1_data <$>
                 fetched_at demo_combined_spectra (demo_fits_open 8576) 14
                   one_star_catalog index)
            [0]
    /\ forall index f,
         index ∈ [0] ->
         fetched_at demo_combined_spectra (demo_fits_open 8576) 14
           one_star_catalog index = Some f ->
         gap_free 14 (hdu1_data f) ∈ col_spec st
         /\ Z.of_nat (length (gap_free 14 (hdu1_data f)))
            = Z.of_nat (length (hdu1_data f)) - 1061.
Proof.
  apply (length_mismatch_is_stored demo_combined_spectra (demo_fits_open 8576)
           14 one_star_catalog [0]).
  vm_compute. reflexivity.
Defined.

(** ** compile_apogee at two failing inputs *)

(** C2, at a failing input.  Two records pass the train cuts and the fetch of
    the first one fails.  The run completes; the spectra and the label
    columns of the train table have one row, taken from the second record
    (whose signal-to-noise ratio is 400), while the [index] column has two:
    row 0 of [index] names record 0 and row 0 of every other column
    describes record 1. *)
Theorem skipped_record_stays_in_index_column :
  let run := compile_apogee (demo_allstar two_star_catalog) demo_combined_spectra
               (demo_fits_open 8575) (Some "ds") (Some 14) default_cuts in
  snd run = Ok tt
  /\ column_of run "ds_train.h5" "index" = Some (Indices [0; 1])
  /\ column_of run "ds_train.h5" "SNR" = Some (Values [FNum 400])
  /\ (rows_of <$> column_of run "ds_train.h5" "spectra") = Some 1%nat
  /\ (rows_of <$> column_of run "ds_train.h5" "teff") = Some 1%nat.
Proof.
  intros run.
  assert (E : (snd run,
               column_of run "ds_train.h5" "index",
               column_of run "ds_train.h5" "SNR",
               rows_of <$> column_of run "ds_train.h5" "spectra",
               rows_of <$> column_of run "ds_train.h5" "teff")
              = (Ok tt, Some (Indices [0; 1]), Some (Values [FNum 400]),
                 Some 1%nat, Some 1%nat))
    by (vm_compute; reflexivity).
  apply pair_equal_spec in E as [E E5]. apply pair_equal_spec in E as [E E4].
  apply pair_equal_spec in E as [E E3]. apply pair_equal_spec in E as [E1 E2].
  exact (conj E1 (conj E2 (conj E3 (conj E4 E5)))).
Qed.

(** C3, at a failing input.  A run configured for release 13 stores the
    spectrum of its record with the release-14 ranges removed: the stored row
    starts at pixel 246 and has 7514 pixels, where [gap_delete] for release
    13 gives a row that starts at pixel 322 and has 7216. *)
Theorem dr13_run_removes_dr14_gaps :
  let run := compile_apogee (demo_allstar one_star_catalog) demo_combined_spectra
               (demo_fits_open 8575) (Some "ds") (Some 13) default_cuts in
  let flux := ramp_spectrum 8575 in
  snd run = Ok tt
  /\ column_of run "ds_train.h5" "spectra" = Some (Spectra [gap_free 14 flux])
  /\ gap_delete flux (Some 13) = Ok (gap_free 13 flux)
  /\ gap_free 14 flux <> gap_free 13 flux
  /\ Z.of_nat (length (gap_free 14 flux)) = 7514
  /\ Z.of_nat (length (gap_free 13 flux)) = 7216
  /\ head (gap_free 14 flux) = Some (FNum 246)
  /\ head (gap_free 13 flux) = Some (FNum 322).
Proof.
  intros run flux.
  assert (E : (snd run, column_of run "ds_train.h5" "spectra")
              = (Ok tt, Some (Spectra [gap_free 14 flux])))
    by (vm_compute; reflexivity).
  apply pair_equal_spec in E as [E1 E2].
  assert (Hn : Z.of_nat (length flux) = 8575) by (by apply length_ramp_spectrum).
  destruct (gap_delete_spec 14 flux) as [_ L14];
    [right; reflexivity|rewrite Hn; reflexivity|].
  destruct (gap_delete_spec 13 flux) as [E13 L13];
    [left; reflexivity|rewrite Hn; reflexivity|].
  rewrite Hn in L13, L14.
  change (gap_width (gaps 14 8575)) with 1061 in L14.
  change (gap_width (gaps 13 8575)) with 1359 in L13.
  assert (H14 : head (gap_free 14 flux) = Some (FNum 246)) by (vm_compute; reflexivity).
  assert (H13 : head (gap_free 13 flux) = Some (FNum 322)) by (vm_compute; reflexivity).
  assert (Hne : gap_free 14 flux <> gap_free 13 flux)
    by (intros Heq; rewrite Heq in L14; lia).
  assert (L14' : Z.of_nat (length (gap_free 14 flux)) = 7514) by lia.
  assert (L13' : Z.of_nat (length (gap_free 13 flux)) = 7216) by lia.
  exact (conj E1 (conj E2 (conj E13 (conj Hne (conj L14' (conj L13' (conj H14 H13))))))).
Qed.

(** ** compile_gaia: the parallax partition *)

Lemma take_valid {A} (arr : list A) (obj : list Z) :
  np.valid_indices (Z.of_nat (length arr)) obj = true ->
  exists out, np.take arr obj = Ok out /\ length out = length obj.
Proof.
  unfold np.valid_indices. induction obj as [|i obj IH]; cbn [forallb np.take].
  - intros _. by exists [].
  - intros [Hi Hobj]%andb_true_iff. rewrite Hi.
    destruct (IH Hobj) as (out & -> & Hlen).
    apply andb_true_iff in Hi as [Hlo%Z.leb_le Hhi%Z.ltb_lt].
    destruct (lookup_lt_is_Some_2 arr (Z.to_nat (np.wrap_index (Z.of_nat (length arr)) i)))
      as [x ->].
    { unfold np.wrap_index. destruct (Z.ltb_spec i 0); lia. }
    exists (x :: out). split; [reflexivity|]. cbn [length]. by rewrite Hlen.
Qed.

Lemma where_valid (mask : list bool) (n : Z) :
  Z.of_nat (length mask) <= n -> np.valid_indices n (np.where_ mask) = true.
Proof.
  intros Hn. unfold np.valid_indices. apply forallb_forall.
  intros i [H0 Hi%lookup_lt_Some]%list_elem_of_In%elem_of_where.
  apply andb_true_iff. split; [apply Z.leb_le|apply Z.ltb_lt]; lia.
Qed.

Lemma elem_of_where_at {A} (P : A -> bool) (l : list A) (k : nat) (x : A) :
  l !! k = Some x -> Z.of_nat k ∈ np.where_ (map P l) <-> P x = true.
Proof.
  intros Hk. rewrite elem_of_where, Nat2Z.id.
  change (map P l) with (P <$> l). rewrite list_lookup_fmap, Hk. cbn.
  split; [intros [_ E]; congruence|intros ->; split; [lia|done]].
Qed.

Lemma f_ge_lt_exclusive (x : fval) (c : Q) : ~ (f_ge x c = true /\ f_lt x c = true).
Proof.
  destruct x as [q|[]|]; cbn; unfold Qltb; intros [H1 H2]; try discriminate.
  rewrite H1 in H2. discriminate.
Qed.

Lemma f_ge_lt_cover (x : fval) (c : Q) :
  f_ge x c = true \/ f_lt x c = true <-> is_nan x = false.
Proof.
  destruct x as [q|[]|]; cbn; unfold Qltb.
  - destruct (Qle_bool c q); cbn; tauto.
  - tauto.
  - tauto.
  - split; [intros [?|?]; discriminate|discriminate].
Qed.

(** C10 as worded fails.  A null parallax survives both deletions, and its
    pair is in neither partition. *)
Lemma parallax_partition_counterexample :
  ~ parallax_partition_as_stated demo_gaia [0; 1; 2] [0; 1; 2].
Proof.
  intros (ratio & train & test & p1 & p2 & q1 & q2 & Er & Etr & Ete & H).
  vm_compute in Er, Etr, Ete.
  injection Er as <-. injection Etr as <- _ _. injection Ete as <- _ _.
  destruct (H 0%nat FNaN eq_refl) as (_ & _ & _ & [Hin|Hin]);
    apply list_elem_of_In in Hin; cbn in Hin; intuition discriminate.
Qed.

(** C10, amended.  In [compile_gaia] the matched pairs are split on the
    relative parallax error and on nothing else: the pair at position [k] of
    [(m1, m2)], whose ratio [parallax_error / parallax] is [x], goes to the
    train table exactly when [x >= 0.1] and to the test table exactly when
    [x < 0.1]; no pair goes to both, and a pair goes to one of them exactly
    when its ratio is a number (a NaN ratio, as a null parallax gives, fails
    both comparisons). *)
Theorem gaia_partition_by_parallax_precision (g : gaia_columns) (m1 m2 : list Z) :
  length m1 = length m2 ->
  np.valid_indices (Z.of_nat (length (parallax_percent g))) m2 = true ->
  exists ratio train test m1_train m2_train m1_test m2_test,
    np.take (parallax_percent g) m2 = Ok ratio
    /\ gaia_select "train" (parallax_percent g) m1 m2 = Ok (train, m1_train, m2_train)
    /\ gaia_select "test" (parallax_percent g) m1 m2 = Ok (test, m1_test, m2_test)
    /\ np.take m1 train = Ok m1_train /\ np.take m2 train = Ok m2_train
    /\ np.take m1 test = Ok m1_test /\ np.take m2 test = Ok m2_test
    /\ forall (k : nat) (x : fval), ratio !! k = Some x ->
         (Z.of_nat k ∈ train <-> f_ge x (1 # 10) = true)
         /\ (Z.of_nat k ∈ test <-> f_lt x (1 # 10) = true)
         /\ ~ (Z.of_nat k ∈ train /\ Z.of_nat k ∈ test)
         /\ (Z.of_nat k ∈ train \/ Z.of_nat k ∈ test <-> is_nan x = false).
Proof.
  intros Hlen Hvalid.
  destruct (take_valid (parallax_percent g) m2 Hvalid) as (ratio & Er & Lr).
  set (train := np.where_ (map (fun x => f_ge x (1 # 10)) ratio)).
  set (test := np.where_ (map (fun x => f_lt x (1 # 10)) ratio)).
  assert (Htr : forall l : list Z, length l = length m2 ->
            np.valid_indices (Z.of_nat (length l)) train = true).
  { intros l Hl. apply where_valid. rewrite length_map. lia. }
  assert (Hte : forall l : list Z, length l = length m2 ->
            np.valid_indices (Z.of_nat (length l)) test = true).
  { intros l Hl. apply where_valid. rewrite length_map. lia. }
  destruct (take_valid m1 train (Htr m1 Hlen)) as (m1_train & E1 & _).
  destruct (take_valid m2 train (Htr m2 eq_refl)) as (m2_train & E2 & _).
  destruct (take_valid m1 test (Hte m1 Hlen)) as (m1_test & E3 & _).
  destruct (take_valid m2 test (Hte m2 eq_refl)) as (m2_test & E4 & _).
  exists ratio, train, test, m1_train, m2_train, m1_test, m2_test.
  split; [exact Er|].
  split.
  { unfold gaia_select. rewrite Er. change (String.eqb "train" "train") with true.
    cbn [mbind result_bind]. fold train. rewrite E1, E2. reflexivity. }
  split.
  { unfold gaia_select. rewrite Er. change (String.eqb "test" "train") with false.
    cbn [mbind result_bind]. fold test. rewrite E3, E4. reflexivity. }
  do 4 (split; [assumption|]).
  intros k x Hk.
  pose proof (elem_of_where_at (fun x => f_ge x (1 # 10)) ratio k x Hk) as Hin_tr.
  pose proof (elem_of_where_at (fun x => f_lt x (1 # 10)) ratio k x Hk) as Hin_te.
  fold train in Hin_tr. fold test in Hin_te.
  split; [exact Hin_tr|]. split; [exact Hin_te|].
  rewrite Hin_tr, Hin_te. split; [apply f_ge_lt_exclusive|apply f_ge_lt_cover].
Qed.

Lemma gaia_partition_by_parallax_precision_witness :
  exists ratio train test m1_train m2_train m1_test m2_test,
    np.take (parallax_percent demo_gaia) [0; 1; 2] = Ok ratio
    /\ gaia_select "train" (parallax_percent demo_gaia) [0; 1; 2] [0; 1; 2]
       = Ok (train, m1_train, m2_train)
    /\ gaia_select "test" (parallax_percent demo_gaia) [0; 1; 2] [0; 1; 2]
       = Ok (test, m1_test, m2_test)
    /\ np.take [0; 1; 2] train = Ok m1_train /\ np.take [0; 1; 2] train = Ok m2_train
    /\ np.take [0; 1; 2] test = Ok m1_test /\ np.take [0; 1; 2] test = Ok m2_test
    /\ forall (k : nat) (x : fval), ratio !! k = Some x ->
         (Z.of_nat k ∈ train <-> f_ge x (1 # 10) = true)
         /\ (Z.of_nat k ∈ test <-> f_lt x (1 # 10) = true)
         /\ ~ (Z.of_nat k ∈ train /\ Z.of_nat k ∈ test)
         /\ (Z.of_nat k ∈ train \/ Z.of_nat k ∈ test <-> is_nan x = false).
Proof.
  apply (gaia_partition_by_parallax_precision demo_gaia [0; 1; 2] [0; 1; 2]);
    reflexivity.
Defined.

(** The same loop shape in [compile_gaia]: when the spectrum of the matched
    star is not on disk its row is left out of [spectra], while [teff] and
    [absmag] keep the row. *)
Example compile_gaia_skipped_record_keeps_labels :
  let run := demo_gaia_run false in
  snd run = Ok tt
  /\ (rows_of <$> column_of run "gaia_train.h5" "spectra") = Some 0%nat
  /\ (rows_of <$> column_of run "gaia_train.h5" "teff") = Some 1%nat
  /\ (rows_of <$> column_of run "gaia_train.h5" "absmag") = Some 1%nat.
Proof.
  intros run.
  assert (E : (snd run,
               rows_of <$> column_of run "gaia_train.h5" "spectra",
               rows_of <$> column_of run "gaia_train.h5" "teff",
               rows_of <$> column_of run "gaia_train.h5" "absmag")
              = (Ok tt, Some 0%nat, Some 1%nat, Some 1%nat))
    by (vm_compute; reflexivity).
  apply pair_equal_spec in E as [E E4]. apply pair_equal_spec in E as [E E3].
  apply pair_equal_spec in E as [E1 E2].
  exact (conj E1 (conj E2 (conj E3 E4))).
Qed.

Example compile_gaia_aligned_when_on_disk :
  let run := demo_gaia_run true in
  snd run = Ok tt
  /\ (rows_of <$> column_of run "gaia_train.h5" "spectra") = Some 1%nat
  /\ (rows_of <$> column_of run "gaia_train.h5" "teff") = Some 1%nat.
Proof.
  intros run.
  assert (E : (snd run,
               rows_of <$> column_of run "gaia_train.h5" "spectra",
               rows_of <$> column_of run "gaia_train.h5" "teff")
              = (Ok tt, Some 1%nat, Some 1%nat))
    by (vm_compute; reflexivity).
  apply pair_equal_spec in E as [E E3]. apply pair_equal_spec in E as [E1 E2].
  exact (conj E1 (conj E2 E3)).
Qed.

(** ** Exceptions of a compile_apogee run *)

Lemma delete_error {A} (arr : list A) (obj : list Z) (e : exn) :
  np.delete arr obj = Err e -> e = IndexError.
Proof.
  unfold np.delete. destruct (np.valid_indices _ obj); [discriminate|congruence].
Qed.

Lemma bind_delete_error {A B} (arr : list A) (obj : list Z)
    (k : list A -> result B) (e : exn) :
  (forall s, k s = Err e -> e = IndexError) ->
  (s ← np.delete arr obj; k s) = Err e -> e = IndexError.
Proof.
  intros Hk. destruct (np.delete arr obj) as [s|e'] eqn:E; cbn [mbind result_bind].
  - apply Hk.
  - intros [= <-]. by eapply delete_error.
Qed.

Lemma gap_delete_14_error {A} (spec : list A) (e : exn) :
  gap_delete spec (Some 14) = Err e -> e = IndexError.
Proof.
  rewrite gap_delete_14.
  repeat (apply bind_delete_error; intros ?). intros H; discriminate H.
Qed.

Section Errors.

Variable combined_spectra : Z -> Z -> string -> option Z * string.
Variable fits_open : string -> aspcap_file.

Lemma apogee_row_error dr cat st index e :
  apogee_row combined_spectra fits_open dr cat st index = Err e -> e = IndexError.
Proof.
  unfold apogee_row, row_at.
  destruct (0 <=? index); [|cbn; congruence].
  destruct (cat !! Z.to_nat index) as [r|]; [|cbn; congruence].
  cbn [mbind result_bind].
  destruct (combined_spectra dr (LOCATION_ID r) (APOGEE_ID r)) as [[w|] path];
    cbv iota beta; [intros H; discriminate H|].
  destruct (gap_delete (hdu1_data (fits_open path)) (Some 14)) eqn:E1;
    cbn [mbind result_bind];
    [|intros [= <-]; by eapply gap_delete_14_error].
  destruct (gap_delete (hdu3_data (fits_open path)) (Some 14)) eqn:E3;
    cbn [mbind result_bind];
    [intros H; discriminate H|intros [= <-]; by eapply gap_delete_14_error].
Qed.

Lemma apogee_rows_error dr cat filtered_index st e :
  apogee_rows combined_spectra fits_open dr cat st filtered_index = Err e ->
  e = IndexError.
Proof.
  revert st. induction filtered_index as [|index rest IH]; intros st; cbn [apogee_rows].
  - intros H; discriminate H.
  - destruct (apogee_row combined_spectra fits_open dr cat st index) as [st'|e'] eqn:E;
      cbn [mbind result_bind]; [apply IH|intros [= <-]; by eapply apogee_row_error].
Qed.

Lemma apogee_tables_error h5name dr cat tables written files e :
  apogee_tables combined_spectra fits_open h5name dr cat tables written = (files, Err e) ->
  e = IndexError.
Proof.
  revert written. induction tables as [|[part idx] rest IH]; intros written;
    cbn [apogee_tables].
  - intros H; discriminate H.
  - destruct (apogee_rows combined_spectra fits_open dr cat empty_columns idx)
      as [st|e'] eqn:E; [apply IH|intros [= _ <-]; by eapply apogee_rows_error].
Qed.

(** A run of [compile_apogee] that ends with an exception other than
    [IndexError] has written no file. *)
Lemma compile_apogee_early_error allstar h5name dr c e :
  snd (compile_apogee allstar combined_spectra fits_open h5name dr c) = Err e ->
  e <> IndexError ->
  fst (compile_apogee allstar combined_spectra fits_open h5name dr c) = [].
Proof.
  unfold compile_apogee.
  destruct (h5name_check h5name) as [name|]; [|done].
  destruct (allstar (apogee_default_dr dr)) as [cat|]; [|done].
  destruct (filtered_train_index cat c) as [tr|]; [|done].
  destruct (filtered_test_index cat c) as [te|]; [|done].
  destruct (apogee_tables _ _ _ _ _ _ _) as [files r] eqn:E. cbn [fst snd].
  intros -> Hne. apply apogee_tables_error in E. contradiction.
Qed.

End Errors.

(** C5.  [gap_delete] raises [ValueError] for every data release other than
    13 and 14, a missing release being read as 14 first; it returns no array
    then, in particular not its input.  The exception is raised before
    anything is written: [gap_delete] itself writes nothing, and a run of
    [compile_apogee] that ends with this exception has created no file. *)
Theorem gap_delete_rejects_unsupported_dr {A} (spec : list A) (dr : option Z) :
  apogee_default_dr dr <> 13 -> apogee_default_dr dr <> 14 ->
  apogee_default_dr None = 14
  /\ gap_delete spec dr = Err unsupported_dr
  /\ (forall out, gap_delete spec dr <> Ok out)
  /\ gap_delete spec dr <> Ok spec
  /\ forall allstar combined_spectra fits_open h5name run_dr c,
       snd (compile_apogee allstar combined_spectra fits_open h5name run_dr c)
         = Err unsupported_dr ->
       fst (compile_apogee allstar combined_spectra fits_open h5name run_dr c) = [].
Proof.
  intros H13 H14. split; [reflexivity|].
  assert (E : gap_delete spec dr = Err unsupported_dr).
  { unfold gap_delete.
    destruct (Z.eqb_spec (apogee_default_dr dr) 13); [done|].
    destruct (Z.eqb_spec (apogee_default_dr dr) 14); [done|]. reflexivity. }
  rewrite E. split; [reflexivity|]. split; [intros out H; discriminate H|].
  split; [intros H; discriminate H|].
  intros allstar combined_spectra fits_open h5name run_dr c Hrun.
  eapply compile_apogee_early_error; [exact Hrun|]. intros H; discriminate H.
Qed.

Lemma gap_delete_rejects_unsupported_dr_witness :
  apogee_default_dr None = 14
  /\ gap_delete [FNum 1; FNum 2] (Some 12) = Err unsupported_dr
  /\ (forall out, gap_delete [FNum 1; FNum 2] (Some 12) <> Ok out)
  /\ gap_delete [FNum 1; FNum 2] (Some 12) <> Ok [FNum 1; FNum 2]
  /\ forall allstar combined_spectra fits_open h5name run_dr c,
       snd (compile_apogee allstar combined_spectra fits_open h5name run_dr c)
         = Err unsupported_dr ->
       fst (compile_apogee allstar combined_spectra fits_open h5name run_dr c) = [].
Proof.
  apply (gap_delete_rejects_unsupported_dr [FNum 1; FNum 2] (Some 12)); cbn; lia.
Defined.

(** * Further properties *)

(** ** apogeeid_digit *)

Lemma apogeeid_digit_app (s1 s2 : string) :
  apogeeid_digit (s1 +:+ s2) = apogeeid_digit s1 +:+ apogeeid_digit s2.
Proof.
  induction s1 as [|ch s1 IH]; simpl; [done|].
  destruct (isdigit ch); simpl; by rewrite IH.
Qed.

Lemma apogeeid_digit_fixed (s : string) :
  all_digits s = true -> apogeeid_digit s = s.
Proof.
  induction s as [|ch s IH]; cbn; [done|].
  intros [-> Hs]%andb_true_iff. by rewrite IH.
Qed.

Lemma apogeeid_digit_all_digits (s : string) : all_digits (apogeeid_digit s) = true.
Proof.
  induction s as [|ch s IH]; cbn; [done|].
  destruct (isdigit ch) eqn:E; cbn; [by rewrite E|done].
Qed.

(** X1.  [apogeeid_digit] keeps digits only, never lengthens the identifier,
    leaves an all-digit identifier as it is and is therefore idempotent. *)
Theorem apogeeid_digit_normal_form (s : string) :
  all_digits (apogeeid_digit s) = true
  /\ (String.length (apogeeid_digit s) <= String.length s)%nat
  /\ apogeeid_digit (apogeeid_digit s) = apogeeid_digit s
  /\ (apogeeid_digit s = s <-> all_digits s = true).
Proof.
  split; [apply apogeeid_digit_all_digits|]. split.
  { induction s as [|ch s IH]; cbn; [done|]. destruct (isdigit ch); cbn; lia. }
  split; [apply apogeeid_digit_fixed, apogeeid_digit_all_digits|].
  split; [|apply apogeeid_digit_fixed].
  intros E. rewrite <- E. apply apogeeid_digit_all_digits.
Qed.

(** X2.  Characters that are not digits play no part: two identifiers that
    differ in one non-digit character (the sign of the declination, say)
    have the same digit form, which is the digit form of the identifier
    without that character. *)
Theorem apogeeid_digit_ignores_non_digits (s1 s2 : string) (c d : Ascii.ascii) :
  isdigit c = false -> isdigit d = false ->
  apogeeid_digit (s1 +:+ String c s2) = apogeeid_digit (s1 +:+ String d s2)
  /\ apogeeid_digit (s1 +:+ String c s2) = apogeeid_digit (s1 +:+ s2).
Proof.
  intros Hc Hd. rewrite !apogeeid_digit_app. simpl. by rewrite Hc, Hd.
Qed.

Lemma apogeeid_digit_ignores_non_digits_witness :
  apogeeid_digit ("2M00000002" +:+ String "+"%char "7417074")
    = apogeeid_digit ("2M00000002" +:+ String "-"%char "7417074")
  /\ apogeeid_digit ("2M00000002" +:+ String "+"%char "7417074")
    = apogeeid_digit ("2M00000002" +:+ "7417074").
Proof.
  apply (apogeeid_digit_ignores_non_digits "2M00000002" "7417074" "+"%char "-"%char);
    reflexivity.
Defined.

Example apogeeid_digit_example :
  apogeeid_digit "2M00000002+7417074" = "2000000027417074".
Proof. reflexivity. Qed.

(** ** gap_delete: position only, slices, short input *)

Lemma compress_from_map {A B} (f : A -> B) (i : Z) (keep : Z -> bool) (arr : list A) :
  np.compress_from i keep (map f arr) = map f (np.compress_from i keep arr).
Proof.
  revert i. induction arr as [|x arr IH]; intros i; cbn [map np.compress_from]; [done|].
  rewrite IH. by destruct (keep i).
Qed.

Lemma delete_map {A B} (f : A -> B) (arr : list A) (obj : list Z) :
  np.delete (map f arr) obj = map f <$> np.delete arr obj.
Proof.
  unfold np.delete. rewrite length_map.
  destruct (np.valid_indices _ obj); [|done].
  cbn. unfold np.compress. by rewrite compress_from_map.
Qed.

Lemma bind_delete_map {A B} (f : A -> B) (arr : list A) (obj : list Z)
    (k : list A -> result (list A)) (k' : list B -> result (list B)) :
  (forall s, k' (map f s) = map f <$> k s) ->
  (s ← np.delete (map f arr) obj; k' s) = map f <$> (s ← np.delete arr obj; k s).
Proof.
  intros Hk. rewrite delete_map. destruct (np.delete arr obj) as [s|e]; cbn; [apply Hk|done].
Qed.

(** X3.  Which pixels [gap_delete] removes depends on their position only:
    transforming every pixel before the call or after it gives the same
    outcome, for every release and every length, exceptions included. *)
Theorem gap_delete_map {A B} (f : A -> B) (spec : list A) (dr : option Z) :
  gap_delete (map f spec) dr = map f <$> gap_delete spec dr.
Proof.
  unfold gap_delete. rewrite length_map.
  destruct (apogee_default_dr dr =? 13).
  - repeat (apply bind_delete_map; intros ?). reflexivity.
  - destruct (apogee_default_dr dr =? 14); [|reflexivity].
    repeat (apply bind_delete_map; intros ?). reflexivity.
Qed.

Lemma slice_middle {A} (l1 l2 l3 : list A) (a b : Z) :
  a = Z.of_nat (length l1) -> b = a + Z.of_nat (length l2) ->
  slice a b (l1 ++ l2 ++ l3) = l2.
Proof.
  intros -> ->. unfold slice.
  replace (Z.to_nat (Z.of_nat (length l1))) with (length l1) by lia.
  replace (Z.to_nat (Z.of_nat (length l1) + Z.of_nat (length l2) - Z.of_nat (length l1)))
    with (length l2) by lia.
  by rewrite drop_app_length, take_app_length.
Qed.

(** The mask selection of [delete_four_ranges] as a concatenation of slices. *)
Lemma compress_four_ranges_slices {A} (spec : list A) a1 b1 a2 b2 a3 b3 a4 b4 :
  0 <= a1 <= b1 -> b1 <= a2 <= b2 -> b2 <= a3 <= b3 -> b3 <= a4 <= b4 ->
  b4 <= Z.of_nat (length spec) ->
  np.compress (fun i => negb (in_gaps [(a1, b1); (a2, b2); (a3, b3); (a4, b4)] i)) spec
  = slice 0 a1 spec ++ slice b1 a2 spec ++ slice b2 a3 spec ++ slice b3 a4 spec
    ++ drop (Z.to_nat b4) spec.
Proof.
  intros H1 H2 H3 H4 Hn.
  destruct (split_at spec a1) as (p0 & r0 & -> & L0); [lia|].
  rewrite length_app in Hn.
  destruct (split_at r0 (b1 - a1)) as (g1 & r1 & -> & Lg1); [lia|].
  rewrite length_app in Hn.
  destruct (split_at r1 (a2 - b1)) as (p1 & r2 & -> & L1); [lia|].
  rewrite length_app in Hn.
  destruct (split_at r2 (b2 - a2)) as (g2 & r3 & -> & Lg2); [lia|].
  rewrite length_app in Hn.
  destruct (split_at r3 (a3 - b2)) as (p2 & r4 & -> & L2); [lia|].
  rewrite length_app in Hn.
  destruct (split_at r4 (b3 - a3)) as (g3 & r5 & -> & Lg3); [lia|].
  rewrite length_app in Hn.
  destruct (split_at r5 (a4 - b3)) as (p3 & r6 & -> & L3); [lia|].
  rewrite length_app in Hn.
  destruct (split_at r6 (b4 - a4)) as (g4 & p4 & -> & Lg4); [lia|].
  set (l := p0 ++ g1 ++ p1 ++ g2 ++ p2 ++ g3 ++ p3 ++ g4 ++ p4).
  assert (E0 : slice 0 a1 l = p0).
  { apply (slice_middle [] p0); cbn [length]; lia. }
  assert (E1 : slice b1 a2 l = p1).
  { subst l. replace (p0 ++ g1 ++ p1 ++ g2 ++ p2 ++ g3 ++ p3 ++ g4 ++ p4)
      with ((p0 ++ g1) ++ p1 ++ g2 ++ p2 ++ g3 ++ p3 ++ g4 ++ p4)
      by (rewrite <- !app_assoc; reflexivity).
    apply slice_middle; rewrite ?length_app; lia. }
  assert (E2 : slice b2 a3 l = p2).
  { subst l. replace (p0 ++ g1 ++ p1 ++ g2 ++ p2 ++ g3 ++ p3 ++ g4 ++ p4)
      with ((p0 ++ g1 ++ p1 ++ g2) ++ p2 ++ g3 ++ p3 ++ g4 ++ p4)
      by (rewrite <- !app_assoc; reflexivity).
    apply slice_middle; rewrite ?length_app; lia. }
  assert (E3 : slice b3 a4 l = p3).
  { subst l. replace (p0 ++ g1 ++ p1 ++ g2 ++ p2 ++ g3 ++ p3 ++ g4 ++ p4)
      with ((p0 ++ g1 ++ p1 ++ g2 ++ p2 ++ g3) ++ p3 ++ g4 ++ p4)
      by (rewrite <- !app_assoc; reflexivity).
    apply slice_middle; rewrite ?length_app; lia. }
  assert (E4 : drop (Z.to_nat b4) l = p4).
  { subst l. replace (p0 ++ g1 ++ p1 ++ g2 ++ p2 ++ g3 ++ p3 ++ g4 ++ p4)
      with ((p0 ++ g1 ++ p1 ++ g2 ++ p2 ++ g3 ++ p3 ++ g4) ++ p4)
      by (rewrite <- !app_assoc; reflexivity).
    replace (Z.to_nat b4) with (length (p0 ++ g1 ++ p1 ++ g2 ++ p2 ++ g3 ++ p3 ++ g4))
      by (rewrite !length_app; lia).
    apply drop_app_length. }
  rewrite E0, E1, E2, E3, E4. subst l.
  unfold np.compress. rewrite !compress_from_app.
  rewrite (compress_from_all _ _ p0), (compress_from_none _ _ g1),
    (compress_from_all _ _ p1), (compress_from_none _ _ g2),
    (compress_from_all _ _ p2), (compress_from_none _ _ g3),
    (compress_from_all _ _ p3), (compress_from_none _ _ g4),
    (compress_from_all _ _ p4); [done|..];
    intros j Hj; gap_bool.
Qed.

(** X4.  For release 14 and a spectrum of 8575 pixels or more, [gap_delete]
    returns [spec[246:3274] + spec[3585:6080] + spec[6344:8335] + spec[8575:]]:
    the pixels beyond 8575 are kept. *)
Theorem gap_delete_14_slices {A} (spec : list A) :
  nominal_length <= Z.of_nat (length spec) ->
  gap_delete spec (Some 14)
  = Ok (slice 246 3274 spec ++ slice 3585 6080 spec ++ slice 6344 8335 spec
        ++ drop (Z.to_nat 8575) spec).
Proof.
  intros Hn. unfold nominal_length in Hn.
  destruct (gap_delete_spec 14 spec (or_intror eq_refl) (gaps_fit_14 _ Hn)) as [-> _].
  f_equal. unfold gap_free. cbv zeta.
  change (gaps 14 (Z.of_nat (length spec)))
    with [(0, 246); (3274, 3585); (6080, 6344); (8335, 8575)].
  rewrite compress_four_ranges_slices by lia.
  unfold slice at 1. by rewrite take_0.
Qed.

Lemma gap_delete_14_slices_witness :
  gap_delete (np.arange 0 8580) (Some 14)
  = Ok (slice 246 3274 (np.arange 0 8580) ++ slice 3585 6080 (np.arange 0 8580)
        ++ slice 6344 8335 (np.arange 0 8580) ++ drop (Z.to_nat 8575) (np.arange 0 8580)).
Proof.
  apply (gap_delete_14_slices (np.arange 0 8580)).
  rewrite length_arange. unfold nominal_length. lia.
Defined.

(** X5.  For release 13 and a spectrum of 8306 pixels or more, [gap_delete]
    returns [spec[322:3243] + spec[3648:6049] + spec[6412:8306]]: everything
    from pixel 8306 on is dropped, so the output has 7216 pixels whatever
    the length of the input. *)
Theorem gap_delete_13_slices {A} (spec : list A) :
  8306 <= Z.of_nat (length spec) ->
  gap_delete spec (Some 13)
  = Ok (slice 322 3243 spec ++ slice 3648 6049 spec ++ slice 6412 8306 spec)
  /\ Z.of_nat (length (slice 322 3243 spec ++ slice 3648 6049 spec
                       ++ slice 6412 8306 spec)) = 7216.
Proof.
  intros Hn.
  assert (Hfit : gaps_fit 13 (Z.of_nat (length spec)) = true).
  { unfold gaps_fit.
    change (gaps 13 (Z.of_nat (length spec)))
      with [(0, 322); (3243, 3648); (6049, 6412); (8306, Z.of_nat (length spec))].
    cbn [forallb fst snd]. rewrite !andb_true_iff, !Z.leb_le. lia. }
  destruct (gap_delete_spec 13 spec (or_introl eq_refl) Hfit) as [E L].
  assert (Es : gap_free 13 spec
               = slice 322 3243 spec ++ slice 3648 6049 spec ++ slice 6412 8306 spec).
  { unfold gap_free. cbv zeta.
    change (gaps 13 (Z.of_nat (length spec)))
      with [(0, 322); (3243, 3648); (6049, 6412); (8306, Z.of_nat (length spec))].
    rewrite compress_four_ranges_slices by lia.
    unfold slice at 1. rewrite take_0. cbn [app].
    rewrite drop_ge by lia. by rewrite !app_nil_r. }
  rewrite <- Es. split; [exact E|]. rewrite L.
  change (gaps 13 (Z.of_nat (length spec)))
    with [(0, 322); (3243, 3648); (6049, 6412); (8306, Z.of_nat (length spec))].
  unfold gap_width. cbn [fold_right fst snd]. lia.
Qed.

Lemma gap_delete_13_slices_witness :
  gap_delete (np.arange 0 8580) (Some 13)
  = Ok (slice 322 3243 (np.arange 0 8580) ++ slice 3648 6049 (np.arange 0 8580)
        ++ slice 6412 8306 (np.arange 0 8580))
  /\ Z.of_nat (length (slice 322 3243 (np.arange 0 8580)
                       ++ slice 3648 6049 (np.arange 0 8580)
                       ++ slice 6412 8306 (np.arange 0 8580))) = 7216.
Proof.
  apply (gap_delete_13_slices (np.arange 0 8580)).
  rewrite length_arange. lia.
Defined.

Lemma valid_indices_arange_false (n a b : Z) :
  a < b -> n < b -> np.valid_indices n (np.arange a b) = false.
Proof.
  intros Hab Hn. apply not_true_is_false. unfold np.valid_indices.
  rewrite forallb_forall. intros H.
  specialize (H (b - 1)). rewrite andb_true_iff, Z.leb_le, Z.ltb_lt in H.
  destruct H; [|lia]. apply list_elem_of_In, elem_of_arange. lia.
Qed.

Lemma delete_arange_short {A} (arr : list A) (a b : Z) :
  a < b -> Z.of_nat (length arr) < b ->
  np.delete arr (np.arange a b) = Err IndexError.
Proof.
  intros Hab Hn. unfold np.delete. by rewrite valid_indices_arange_false.
Qed.

(** X6.  A spectrum too short for the layout makes [gap_delete] raise
    [IndexError] (with the index check of [np.delete], numpy 1.19 and later):
    fewer than 8575 pixels for release 14, fewer than 6412 for release 13
    (whose last range ends at the length of the spectrum and is empty below
    8306 pixels). *)
Theorem gap_delete_short_spectrum {A} (spec : list A) (dr : Z) :
  (dr = 14 /\ Z.of_nat (length spec) < nominal_length)
  \/ (dr = 13 /\ Z.of_nat (length spec) < 6412) ->
  gap_delete spec (Some dr) = Err IndexError.
Proof.
  intros [[-> Hn]|[-> Hn]].
  - unfold nominal_length in Hn. rewrite gap_delete_14.
    by rewrite (delete_arange_short spec) by lia.
  - rewrite gap_delete_13.
    assert (E4 : np.delete spec (np.arange 8306 (Z.of_nat (length spec))) = Ok spec).
    { unfold np.delete, np.arange.
      replace (Z.to_nat (Z.of_nat (length spec) - 8306)) with 0%nat by lia.
      cbn. unfold np.compress. by rewrite compress_from_all. }
    rewrite E4, bind_Ok. by rewrite (delete_arange_short spec) by lia.
Qed.

Lemma gap_delete_short_spectrum_witness :
  gap_delete [FNum 1; FNum 2] (Some 13) = Err IndexError.
Proof.
  apply (gap_delete_short_spectrum [FNum 1; FNum 2] 13).
  right. cbn. lia.
Defined.

(** ** compile_apogee: what a table holds *)

Lemma zip_with_snoc_columns {A B} (F : A -> list B) (h : A -> B) (l : list A) :
  zip_with (fun col nk => col ++ [h nk]) (map F l) l = map (fun nk => F nk ++ [h nk]) l.
Proof. induction l as [|x l IH]; cbn; [done|]. by rewrite IH. Qed.

Lemma columns_from_snoc (rows : list (allstar_row * aspcap_file))
    (r : allstar_row) (f : aspcap_file) :
  {| col_spec := col_spec (columns_from rows) ++ [gap_free 14 (hdu1_data f)];
     col_spec_bestfit := col_spec_bestfit (columns_from rows) ++ [gap_free 14 (hdu3_data f)];
     col_SNR := col_SNR (columns_from rows) ++ [SNR r];
     col_RA := col_RA (columns_from rows) ++ [RA r];
     col_DEC := col_DEC (columns_from rows) ++ [DEC r];
     col_teff := col_teff (columns_from rows) ++ [entry (PARAM r) 0];
     col_logg := col_logg (columns_from rows) ++ [entry (PARAM r) 1];
     col_MH := col_MH (columns_from rows) ++ [entry (PARAM r) 3];
     col_alpha_M := col_alpha_M (columns_from rows) ++ [entry (PARAM r) 6];
     col_X_H :=
       zip_with (fun col nk => col ++ [entry (X_H r) (snd nk)])
                (col_X_H (columns_from rows)) X_H_columns |}
  = columns_from (rows ++ [(r, f)]).
Proof.
  unfold columns_from. cbn [col_spec col_spec_bestfit col_SNR col_RA col_DEC col_teff
    col_logg col_MH col_alpha_M col_X_H].
  rewrite !map_app. cbn [map fst snd].
  rewrite (zip_with_snoc_columns
             (fun nk => map (fun p => entry (X_H (fst p)) (snd nk)) rows)
             (fun nk => entry (X_H r) (snd nk))).
  f_equal. apply map_ext. intros nk. by rewrite map_app.
Qed.

Section Table.

Variable combined_spectra : Z -> Z -> string -> option Z * string.
Variable fits_open : string -> aspcap_file.
Variable dr : Z.
Variable cat : list allstar_row.

Lemma apogee_rows_from (filtered_index : list Z) (rows : list (allstar_row * aspcap_file)) :
  forallb (long_enough combined_spectra fits_open dr cat) filtered_index = true ->
  apogee_rows combined_spectra fits_open dr cat (columns_from rows) filtered_index
  = Ok (columns_from
          (rows ++ fetched_rows combined_spectra fits_open dr cat filtered_index)).
Proof.
  revert rows. induction filtered_index as [|index rest IH]; intros rows.
  - intros _. cbn. by rewrite app_nil_r.
  - cbn [forallb]. intros [Hi Hrest]%andb_true_iff.
    cbn [apogee_rows fetched_rows omap list_omap].
    unfold long_enough, fetched in Hi. unfold apogee_row, fetched.
    destruct (row_at cat index) as [r|]; [|discriminate Hi].
    cbn [mbind result_bind].
    destruct (combined_spectra dr (LOCATION_ID r) (APOGEE_ID r)) as [[w|] path];
      cbv iota beta.
    + cbn [fmap option_fmap option_map mbind result_bind]. apply IH, Hrest.
    + apply andb_true_iff in Hi as [H1%Z.leb_le H3%Z.leb_le].
      destruct (gap_delete_14_long _ H1) as [-> _].
      destruct (gap_delete_14_long _ H3) as [-> _].
      cbn [mbind result_bind fmap option_fmap option_map].
      rewrite columns_from_snoc, (IH _ Hrest). by rewrite <- app_assoc.
Qed.

Lemma apogee_rows_fetched (filtered_index : list Z) :
  forallb (long_enough combined_spectra fits_open dr cat) filtered_index = true ->
  apogee_rows combined_spectra fits_open dr cat empty_columns filtered_index
  = Ok (columns_from (fetched_rows combined_spectra fits_open dr cat filtered_index)).
Proof. intros Hlong. apply (apogee_rows_from filtered_index []), Hlong. Qed.

Lemma fetched_rows_aligned (filtered_index : list Z) :
  Forall2 (fun index p =>
             row_of cat index (fst p)
             /\ fetched combined_spectra fits_open dr (fst p) = Some (snd p))
          (List.filter (fetch_ok combined_spectra fits_open dr cat) filtered_index)
          (fetched_rows combined_spectra fits_open dr cat filtered_index).
Proof.
  unfold fetched_rows.
  induction filtered_index as [|index rest IH]; cbn [List.filter omap list_omap];
    [constructor|].
  unfold fetch_ok, fetched_at, row_at.
  destruct (0 <=? index) eqn:H0; [|exact IH].
  destruct (cat !! Z.to_nat index) as [r|] eqn:Hr; [|exact IH].
  destruct (fetched combined_spectra fits_open dr r) as [f|] eqn:Hf;
    cbn [fmap option_fmap option_map]; [|exact IH].
  constructor; [|exact IH].
  cbn [fst snd]. split; [|done]. split; [by apply Z.leb_le|done].
Qed.

(** X7 (h5_compiler.py l.190-235): when every index is a row of the
    catalogue and every fetched spectrum has 8575 pixels or more, the loop of
    compile_apogee ends with all its lists read off one and the same sequence
    of records, the fetched ones in the order of the filtered index: row [k]
    of the spectra, of the best fits and of every label list comes from the
    [k]-th fetched record. *)
Theorem apogee_rows_aligned (filtered_index : list Z) :
  forallb (long_enough combined_spectra fits_open dr cat) filtered_index = true ->
  let rows := fetched_rows combined_spectra fits_open dr cat filtered_index in
  apogee_rows combined_spectra fits_open dr cat empty_columns filtered_index
  = Ok (columns_from rows)
  /\ Forall2 (fun index p =>
                row_of cat index (fst p)
                /\ fetched combined_spectra fits_open dr (fst p) = Some (snd p))
             (List.filter (fetch_ok combined_spectra fits_open dr cat) filtered_index)
             rows.
Proof.
  intros Hlong rows. split; [by apply apogee_rows_fetched|apply fetched_rows_aligned].
Qed.

Lemma length_fetched_rows (filtered_index : list Z) :
  forallb (long_enough combined_spectra fits_open dr cat) filtered_index = true ->
  length filtered_index
  = (length (fetched_rows combined_spectra fits_open dr cat filtered_index)
     + length (List.filter (fun index => negb (fetch_ok combined_spectra fits_open dr cat index))
                           filtered_index))%nat.
Proof.
  unfold fetched_rows, fetch_ok, fetched_at, long_enough.
  induction filtered_index as [|index rest IH]; [done|].
  cbn [forallb List.filter omap list_omap length]. intros [Hi Hrest]%andb_true_iff.
  specialize (IH Hrest).
  destruct (row_at cat index) as [r|]; [|discriminate Hi].
  destruct (fetched combined_spectra fits_open dr r) as [f|];
    cbn [fmap option_fmap option_map length negb]; lia.
Qed.

End Table.

(** ** compile_apogee: the files of a run *)

Lemma label_columns_rows (rows : list (allstar_row * aspcap_file)) (idx : list Z) :
  Forall (fun nd => fst nd <> "index" -> rows_of (snd nd) = length rows)
         (apogee_h5 (columns_from rows) idx).
Proof.
  unfold apogee_h5, columns_from, X_H_columns.
  cbn [app zip_with map col_spec col_spec_bestfit col_SNR col_RA col_DEC col_teff
       col_logg col_MH col_alpha_M col_X_H fst snd].
  repeat constructor; intros H; try (by destruct H); cbn [fst snd rows_of];
    by rewrite length_map.
Qed.

Section Files.

Variable allstar : Z -> result (list allstar_row).
Variable combined_spectra : Z -> Z -> string -> option Z * string.
Variable fits_open : string -> aspcap_file.

(** X8.  In the table that [compile_apogee] writes for a filtered index, the
    [index] dataset is the whole filtered index, while every other dataset
    has one row per fetched record: the [index] dataset is longer than the
    others by the number of fetches that raised a warning. *)
Theorem index_column_counts_failed_fetches (h5name part : string) (dr : Z)
    (cat : list allstar_row) (filtered_index : list Z) (written : disk) :
  forallb (long_enough combined_spectra fits_open dr cat) filtered_index = true ->
  let rows := fetched_rows combined_spectra fits_open dr cat filtered_index in
  let file := apogee_h5 (columns_from rows) filtered_index in
  apogee_tables combined_spectra fits_open h5name dr cat [(part, filtered_index)] written
  = (written ++ [(table_name h5name part, file)], Ok tt)
  /\ dataset_of "index" file = Some (Indices filtered_index)
  /\ Forall (fun nd => fst nd <> "index" -> rows_of (snd nd) = length rows) file
  /\ length filtered_index
     = (length rows
        + length (List.filter
                    (fun index => negb (fetch_ok combined_spectra fits_open dr cat index))
                    filtered_index))%nat.
Proof.
  intros Hlong rows file.
  pose proof (apogee_rows_fetched combined_spectra fits_open dr cat filtered_index Hlong)
    as E.
  split; [cbn [apogee_tables]; by rewrite E|].
  split; [reflexivity|]. split; [apply label_columns_rows|].
  by apply length_fetched_rows.
Qed.

(** X9.  When no fetch raises a warning, the table is aligned with its
    [index] dataset: row [k] of every list comes from the catalogue row
    whose index is entry [k] of [index]. *)
Theorem index_column_aligned_without_failures (dr : Z) (cat : list allstar_row)
    (filtered_index : list Z) :
  forallb (long_enough combined_spectra fits_open dr cat) filtered_index = true ->
  forallb (fetch_ok combined_spectra fits_open dr cat) filtered_index = true ->
  let rows := fetched_rows combined_spectra fits_open dr cat filtered_index in
  apogee_rows combined_spectra fits_open dr cat empty_columns filtered_index
  = Ok (columns_from rows)
  /\ dataset_of "index" (apogee_h5 (columns_from rows) filtered_index)
     = Some (Indices filtered_index)
  /\ Forall2 (fun index p =>
                row_of cat index (fst p)
                /\ fetched combined_spectra fits_open dr (fst p) = Some (snd p))
             filtered_index rows.
Proof.
  intros Hlong Hok rows.
  pose proof (apogee_rows_fetched combined_spectra fits_open dr cat filtered_index Hlong)
    as E.
  pose proof (fetched_rows_aligned combined_spectra fits_open dr cat filtered_index) as HF.
  split; [exact E|]. split; [reflexivity|].
  replace (List.filter (fetch_ok combined_spectra fits_open dr cat) filtered_index)
    with filtered_index in HF; [exact HF|].
  clear -Hok. induction filtered_index as [|i l IH]; [done|].
  cbn [forallb List.filter] in *. apply andb_true_iff in Hok as [-> Hl].
  by rewrite <- IH.
Qed.

(** X10.  Every label that [apogee_train] reads for [target=['all']] is a
    dataset of a table written by [compile_apogee], with as many rows as the
    table has spectra. *)
Theorem all_targets_are_datasets (rows : list (allstar_row * aspcap_file))
    (filtered_index : list Z) :
  let file := apogee_h5 (columns_from rows) filtered_index in
  dataset_of "spectra" file
  = Some (Spectra (map (fun p => gap_free 14 (hdu1_data (snd p))) rows))
  /\ Forall (fun tg => exists v, dataset_of tg file = Some (Values v)
                                 /\ length v = length rows)
            (expand_target ["all"]).
Proof.
  intros file. split; [reflexivity|].
  subst file. unfold apogee_h5, columns_from, X_H_columns.
  cbn [app zip_with map col_spec col_spec_bestfit col_SNR col_RA col_DEC col_teff
       col_logg col_MH col_alpha_M col_X_H fst snd].
  change (expand_target ["all"]) with
    [ "teff"; "logg"; "M"; "alpha"; "C"; "Cl"; "N"; "O"; "Na"; "Mg"; "Al"; "Si";
      "P"; "S"; "Ca"; "Ti"; "Ti2"; "V"; "Cr"; "Mn"; "Fe"; "Ni" ].
  repeat constructor; (eexists; split; [reflexivity|by rewrite length_map]).
Qed.


(** X12 (h5_compiler.py l.150-278): compile_apogee is not all-or-nothing:
    when the loop of the train table runs to its end and the loop of the test
    table raises an exception, the run ends with that exception, the train
    file stays on disk and no test file is created. *)
Theorem compile_apogee_keeps_train_file_on_error (h5name : string) (dr : option Z)
    (c : apogee_cuts) (cat : list allstar_row) (train test : list Z) (e : exn) :
  allstar (apogee_default_dr dr) = Ok cat ->
  filtered_train_index cat c = Ok train ->
  filtered_test_index cat c = Ok test ->
  forallb (long_enough combined_spectra fits_open (apogee_default_dr dr) cat) train
    = true ->
  apogee_rows combined_spectra fits_open (apogee_default_dr dr) cat empty_columns test
    = Err e ->
  compile_apogee allstar combined_spectra fits_open (Some h5name) dr c
  = ([(h5name +:+ "_train.h5",
       apogee_h5 (columns_from
                    (fetched_rows combined_spectra fits_open (apogee_default_dr dr) cat train))
                 train)],
     Err e).
Proof.
  intros Hcat Htr Hte H1 H2.
  unfold compile_apogee. cbn [h5name_check]. rewrite Hcat, Htr, Hte.
  cbn [apogee_tables].
  rewrite (apogee_rows_fetched combined_spectra fits_open _ cat train H1).
  by rewrite H2.
Qed.

End Files.

Lemma elem_of_not9999 (temp : list fval) (k : Z) :
  k ∈ not9999 temp <->
  0 <= k /\ exists x, temp !! Z.to_nat k = Some x /\ f_ne x (-9999) = true.
Proof.
  unfold not9999. rewrite elem_of_where.
  change (map (fun x => f_ne x (-9999)) temp) with ((fun x => f_ne x (-9999)) <$> temp).
  rewrite list_lookup_fmap. split.
  - intros [H0 H]. split; [done|].
    destruct (temp !! Z.to_nat k) as [x|]; [|done]. exists x. cbn in H. split; congruence.
  - intros [H0 (x & -> & Hx)]. cbn. by rewrite Hx.
Qed.

Lemma fold_intersect_not9999 (rest : list (list fval)) (acc : list Z) :
  row_ordered acc ->
  row_ordered (fold_left (fun index_not9999 temp => np.intersect1d index_not9999 (not9999 temp))
                 rest acc)
  /\ forall k, k ∈ fold_left (fun index_not9999 temp =>
                                np.intersect1d index_not9999 (not9999 temp)) rest acc
               <-> k ∈ acc /\ Forall (fun temp => k ∈ not9999 temp) rest.
Proof.
  revert acc. induction rest as [|temp rest IH]; intros acc Hacc; cbn [fold_left].
  - split; [done|]. intros k. rewrite Forall_nil. tauto.
  - destruct (intersect1d_spec acc (not9999 temp)) as [Hs He].
    destruct (IH _ Hs) as [Hs' He']. split; [done|].
    intros k. rewrite He', He, Forall_cons. tauto.
Qed.

Lemma index_not9999_spec (labels : list (list fval)) :
  row_ordered (index_not9999 labels)
  /\ (forall k, k ∈ index_not9999 labels <->
        labels <> [] /\ 0 <= k
        /\ Forall (fun temp => exists x, temp !! Z.to_nat k = Some x
                                         /\ f_ne x (-9999) = true) labels).
Proof.
  destruct labels as [|temp rest]; cbn [index_not9999].
  - split; [constructor|]. intros k. split; [by intros ?%elem_of_nil|by intros [? _]].
  - destruct (fold_intersect_not9999 rest (not9999 temp)) as [Hs He].
    { apply where_from_row_ordered. }
    split; [done|]. intros k. rewrite He, Forall_cons, elem_of_not9999.
    split.
    + intros [[H0 Hx] Hrest]. split; [done|]. split; [done|]. split; [done|].
      eapply Forall_impl; [exact Hrest|]. intros t Ht. by apply elem_of_not9999 in Ht as [_ ?].
    + intros (_ & H0 & Hx & Hrest). split; [done|].
      eapply Forall_impl; [exact Hrest|]. intros t Ht. by apply elem_of_not9999.
Qed.

(** X13 (train.py l.168-178, test.py l.103-113 and l.176-184): the rows kept
    for training and evaluation are exactly the rows in which no target label
    is the missing-value mark -9999, listed once each in row order; a NaN
    label is not the mark and is kept, and with no target no row is kept. *)
Theorem index_not9999_complete_rows (labels : list (list fval)) :
  row_ordered (index_not9999 labels)
  /\ (forall k, k ∈ index_not9999 labels <->
        labels <> [] /\ 0 <= k
        /\ Forall (fun temp => exists x, temp !! Z.to_nat k = Some x
                                         /\ f_ne x (-9999) = true) labels)
  /\ (forall k x temp, k ∈ index_not9999 labels -> temp ∈ labels ->
        temp !! Z.to_nat k = Some x -> x <> FNum (-9999)).
Proof.
  destruct (index_not9999_spec labels) as [Hs He]. split; [done|]. split; [done|].
  intros k x temp Hk Ht Hx. apply He in Hk as (_ & _ & Hall).
  rewrite Forall_forall in Hall. destruct (Hall _ Ht) as (y & Hy & Hne).
  rewrite Hx in Hy. injection Hy as <-. intros ->. cbn in Hne. discriminate Hne.
Qed.

(** ** batch_predictions *)

Section BatchProofs.

Variable predict : list (list fval) -> list (list fval).

Lemma length_denormalize (rows : list (list fval)) (s m : list fval) :
  length (denormalize rows s m) = length rows.
Proof. unfold denormalize. apply length_map. Qed.

Lemma set_rows_block (done_rows rows zeros : list (list fval)) (a b : nat) :
  length done_rows = a -> (a <= b)%nat -> (b <= a + length zeros)%nat ->
  length rows = (b - a)%nat ->
  set_rows (done_rows ++ zeros) a b rows = Ok (done_rows ++ rows ++ drop (b - a) zeros).
Proof.
  intros Ha Hab Hb Hrows. unfold set_rows. rewrite length_app.
  replace (Nat.min a (length done_rows + length zeros)) with a by lia.
  replace (Nat.max a (Nat.min b (length done_rows + length zeros))) with b by lia.
  rewrite Hrows, Nat.eqb_refl. f_equal.
  rewrite take_app_length' by done. f_equal. f_equal.
  rewrite drop_app_ge by lia. f_equal. lia.
Qed.

Lemma set_rows_outside (predictions rows : list (list fval)) (a : nat) :
  (length predictions <= a)%nat -> length rows = 0%nat ->
  set_rows predictions a (length predictions) rows = Ok predictions.
Proof.
  intros Ha Hrows. unfold set_rows.
  replace (Nat.min a (length predictions)) with (length predictions) by lia.
  replace (Nat.max _ _) with (length predictions) by lia.
  rewrite Hrows, Nat.sub_diag. cbn [Nat.eqb].
  destruct rows; [|done]. by rewrite firstn_all, drop_all, app_nil_r.
Qed.

Lemma batch_loop_rows (p : list fval -> list fval) (spectra : list (list fval))
    (b : nat) (s m : list fval) (zero : list fval) (count j i : nat) :
  (forall xs, predict xs = map p xs) ->
  (0 < b)%nat -> ((j + count) * b <= length spectra)%nat ->
  batch_loop predict spectra b s m (seq j count) i
    (map (fun x => zip_with f_add (zip_with f_mul (p x) s) m) (take (j * b) spectra)
     ++ replicate (length spectra - j * b) zero)
  = Ok (match count with O => i | S _ => (j + count - 1)%nat end,
        map (fun x => zip_with f_add (zip_with f_mul (p x) s) m)
          (take ((j + count) * b) spectra)
        ++ replicate (length spectra - (j + count) * b) zero).
Proof.
  intros Hp Hb. set (g := fun x => zip_with f_add (zip_with f_mul (p x) s) m).
  revert j i. induction count as [|count IH]; intros j i Hle.
  - cbn [seq batch_loop]. by rewrite Nat.add_0_r.
  - cbn [seq batch_loop]. rewrite Hp.
    assert (Hlen : length (take b (drop (j * b) spectra)) = b).
    { rewrite length_take, length_drop. lia. }
    rewrite set_rows_block.
    + cbn [mbind result_bind].
      assert (Hstep : map g (take (j * b) spectra)
                      ++ denormalize (map p (take b (drop (j * b) spectra))) s m
                      ++ drop ((j + 1) * b - j * b)
                           (replicate (length spectra - j * b) zero)
                      = map g (take ((S j) * b) spectra)
                        ++ replicate (length spectra - (S j) * b) zero).
      { rewrite app_assoc. f_equal.
        - unfold denormalize. rewrite map_map. fold g. rewrite <- map_app. f_equal.
          replace (S j * b)%nat with (j * b + b)%nat by lia.
          by rewrite take_take_drop.
        - rewrite drop_replicate. f_equal. lia. }
      rewrite Hstep. rewrite (IH (S j) j) by lia.
      f_equal. f_equal.
      * destruct count; lia.
      * f_equal; [f_equal; f_equal; lia|f_equal; lia].
    + rewrite length_map, length_take. lia.
    + lia.
    + rewrite length_replicate. lia.
    + rewrite length_denormalize, length_map, Hlen. lia.
Qed.

End BatchProofs.

(** X14 (test.py l.23-31): when the model predicts row by row and there are
    at least [batch_size] spectra, every spectrum gets the denormalised
    prediction of its own row, in order, whether or not the number of spectra
    is a multiple of the batch size. *)
Theorem batch_predictions_covers_every_spectrum
    (predict : list (list fval) -> list (list fval)) (p : list fval -> list fval)
    (spectra : list (list fval)) (batch_size : positive) (num_labels : nat)
    (std_labels mean_labels : list fval) :
  (forall xs, predict xs = map p xs) ->
  (Pos.to_nat batch_size <= length spectra)%nat ->
  batch_predictions predict spectra batch_size num_labels std_labels mean_labels
  = Ok (map (fun x => zip_with f_add (zip_with f_mul (p x) std_labels) mean_labels)
          spectra).
Proof.
  intros Hp Hn. unfold batch_predictions.
  set (b := Pos.to_nat batch_size) in *.
  set (g := fun x => zip_with f_add (zip_with f_mul (p x) std_labels) mean_labels).
  set (zero := replicate num_labels (FNum 0)).
  assert (Hb : (0 < b)%nat) by (subst b; lia).
  pose proof (Nat.Div0.mul_div_le (length spectra) b) as Hle.
  pose proof (Nat.div_str_pos (length spectra) b ltac:(lia)) as Hpos.
  set (count := (length spectra / b)%nat) in *.
  pose proof (batch_loop_rows predict p spectra b std_labels mean_labels zero count 0 0
                Hp Hb ltac:(lia)) as Hloop.
  change (0 * b)%nat with 0%nat in Hloop. change (0 + count)%nat with count in Hloop.
  rewrite take_0, Nat.sub_0_r in Hloop. cbn [map app] in Hloop.
  fold g in Hloop. rewrite Hloop. cbn [mbind result_bind].
  destruct count as [|c] eqn:Ec; [lia|].
  replace (S c - 1 + 1)%nat with (S c) by lia.
  rewrite Hp. rewrite length_app, length_map, length_take, length_replicate.
  replace (Nat.min (S c * b) (length spectra) + (length spectra - S c * b))%nat
    with (S c * b + (length spectra - S c * b))%nat by lia.
  rewrite set_rows_block.
  - f_equal. rewrite drop_replicate.
    replace (length spectra - S c * b - (S c * b + (length spectra - S c * b) - S c * b))%nat
      with 0%nat by lia.
    cbn [replicate]. rewrite app_nil_r.
    unfold denormalize. rewrite map_map. fold g. rewrite <- map_app.
    by rewrite take_drop.
  - rewrite length_map, length_take. lia.
  - lia.
  - rewrite length_replicate. lia.
  - rewrite length_denormalize, length_map, length_drop. lia.
Qed.

Lemma batch_predictions_covers_every_spectrum_witness :
  batch_predictions (map (fun x => x)) [[FNum 1]; [FNum 2]; [FNum 3]] 2 1
    [FNum 2] [FNum 1]
  = Ok (map (fun x => zip_with f_add (zip_with f_mul ((fun x => x) x) [FNum 2]) [FNum 1])
          [[FNum 1]; [FNum 2]; [FNum 3]]).
Proof.
  apply (batch_predictions_covers_every_spectrum (map (fun x => x)) (fun x => x)).
  - intros xs. reflexivity.
  - vm_compute. lia.
Defined.

(** X15 (test.py l.23-31): with fewer spectra than [batch_size] the loop
    body never runs, [i] keeps its initial 0 and the remainder starts at
    [batch_size], past the end: no spectrum reaches the model and every
    prediction is the initial zero, whatever the model is. *)
Theorem batch_predictions_short_input_all_zero
    (predict : list (list fval) -> list (list fval))
    (spectra : list (list fval)) (batch_size : positive) (num_labels : nat)
    (std_labels mean_labels : list fval) :
  predict [] = [] ->
  (length spectra < Pos.to_nat batch_size)%nat ->
  batch_predictions predict spectra batch_size num_labels std_labels mean_labels
  = Ok (replicate (length spectra) (replicate num_labels (FNum 0))).
Proof.
  intros Hp Hn. unfold batch_predictions.
  rewrite Nat.div_small by done. cbn [seq batch_loop mbind result_bind].
  rewrite drop_ge by lia. rewrite Hp.
  apply set_rows_outside; [rewrite length_replicate; lia|done].
Qed.

Lemma batch_predictions_short_input_all_zero_witness :
  batch_predictions (map (fun x => x)) [[FNum 1]; [FNum 2]; [FNum 3]] 500 2
    [FNum 2; FNum 2] [FNum 1; FNum 1]
  = Ok (replicate (length [[FNum 1]; [FNum 2]; [FNum 3]]) (replicate 2 (FNum 0))).
Proof.
  apply batch_predictions_short_input_all_zero.
  - reflexivity.
  - vm_compute. lia.
Defined.

(** ** The names of the targets *)

Lemma length_append (s1 s2 : string) :
  String.length (s1 +:+ s2) = (String.length s1 + String.length s2)%nat.
Proof. induction s1 as [|c s1 IH]; simpl; [done|by rewrite IH]. Qed.

Lemma eqb_append_suffix_short (s suffix t : string) :
  (String.length s + String.length suffix <> String.length t)%nat ->
  String.eqb (s +:+ suffix) t = false.
Proof.
  intros Hlen. apply String.eqb_neq. intros E.
  apply (f_equal String.length) in E. rewrite length_append in E. lia.
Qed.

(** X16 (test.py l.38-49): the plot label of a target is a fixed point of
    the conversion (converting twice changes nothing), and a name of fewer
    than three characters is always wrapped as [name/H]. *)
Theorem target_name_conversion_idempotent (targetname : string) :
  target_name_conversion (target_name_conversion targetname)
  = target_name_conversion targetname
  /\ ((String.length targetname < 3)%nat ->
      target_name_conversion targetname = "[" +:+ targetname +:+ "/H]").
Proof.
  split.
  - remember (target_name_conversion targetname) as r eqn:Hr.
    unfold target_name_conversion in Hr.
    destruct (String.length targetname <? 3)%nat eqn:Hlen.
    + subst r. unfold target_name_conversion.
      assert ((String.length ("[" +:+ targetname +:+ "/H]") <? 3)%nat = false) as ->.
      { apply Nat.ltb_ge. rewrite !length_append. simpl. lia. }
      reflexivity.
    + destruct (String.eqb targetname "teff") eqn:E1; [by subst r|].
      destruct (String.eqb targetname "alpha") eqn:E2; [by subst r|].
      destruct (String.eqb targetname "logg") eqn:E3; [by subst r|].
      subst r. unfold target_name_conversion. by rewrite Hlen, E1, E2, E3.
  - intros Hlen%Nat.ltb_lt. unfold target_name_conversion. by rewrite Hlen.
Qed.

Lemma target_name_conversion_idempotent_witness :
  target_name_conversion (target_name_conversion "Fe") = target_name_conversion "Fe"
  /\ target_name_conversion "Fe" = "[" +:+ "Fe" +:+ "/H]".
Proof.
  destruct (target_name_conversion_idempotent "Fe") as [H1 H2].
  split; [exact H1|]. apply H2. vm_compute. lia.
Defined.

(** X17 (test.py l.52-59): the ASPCAP column name of a non-empty target is a
    fixed point of the conversion; the empty name is not ("" gives "_H",
    which gives "_H_H"); 'alpha' gets the suffix _M, every other name of one
    or two characters the suffix _H, and longer names are unchanged. *)
Theorem target_to_aspcap_conversion_idempotent (targetname : string) :
  (target_to_aspcap_conversion (target_to_aspcap_conversion targetname)
   = target_to_aspcap_conversion targetname <-> targetname <> "")
  /\ (targetname <> "alpha" -> (3 <= String.length targetname)%nat ->
      target_to_aspcap_conversion targetname = targetname).
Proof.
  split.
  - split.
    + intros H ->. vm_compute in H. discriminate H.
    + intros Hne. remember (target_to_aspcap_conversion targetname) as r eqn:Hr.
      unfold target_to_aspcap_conversion in Hr.
      destruct (String.eqb targetname "alpha") eqn:E1.
      { apply String.eqb_eq in E1. by subst. }
      destruct (String.length targetname <? 3)%nat eqn:Hlen.
      * subst r. unfold target_to_aspcap_conversion.
        assert ((String.length (targetname +:+ "_H") <? 3)%nat = false) as ->.
        { apply Nat.ltb_ge. rewrite length_append. simpl.
          destruct targetname; [done|simpl; lia]. }
        assert (String.eqb (targetname +:+ "_H") "alpha" = false) as ->.
        { apply eqb_append_suffix_short. apply Nat.ltb_lt in Hlen. simpl. lia. }
        reflexivity.
      * subst r. unfold target_to_aspcap_conversion. by rewrite E1, Hlen.
  - intros Hne%String.eqb_neq Hlen%Nat.ltb_ge.
    unfold target_to_aspcap_conversion. by rewrite Hne, Hlen.
Qed.

(** ** compile_gaia: the two deletions *)

Lemma memZ_false (i : Z) (l : list Z) : (forall x, x ∈ l -> x <> i) -> np.memZ i l = false.
Proof.
  intros H. unfold np.memZ. apply not_true_is_false. intros (x & Hx & E)%existsb_exists.
  apply Z.eqb_eq in E. apply (H x); [by apply list_elem_of_In|done].
Qed.

Lemma compress_where_from {A B} (P : A -> bool) (f : A -> B) (rows : list A) (i : Z) :
  np.compress_from i (fun j => negb (np.memZ j (np.where_from i (map P rows)))) (map f rows)
  = map f (List.filter (fun r => negb (P r)) rows).
Proof.
  revert i. induction rows as [|r rows IH]; intros i; [done|].
  cbn [map np.where_from np.compress_from List.filter].
  assert (Htail : np.memZ i (np.where_from (i + 1) (map P rows)) = false).
  { apply memZ_false. intros x (k & -> & _)%elem_of_where_from. lia. }
  destruct (P r); cbn [negb].
  - assert (np.memZ i (i :: np.where_from (i + 1) (map P rows)) = true) as ->.
    { unfold np.memZ. cbn [existsb]. by rewrite Z.eqb_refl. }
    cbn [negb]. rewrite <- (IH (i + 1)). apply compress_from_ext.
    intros j Hj. unfold np.memZ. cbn [existsb].
    destruct (Z.eqb_spec j i); [lia|done].
  - rewrite Htail. cbn [negb map]. f_equal. apply IH.
Qed.

Lemma delete_where_rows {A B} (P : A -> bool) (f : A -> B) (rows : list A) :
  np.delete (map f rows) (np.where_ (map P rows))
  = Ok (map f (List.filter (fun r => negb (P r)) rows)).
Proof.
  unfold np.delete. rewrite where_valid by (rewrite !length_map; lia).
  f_equal. unfold np.compress.
  rewrite <- (compress_where_from P f rows 0). apply compress_from_ext.
  intros j _. f_equal. f_equal. unfold np.where_.
  rewrite <- (map_id (np.where_from 0 (map P rows))) at 2.
  apply map_ext_in. intros x Hx%list_elem_of_In.
  apply elem_of_where_from in Hx as (k & -> & _).
  unfold np.wrap_index. destruct (Z.ltb_spec (0 + Z.of_nat k) 0); [lia|done].
Qed.

Lemma gaia_concat_rows (rows : list tgas_row) :
  gaia_concat [rows]
  = {| ra_gaia := map tgas_RA rows;
       dec_gaia := map tgas_DEC rows;
       pmra_gaia := map tgas_PMRA rows;
       pmdec_gaia := map tgas_PMDEC rows;
       parallax_gaia := map tgas_parallax rows;
       parallax_error_gaia := map tgas_parallax_error rows |}.
Proof. unfold gaia_concat. cbn [concat]. by rewrite app_nil_r. Qed.

Lemma gaia_delete_rows (P : tgas_row -> bool) (rows : list tgas_row) :
  gaia_delete (gaia_concat [rows]) (np.where_ (map P rows))
  = Ok (gaia_concat [List.filter (fun r => negb (P r)) rows]).
Proof.
  rewrite !gaia_concat_rows. unfold gaia_delete.
  cbn [ra_gaia dec_gaia pmra_gaia pmdec_gaia parallax_gaia parallax_error_gaia].
  rewrite !delete_where_rows. reflexivity.
Qed.

Lemma parallax_percent_rows (rows : list tgas_row) :
  parallax_percent (gaia_concat [rows]) = map tgas_percent rows.
Proof.
  rewrite gaia_concat_rows. unfold parallax_percent.
  cbn [parallax_gaia parallax_error_gaia].
  induction rows as [|r rows IH]; [done|]. cbn [map zip_with]. by rewrite IH.
Qed.

Lemma filter_filter_andb {A} (P Q : A -> bool) (l : list A) :
  List.filter Q (List.filter P l) = List.filter (fun x => P x && Q x) l.
Proof.
  induction l as [|x l IH]; [done|]. cbn [List.filter].
  destruct (P x); cbn [andb List.filter]; [destruct (Q x)|]; by rewrite IH.
Qed.

Lemma gaia_clean_rows (tables : list (list tgas_row)) :
  gaia_clean (gaia_concat tables)
  = Ok (gaia_concat [List.filter tgas_kept (concat tables)]).
Proof.
  assert (gaia_concat tables = gaia_concat [concat tables]) as ->.
  { by rewrite gaia_concat_rows. }
  set (rows := concat tables). unfold gaia_clean.
  assert (parallax_gaia (gaia_concat [rows]) = map tgas_parallax rows) as ->.
  { by rewrite gaia_concat_rows. }
  rewrite map_map. rewrite (gaia_delete_rows (fun r => f_le (tgas_parallax r) 0)).
  cbn [mbind result_bind]. rewrite parallax_percent_rows, map_map.
  rewrite (gaia_delete_rows (fun r => f_gt (tgas_percent r) (2 # 10))).
  by rewrite filter_filter_andb.
Qed.

(** X18 (h5_compiler.py l.550-566): the two rounds of [np.delete] never
    fail and amount to one filter on the TGAS rows: a row is kept exactly when
    its parallax is not [<= 0] and its relative parallax error is not [> 0.2]
    (so a row with a NaN parallax is kept); the six columns stay aligned, all
    being read off the same kept rows in their original order. *)
Theorem gaia_clean_is_row_filter (tables : list (list tgas_row)) :
  let kept := List.filter tgas_kept (concat tables) in
  gaia_clean (gaia_concat tables)
  = Ok {| ra_gaia := map tgas_RA kept;
          dec_gaia := map tgas_DEC kept;
          pmra_gaia := map tgas_PMRA kept;
          pmdec_gaia := map tgas_PMDEC kept;
          parallax_gaia := map tgas_parallax kept;
          parallax_error_gaia := map tgas_parallax_error kept |}
  /\ parallax_percent (gaia_concat [kept]) = map tgas_percent kept
  /\ (forall r, r ∈ kept <-> r ∈ concat tables /\ tgas_kept r = true)
  /\ (forall r, r ∈ concat tables -> tgas_parallax r = FNaN -> r ∈ kept).
Proof.
  intros kept. rewrite gaia_clean_rows, gaia_concat_rows. split; [done|].
  split; [apply parallax_percent_rows|].
  assert (Hin : forall r, r ∈ kept <-> r ∈ concat tables /\ tgas_kept r = true).
  { intros r. subst kept. rewrite !list_elem_of_In. apply filter_In. }
  split; [exact Hin|].
  intros r Hr Hnan. apply Hin. split; [done|].
  unfold tgas_kept, tgas_percent. rewrite Hnan.
  by destruct (tgas_parallax_error r).
Qed.

Lemma take_elem_of {A} (arr : list A) (obj : list Z) (out : list A) :
  np.take arr obj = Ok out -> Forall (fun x => x ∈ arr) out.
Proof.
  revert out. induction obj as [|i obj IH]; intros out; cbn [np.take].
  - intros [= <-]. constructor.
  - destruct (_ && _); [|discriminate].
    destruct (arr !! _) as [x|] eqn:Hx; [|discriminate].
    destruct (np.take arr obj) as [xs|e]; cbn [mbind result_bind]; [|discriminate].
    intros [= <-]. constructor; [by eapply list_elem_of_lookup_2|by apply IH].
Qed.

(** X19 (h5_compiler.py l.559-566 and l.580-588): the second deletion leaves
    no relative parallax error above 0.2, so every pair of the train table,
    selected by [>= 0.1], has a finite relative error between 0.1 and 0.2.
    The train table holds the less precise parallaxes of a narrow band, the
    test table everything more precise. *)
Theorem gaia_train_pairs_error_band (tables : list (list tgas_row)) (g : gaia_columns)
    (m1 m2 : list Z) (ratio : list fval) (train m1_1 m2_2 : list Z) (k : Z) :
  gaia_clean (gaia_concat tables) = Ok g ->
  np.take (parallax_percent g) m2 = Ok ratio ->
  gaia_select "train" (parallax_percent g) m1 m2 = Ok (train, m1_1, m2_2) ->
  k ∈ train ->
  exists q, ratio !! Z.to_nat k = Some (FNum q) /\ (1 # 10 <= q)%Q /\ (q <= 2 # 10)%Q.
Proof.
  intros Hclean Hratio Hsel Hk.
  rewrite gaia_clean_rows in Hclean. injection Hclean as <-.
  rewrite parallax_percent_rows in *.
  assert (Hall : Forall (fun x => f_gt x (2 # 10) = false) ratio).
  { eapply Forall_impl; [exact (take_elem_of _ _ _ Hratio)|].
    intros x (r & -> & Hr)%list_elem_of_fmap.
    apply list_elem_of_In, filter_In in Hr as [_ Hkept].
    unfold tgas_kept in Hkept. apply andb_true_iff in Hkept as [_ H].
    by apply negb_true_iff in H. }
  unfold gaia_select in Hsel. rewrite Hratio in Hsel.
  cbn [mbind result_bind] in Hsel.
  change (String.eqb "train" "train") with true in Hsel. cbv iota in Hsel.
  set (train' := np.where_ (map (fun x => f_ge x (1 # 10)) ratio)) in Hsel.
  destruct (np.take m1 train'); cbn [mbind result_bind] in Hsel; [|discriminate Hsel].
  destruct (np.take m2 train'); cbn [mbind result_bind] in Hsel; [|discriminate Hsel].
  injection Hsel as <- _ _. subst train'.
  apply elem_of_where in Hk as [H0 Hk].
  change (map (fun x => f_ge x (1 # 10)) ratio) with ((fun x => f_ge x (1 # 10)) <$> ratio) in Hk.
  rewrite list_lookup_fmap in Hk.
  destruct (ratio !! Z.to_nat k) as [x|] eqn:Hx; [|discriminate Hk].
  cbn in Hk. injection Hk as Hge.
  rewrite Forall_forall in Hall.
  pose proof (Hall x (list_elem_of_lookup_2 _ _ _ Hx)) as Hgt.
  destruct x as [q|[]|]; cbn in Hge, Hgt; try discriminate.
  exists q. split; [done|]. split.
  - by apply Qle_bool_iff.
  - unfold Qltb in Hgt. apply negb_false_iff in Hgt. by apply Qle_bool_iff.
Qed.

Lemma gaia_train_pairs_error_band_witness :
  exists q, [FNaN; FNum ((1 # 10) / 2); FNum ((15 # 100) / 1)] !! Z.to_nat 2 = Some (FNum q)
            /\ (1 # 10 <= q)%Q /\ (q <= 2 # 10)%Q.
Proof.
  apply (gaia_train_pairs_error_band demo_tgas demo_gaia [0; 1; 2] [0; 1; 2]
           [FNaN; FNum ((1 # 10) / 2); FNum ((15 # 100) / 1)] [2] [2] [2] 2).
  - vm_compute. reflexivity.
  - vm_compute. reflexivity.
  - vm_compute. reflexivity.
  - apply list_elem_of_here.
Defined.

Section GaiaProofs.

Variable allstar : Z -> result (list allstar_row).
Variable tgas : Z -> list (list tgas_row).
Variable gaia_default_dr : option Z -> Z.
Variable xmatch :
  list fval -> list fval -> list fval -> list fval -> list fval -> list fval ->
  list Z * list Z * list fval.
Variable to_absmag : list fval -> list fval -> list fval.
Variable local_path : Z -> string -> string.
Variable path_exists : string -> bool.
Variable combined_spectra : Z -> Z -> string -> option Z * string.
Variable fits_open : string -> aspcap_file.

Lemma gaia_rows_other_release (apogee_dr : Z) (apogee_ids : list string)
    (location_ids : list Z) (spec : list (list fval)) (index : Z) (rest : list Z) :
  apogee_dr <> 14 ->
  exists e, gaia_rows local_path path_exists combined_spectra fits_open
              apogee_dr apogee_ids location_ids spec (index :: rest) = Err e.
Proof.
  intros Hdr%Z.eqb_neq. cbn [gaia_rows]. unfold gaia_row. rewrite Hdr.
  destruct (row_at apogee_ids index); cbn [mbind result_bind]; [|by eexists].
  destruct (row_at location_ids index); cbn [mbind result_bind]; by eexists.
Qed.

Lemma gaia_table_other_release (apogee_dr : Z) (apogee_ids : list string)
    (location_ids : list Z) (k_mag_apogee teff : list fval) (g : gaia_columns)
    (m1 m2 : list Z) (part : string) (f : h5file) :
  apogee_dr <> 14 ->
  gaia_table to_absmag local_path path_exists combined_spectra fits_open
    apogee_dr apogee_ids location_ids k_mag_apogee teff g m1 m2 part = Ok f ->
  dataset_of "spectra" f = Some (Spectra []) /\ dataset_of "teff" f = Some (Values []).
Proof.
  intros Hdr. unfold gaia_table.
  destruct (gaia_select part (parallax_percent g) m1 m2) as [[[fi m1_1] m2_2]|];
    cbn [mbind result_bind]; [|intros H; discriminate H].
  destruct (np.take k_mag_apogee m1_1); cbn [mbind result_bind]; [|intros H; discriminate H].
  destruct (np.take (parallax_gaia g) m2_2); cbn [mbind result_bind];
    [|intros H; discriminate H].
  destruct m1_1 as [|index rest].
  - cbn [gaia_rows np.take mbind result_bind]. intros [= <-]. done.
  - destruct (gaia_rows_other_release apogee_dr apogee_ids location_ids [] index rest Hdr)
      as [e ->].
    cbn [mbind result_bind]. intros H; discriminate H.
Qed.

(** X20 (h5_compiler.py l.590-611): for an APOGEE release other than 14 the
    loop over the matched stars raises at its first star, before any spectrum
    is read: a run of compile_gaia for such a release (13 included, which the
    message names as supported) that ends normally has written tables with no
    spectrum and no temperature at all. *)
Theorem compile_gaia_other_release_has_no_rows (h5name : option string)
    (gaia_dr : option Z) (apogee_dr : Z) (SNR_low vscattercut : Q)
    (written : disk) (name : string) (f : h5file) :
  apogee_dr <> 14 ->
  compile_gaia allstar tgas gaia_default_dr xmatch to_absmag local_path path_exists
    combined_spectra fits_open h5name gaia_dr (Some apogee_dr) SNR_low vscattercut
  = (written, Ok tt) ->
  (name, f) ∈ written ->
  dataset_of "spectra" f = Some (Spectra []) /\ dataset_of "teff" f = Some (Values []).
Proof.
  intros Hdr. unfold compile_gaia.
  destruct (h5name_check h5name) as [h5|]; cbn [mbind result_bind];
    [|intros H; discriminate H].
  cbn [apogee_default_dr].
  destruct (allstar apogee_dr) as [cat|]; cbn [mbind result_bind];
    [|intros H; discriminate H].
  destruct (filtered_apogee_index cat SNR_low vscattercut) as [idx|];
    cbn [mbind result_bind]; [|intros H; discriminate H].
  destruct (np.take (map RA cat) idx); cbn [mbind result_bind]; [|intros H; discriminate H].
  destruct (np.take (map DEC cat) idx); cbn [mbind result_bind]; [|intros H; discriminate H].
  destruct (np.take (map K cat) idx); cbn [mbind result_bind]; [|intros H; discriminate H].
  destruct (np.take (map teff_of cat) idx); cbn [mbind result_bind];
    [|intros H; discriminate H].
  destruct (np.take (map APOGEE_ID cat) idx); cbn [mbind result_bind];
    [|intros H; discriminate H].
  destruct (np.take (map LOCATION_ID cat) idx); cbn [mbind result_bind];
    [|intros H; discriminate H].
  destruct (gaia_clean (gaia_concat (tgas (gaia_default_dr gaia_dr)))) as [g|];
    cbn [mbind result_bind]; [|intros H; discriminate H].
  destruct (xmatch _ _ _ _ _ _) as [[m1 m2] sep].
  cbn [gaia_tables].
  match goal with
  | |- context [gaia_table ?a ?b ?c ?d ?e ?dr ?ids ?locs ?k ?t ?g ?m1 ?m2 "train"] =>
      pose proof (fun f => gaia_table_other_release dr ids locs k t g m1 m2 "train" f Hdr) as Htrain;
      pose proof (fun f => gaia_table_other_release dr ids locs k t g m1 m2 "test" f Hdr) as Htest;
      destruct (gaia_table a b c d e dr ids locs k t g m1 m2 "train") as [f1|];
        [|intros H; discriminate H];
      destruct (gaia_table a b c d e dr ids locs k t g m1 m2 "test") as [f2|];
        [|intros H; discriminate H]
  end.
  intros [= <-]. cbn [app].
  intros [E|[E|E%elem_of_nil]%elem_of_cons]%elem_of_cons; [| |done];
    injection E as -> ->; auto.
Qed.

(** X21 (h5_compiler.py l.590-611): in compile_gaia a spectrum is read only
    for a matched star whose file is already on disk; for any other star the
    download is started but its result is never used, whatever it is, and the
    star gets no row in the spectra column. *)
Theorem gaia_spectra_only_from_disk (apogee_ids : list string) (location_ids : list Z)
    (spec : list (list fval)) (m1_1 : list Z) :
  forallb (gaia_long_enough local_path path_exists fits_open apogee_ids location_ids) m1_1
  = true ->
  gaia_rows local_path path_exists combined_spectra fits_open 14 apogee_ids location_ids
    spec m1_1
  = Ok (spec ++
        omap (fun index =>
                (fun path => gap_free 14 (hdu1_data (fits_open path)))
                <$> gaia_on_disk local_path path_exists apogee_ids location_ids index)
             m1_1).
Proof.
  revert spec. induction m1_1 as [|index rest IH]; intros spec;
    cbn [forallb gaia_rows omap list_omap].
  - intros _. by rewrite app_nil_r.
  - intros [Hi Hrest]%andb_true_iff.
    unfold gaia_row, gaia_long_enough, gaia_on_disk in *.
    destruct (row_at apogee_ids index) as [apogee_id|]; [|discriminate Hi].
    destruct (row_at location_ids index) as [location_id|]; [|discriminate Hi].
    cbn [mbind result_bind]. change (14 =? 14) with true. cbv iota zeta in *.
    destruct (path_exists (local_path location_id apogee_id)); cbn [negb mbind result_bind fmap option_fmap option_map].
    + apply Z.leb_le in Hi.
      destruct (gap_delete_14_long (hdu1_data (fits_open (local_path location_id apogee_id))) Hi)
        as [-> _].
      cbn [mbind result_bind]. rewrite (IH _ Hrest). by rewrite <- app_assoc.
    + apply (IH _ Hrest).
Qed.

End GaiaProofs.

Section ApstarProofs.

Variable allstar : Z -> result (list allstar_row).
Variable visit_spectra : Z -> Z -> string -> option Z * string.
Variable fits_nvisits : string -> Z.

Lemma apstar_rows_ok (dr : Z) (cat : list allstar_row) (filtered_index : list Z) :
  (forall i, i ∈ filtered_index -> exists r, row_of cat i r) ->
  apstar_rows visit_spectra fits_nvisits dr cat filtered_index = Ok tt.
Proof.
  induction filtered_index as [|index rest IH]; intros Hrows; [done|].
  cbn [apstar_rows]. destruct (Hrows index) as (r & H0 & Hr); [apply list_elem_of_here|].
  unfold apstar_row, row_at. apply Z.leb_le in H0. rewrite H0, Hr.
  cbn [mbind result_bind].
  destruct (visit_spectra dr (LOCATION_ID r) (APOGEE_ID r)) as [[w|] path];
    cbn [mbind result_bind]; apply IH; intros i Hi; apply Hrows; by apply list_elem_of_further.
Qed.

(** X22 (h5_compiler.py l.281-482): compile_apogee_apstar stores nothing:
    whatever the catalogue and the cuts, once the catalogue is loaded the run
    ends normally with the train and the test file both created without a
    single dataset. *)
Theorem compile_apogee_apstar_stores_nothing (h5name : string) (dr : option Z)
    (c : apogee_cuts) (cat : list allstar_row) :
  allstar (apogee_default_dr dr) = Ok cat ->
  compile_apogee_apstar allstar visit_spectra fits_nvisits (Some h5name) dr c
  = ([(h5name +:+ "_train.h5", []); (h5name +:+ "_test.h5", [])], Ok tt).
Proof.
  intros Hcat. unfold compile_apogee_apstar. cbn [h5name_check]. rewrite Hcat.
  destruct (filtered_train_index_spec cat c) as (train & -> & _ & Htrain).
  destruct (filtered_test_index_spec cat c) as (test & -> & _ & Htest).
  cbn [apstar_tables].
  rewrite apstar_rows_ok; [reflexivity|].
  intros i [Hi|Hi]%elem_of_app.
  - apply Htrain in Hi as (r & Hr & _). by exists r.
  - apply Htest in Hi as (r & Hr & _). by exists r.
Qed.

End ApstarProofs.

Lemma compile_apogee_apstar_stores_nothing_witness :
  compile_apogee_apstar (demo_allstar one_star_catalog) demo_combined_spectra (fun _ => 3)
    (Some "ds") None default_cuts
  = ([("ds" +:+ "_train.h5", []); ("ds" +:+ "_test.h5", [])], Ok tt).
Proof.
  apply (compile_apogee_apstar_stores_nothing (demo_allstar one_star_catalog)
           demo_combined_spectra (fun _ => 3) "ds" None default_cuts one_star_catalog).
  reflexivity.
Defined.

Lemma gaia_spectra_only_from_disk_witness :
  gaia_rows (fun _ apogee_id => apogee_id) (String.eqb "a") demo_combined_spectra
    (demo_fits_open 8575) 14 ["a"; "b"] [1; 2] [] [0; 1]
  = Ok ([] ++
        omap (fun index =>
                (fun path => gap_free 14 (hdu1_data (demo_fits_open 8575 path)))
                <$> gaia_on_disk (fun _ apogee_id => apogee_id) (String.eqb "a")
                      ["a"; "b"] [1; 2] index)
             [0; 1]).
Proof.
  apply (gaia_spectra_only_from_disk (fun _ apogee_id => apogee_id) (String.eqb "a")
           demo_combined_spectra (demo_fits_open 8575) ["a"; "b"] [1; 2] [] [0; 1]).
  vm_compute. reflexivity.
Defined.

Lemma compile_gaia_other_release_has_no_rows_witness :
  dataset_of "spectra" [("spectra", Spectra []); ("teff", Values []); ("absmag", Values [])]
  = Some (Spectra [])
  /\ dataset_of "teff" [("spectra", Spectra []); ("teff", Values []); ("absmag", Values [])]
     = Some (Values []).
Proof.
  apply (compile_gaia_other_release_has_no_rows
           (demo_allstar one_star_catalog) (fun _ => demo_tgas) (fun _ => 1)
           (fun _ _ _ _ _ _ => ([], [], [])) (fun k_mag _ => k_mag)
           (fun _ apogee_id => apogee_id) (fun _ => true) demo_combined_spectra
           (demo_fits_open 8575) (Some "gaia") None 13 100 1
           [ ("gaia_train.h5",
              [("spectra", Spectra []); ("teff", Values []); ("absmag", Values [])]);
             ("gaia_test.h5",
              [("spectra", Spectra []); ("teff", Values []); ("absmag", Values [])]) ]
           "gaia_train.h5").
  - lia.
  - vm_compute. reflexivity.
  - apply list_elem_of_here.
Defined.

(** ** The compiled tables and the label filter *)

Lemma count_from_row_ordered (a : Z) (len : nat) : row_ordered (np.count_from a len).
Proof.
  revert a. induction len as [|len IH]; intros a; cbn [np.count_from]; constructor.
  - apply IH.
  - apply Forall_forall. intros x Hx%elem_of_count_from. lia.
Qed.

Lemma fetched_rows_elem (combined_spectra : Z -> Z -> string -> option Z * string)
    (fits_open : string -> aspcap_file) (dr : Z) (cat : list allstar_row)
    (filtered_index : list Z) (p : allstar_row * aspcap_file) :
  p ∈ fetched_rows combined_spectra fits_open dr cat filtered_index ->
  exists index, index ∈ filtered_index /\ row_of cat index (fst p).
Proof.
  unfold fetched_rows. intros (index & Hi & Hp)%list_elem_of_omap.
  exists index. split; [done|]. unfold row_at in Hp.
  destruct (Z.leb_spec 0 index); [|discriminate Hp].
  destruct (cat !! Z.to_nat index) as [r|] eqn:Hr; [|discriminate Hp].
  destruct (fetched combined_spectra fits_open dr r); [|discriminate Hp].
  cbn in Hp. injection Hp as <-. by split.
Qed.

Lemma f_ge_ne (x : fval) (c d : Q) : (d < c)%Q -> f_ge x c = true -> f_ne x d = true.
Proof.
  intros Hdc. destruct x as [q|s|]; cbn; [|done..].
  intros Hq%Qle_bool_iff. apply negb_true_iff, not_true_is_false.
  intros E%Qeq_bool_iff. rewrite E in Hq. by apply (Qlt_not_le _ _ Hdc).
Qed.

(** X23 (h5_compiler.py l.118-145 with train.py l.168-178): the label
    filter of the training code removes nothing when the targets are teff and
    logg and the table was written by compile_apogee with a lower temperature
    cut above -9999: the cuts on teff and logg have already excluded every
    star with one of these labels missing, so every row of the table is
    kept. *)
Theorem compiled_teff_logg_never_missing
    (combined_spectra : Z -> Z -> string -> option Z * string)
    (fits_open : string -> aspcap_file) (dr : Z) (cat : list allstar_row)
    (c : apogee_cuts) (train : list Z) :
  (-9999 < tefflow c)%Q ->
  filtered_train_index cat c = Ok train ->
  forallb (long_enough combined_spectra fits_open dr cat) train = true ->
  exists st,
    apogee_rows combined_spectra fits_open dr cat empty_columns train = Ok st
    /\ index_not9999 [col_teff st; col_logg st]
       = np.arange 0 (Z.of_nat (length (col_spec st))).
Proof.
  intros Hteff Htrain Hlong. eexists. split; [by apply apogee_rows_fetched|].
  set (rows := fetched_rows combined_spectra fits_open dr cat train).
  destruct (filtered_train_index_spec cat c) as (out & E & _ & He).
  rewrite Htrain in E. injection E as <-.
  assert (Hrows : forall p, p ∈ rows ->
            f_ne (teff_of (fst p)) (-9999) = true /\ f_ne (logg_of (fst p)) (-9999) = true).
  { intros p (index & Hi & Hr)%fetched_rows_elem.
    apply He in Hi as (r & Hr' & Ho & _).
    rewrite (row_of_inj _ _ _ _ Hr Hr'). unfold passes_other_cuts in Ho.
    repeat match goal with
           | H : _ && _ = true |- _ => apply andb_true_iff in H as [H ?]
           end.
    split; [by eapply f_ge_ne|done]. }
  destruct (index_not9999_spec [col_teff (columns_from rows); col_logg (columns_from rows)])
    as [Hs Hk].
  apply row_ordered_ext; [done|apply count_from_row_ordered|].
  intros k. rewrite Hk, elem_of_arange. unfold columns_from.
  cbn [col_teff col_logg col_spec]. rewrite length_map, !Forall_cons, Forall_nil.
  change (map ?f rows) with (f <$> rows). rewrite !list_lookup_fmap. split.
  - intros (_ & H0 & (x & Hx & _) & _).
    destruct (rows !! Z.to_nat k) as [p|] eqn:Hp; [|discriminate Hx].
    apply lookup_lt_Some in Hp. lia.
  - intros Hk'. split; [done|]. split; [lia|].
    destruct (lookup_lt_is_Some_2 rows (Z.to_nat k)) as [p Hp]; [lia|].
    rewrite Hp. cbn.
    destruct (Hrows p (list_elem_of_lookup_2 _ _ _ Hp)) as [H1 H2].
    split; [by eexists|]. split; [by eexists|done].
Qed.

Lemma compiled_teff_logg_never_missing_witness :
  exists st,
    apogee_rows demo_combined_spectra (demo_fits_open 8575) 14 one_star_catalog
      empty_columns [0] = Ok st
    /\ index_not9999 [col_teff st; col_logg st]
       = np.arange 0 (Z.of_nat (length (col_spec st))).
Proof.
  apply (compiled_teff_logg_never_missing demo_combined_spectra (demo_fits_open 8575) 14
           one_star_catalog default_cuts [0]).
  - reflexivity.
  - vm_compute. reflexivity.
  - vm_compute. reflexivity.
Defined.

(** ** The filters of compile_apogee and compile_gaia *)

Lemma elem_of_gaia_criteria (cat : list allstar_row) (SNR_low vscattercut : Q) (i : Z) :
  Forall (fun s => i ∈ s) (gaia_criteria cat SNR_low vscattercut)
  <-> exists r, row_of cat i r /\ gaia_passes SNR_low vscattercut r = true.
Proof.
  unfold gaia_criteria. cbv zeta. rewrite !Forall_cons, Forall_nil.
  rewrite !elem_of_where_map. unfold gaia_passes. split.
  - intros H. decompose_criteria.
    match goal with Hr : row_of _ _ ?r |- _ => exists r; split; [exact Hr|] end.
    repeat match goal with H : _ = true |- _ => rewrite H; clear H end. done.
  - intros (r & Hr & Ho).
    repeat match goal with
           | H : _ && _ = true |- _ => apply andb_true_iff in H as [? ?]
           end.
    repeat split; exists r; (split; assumption).
Qed.

Lemma filtered_apogee_index_spec (cat : list allstar_row) (SNR_low vscattercut : Q) :
  exists out, filtered_apogee_index cat SNR_low vscattercut = Ok out
    /\ row_ordered out
    /\ forall i, i ∈ out <-> exists r, row_of cat i r
                              /\ gaia_passes SNR_low vscattercut r = true.
Proof.
  destruct (reduce_intersect1d_spec (gaia_criteria cat SNR_low vscattercut))
    as (out & E & Hs & He).
  { cbn [gaia_criteria length]. lia. }
  exists out. split; [done|]. split; [done|].
  intros i. rewrite He. apply elem_of_gaia_criteria.
Qed.

Lemma f_gt_mono (x : fval) (c d : Q) : (d <= c)%Q -> f_gt x c = true -> f_gt x d = true.
Proof.
  intros Hdc. destruct x as [q|s|]; cbn; [|done..].
  rewrite !Qltb_lt. intros H. by eapply Qle_lt_trans.
Qed.

Lemma f_lt_mono (x : fval) (c d : Q) : (c <= d)%Q -> f_lt x c = true -> f_lt x d = true.
Proof.
  intros Hdc. destruct x as [q|s|]; cbn; [|done..].
  rewrite !Qltb_lt. intros H. by eapply Qlt_le_trans.
Qed.

Lemma f_ge_mono (x : fval) (c d : Q) : (d <= c)%Q -> f_ge x c = true -> f_ge x d = true.
Proof.
  intros Hdc. destruct x as [q|s|]; cbn; [|done..].
  rewrite !Qle_bool_iff. intros H. by eapply Qle_trans.
Qed.

Lemma f_le_mono (x : fval) (c d : Q) : (c <= d)%Q -> f_le x c = true -> f_le x d = true.
Proof.
  intros Hdc. destruct x as [q|s|]; cbn; [|done..].
  rewrite !Qle_bool_iff. intros H. by eapply Qle_trans.
Qed.

(** X24 (h5_compiler.py l.118-145 and l.512-527): the filter of
    compile_gaia keeps exactly the rows that meet its seven criteria, and it
    is the weaker one: when both flag cuts of compile_apogee are on and its
    temperature, scatter and lower signal-to-noise cuts are at least as strict
    (true of the defaults of the two functions), every row of the train and
    of the test index of compile_apogee is in the index of compile_gaia. *)
Theorem apogee_index_within_gaia_index (cat : list allstar_row) (c : apogee_cuts)
    (SNR_low vscattercut' : Q) (train test idx : list Z) :
  starflagcut c = true -> aspcapflagcut c = true ->
  (4000 <= tefflow c)%Q -> (teffhigh c <= 5500)%Q ->
  (vscattercut c <= vscattercut')%Q ->
  (SNR_low <= SNRtrain_low c)%Q -> (SNR_low <= SNRtest_low c)%Q ->
  filtered_train_index cat c = Ok train ->
  filtered_test_index cat c = Ok test ->
  filtered_apogee_index cat SNR_low vscattercut' = Ok idx ->
  (forall i, i ∈ idx <-> exists r, row_of cat i r /\ gaia_passes SNR_low vscattercut' r = true)
  /\ (forall i, i ∈ train ++ test -> i ∈ idx).
Proof.
  intros Hsf Haf Htl Hth Hvs Hs1 Hs2 Htrain Htest Hidx.
  destruct (filtered_apogee_index_spec cat SNR_low vscattercut') as (out & E & _ & He).
  rewrite Hidx in E. injection E as <-. split; [exact He|].
  destruct (filtered_train_index_spec cat c) as (tr & E & _ & Htr).
  rewrite Htrain in E. injection E as <-.
  destruct (filtered_test_index_spec cat c) as (te & E & _ & Hte).
  rewrite Htest in E. injection E as <-.
  assert (Hother : forall r snr_low,
            passes_other_cuts c r = true -> f_gt (SNR r) snr_low = true ->
            (SNR_low <= snr_low)%Q -> gaia_passes SNR_low vscattercut' r = true).
  { intros r snr_low Ho Hsnr Hlow. unfold passes_other_cuts in Ho. rewrite Hsf, Haf in Ho.
    repeat match goal with
           | H : _ && _ = true |- _ => apply andb_true_iff in H as [H ?]
           end.
    unfold gaia_passes. repeat (apply andb_true_iff; split); try done.
    - by eapply f_gt_mono.
    - by eapply f_lt_mono.
    - by eapply f_ge_mono.
    - by eapply f_le_mono. }
  intros i [Hi|Hi]%elem_of_app; apply He.
  - apply Htr in Hi as (r & Hr & Ho & [Hb _]%andb_true_iff).
    exists r. split; [done|]. by eapply Hother.
  - apply Hte in Hi as (r & Hr & Ho & [Hb _]%andb_true_iff).
    exists r. split; [done|]. by eapply Hother.
Qed.

Lemma apogee_index_within_gaia_index_witness :
  (forall i, i ∈ [0] <-> exists r, row_of one_star_catalog i r /\ gaia_passes 100 1 r = true)
  /\ (forall i, i ∈ [0] ++ [] -> i ∈ [0]).
Proof.
  apply (apogee_index_within_gaia_index one_star_catalog default_cuts 100 1 [0] [] [0]).
  - reflexivity.
  - reflexivity.
  - vm_compute. discriminate.
  - vm_compute. discriminate.
  - vm_compute. discriminate.
  - vm_compute. discriminate.
  - vm_compute. discriminate.
  - vm_compute. reflexivity.
  - vm_compute. reflexivity.
  - vm_compute. reflexivity.
Defined.

Lemma apogee_rows_aligned_witness :
  let rows := fetched_rows demo_combined_spectra (demo_fits_open 8575) 14
                two_star_catalog [0; 1] in
  apogee_rows demo_combined_spectra (demo_fits_open 8575) 14 two_star_catalog
    empty_columns [0; 1]
  = Ok (columns_from rows)
  /\ Forall2 (fun index p =>
                row_of two_star_catalog index (fst p)
                /\ fetched demo_combined_spectra (demo_fits_open 8575) 14 (fst p)
                   = Some (snd p))
             (List.filter (fetch_ok demo_combined_spectra (demo_fits_open 8575) 14
                             two_star_catalog) [0; 1])
             rows.
Proof.
  apply (apogee_rows_aligned demo_combined_spectra (demo_fits_open 8575) 14
           two_star_catalog [0; 1]).
  vm_compute. reflexivity.
Defined.

Lemma index_column_counts_failed_fetches_witness :
  let rows := fetched_rows demo_combined_spectra (demo_fits_open 8575) 14
                two_star_catalog [0; 1] in
  let file := apogee_h5 (columns_from rows) [0; 1] in
  apogee_tables demo_combined_spectra (demo_fits_open 8575) "ds" 14 two_star_catalog
    [("train", [0; 1])] []
  = ([] ++ [(table_name "ds" "train", file)], Ok tt)
  /\ dataset_of "index" file = Some (Indices [0; 1])
  /\ Forall (fun nd => fst nd <> "index" -> rows_of (snd nd) = length rows) file
  /\ length [0; 1]
     = (length rows
        + length (List.filter
                    (fun index => negb (fetch_ok demo_combined_spectra (demo_fits_open 8575)
                                          14 two_star_catalog index))
                    [0%Z; 1%Z]))%nat.
Proof.
  apply (index_column_counts_failed_fetches demo_combined_spectra (demo_fits_open 8575)
           "ds" "train" 14 two_star_catalog [0; 1] []).
  vm_compute. reflexivity.
Defined.

Lemma index_column_aligned_without_failures_witness :
  let rows := fetched_rows demo_combined_spectra (demo_fits_open 8575) 14
                one_star_catalog [0] in
  apogee_rows demo_combined_spectra (demo_fits_open 8575) 14 one_star_catalog
    empty_columns [0]
  = Ok (columns_from rows)
  /\ dataset_of "index" (apogee_h5 (columns_from rows) [0]) = Some (Indices [0])
  /\ Forall2 (fun index p =>
                row_of one_star_catalog index (fst p)
                /\ fetched demo_combined_spectra (demo_fits_open 8575) 14 (fst p)
                   = Some (snd p))
             [0] rows.
Proof.
  apply (index_column_aligned_without_failures demo_combined_spectra (demo_fits_open 8575)
           14 one_star_catalog [0]).
  - vm_compute. reflexivity.
  - vm_compute. reflexivity.
Defined.


Lemma compile_apogee_keeps_train_file_on_error_witness :
  compile_apogee (demo_allstar short_star_catalog) demo_combined_spectra
    demo_fits_open_short (Some "ds") None default_cuts
  = ([("ds" +:+ "_train.h5",
       apogee_h5 (columns_from
                    (fetched_rows demo_combined_spectra demo_fits_open_short
                       (apogee_default_dr None) short_star_catalog [0]))
                 [0])],
     Err IndexError).
Proof.
  apply (compile_apogee_keeps_train_file_on_error (demo_allstar short_star_catalog)
           demo_combined_spectra demo_fits_open_short "ds" None default_cuts
           short_star_catalog [0] [1] IndexError).
  - reflexivity.
  - vm_compute. reflexivity.
  - vm_compute. reflexivity.
  - vm_compute. reflexivity.
  - vm_compute. reflexivity.
Defined.

Lemma index_not9999_complete_rows_witness :
  row_ordered (index_not9999 [[FNum 1; FNum (-9999)]; [FNaN; FNum 2]])
  /\ FNaN <> FNum (-9999).
Proof.
  destruct (index_not9999_complete_rows [[FNum 1; FNum (-9999)]; [FNaN; FNum 2]])
    as (Hs & _ & Hne).
  split; [exact Hs|].
  apply (Hne 0 FNaN [FNaN; FNum 2]).
  - vm_compute. apply list_elem_of_here.
  - apply list_elem_of_further, list_elem_of_here.
  - reflexivity.
Defined.

Lemma target_to_aspcap_conversion_idempotent_witness :
  target_to_aspcap_conversion (target_to_aspcap_conversion "Fe")
  = target_to_aspcap_conversion "Fe"
  /\ target_to_aspcap_conversion "Ti2" = "Ti2".
Proof.
  destruct (target_to_aspcap_conversion_idempotent "Fe") as [[_ H1] _].
  destruct (target_to_aspcap_conversion_idempotent "Ti2") as [_ H2].
  split.
  - apply H1. discriminate.
  - apply H2; [discriminate|vm_compute; lia].
Defined.

Lemma gaia_clean_is_row_filter_witness :
  tgas_star FNaN (FNum (3 # 10)) ∈ List.filter tgas_kept (concat demo_tgas).
Proof.
  destruct (gaia_clean_is_row_filter demo_tgas) as (_ & _ & _ & H).
  apply H.
  - vm_compute. do 2 apply list_elem_of_further. apply list_elem_of_here.
  - reflexivity.
Defined.
